(** * GamaReport: parsing a GAMA analysis log

    A shallow embedding of [gama/logging/GamaReport.py]: the constructor
    [GamaReport.__init__], the property [individuals] and the three
    module-level helpers [_find_metric_configuration],
    [_find_phase_information] and [_evaluations_to_dataframe], together
    with the Python and pandas operations they call.  Python exceptions
    are modelled by the error monad [result]. *)

From Stdlib Require Import Ascii String ZArith QArith Lia.
From Stdlib Require Import DecimalString DecimalFacts DecimalNat.
From stdpp Require Import base list strings gmap.

Local Open Scope string_scope.
Local Open Scope nat_scope.

(** ** Python exceptions *)

(** The detail of a [ValueError]: either the message of an explicit
    [raise ValueError(...)], or the operation that raised it. *)
Inductive value_error : Type :=
| Msg (s : string)
| NotEnoughValues (expected got : nat)
| TooManyValues (expected : nat)
| EmptySeparator
| CouldNotConvertToFloat (s : string)
| TimeDataDoesNotMatch (s : string)
| ColumnsPassed (passed had : nat)
| CannotSetFrame (column : string).

Inductive exn : Type :=
| ValueError (d : value_error)
| IndexError
| KeyError (key : string)
| TypeError
| UnboundLocalError (var : string)
| FileNotFoundError (path : string).

Inductive result (A : Type) : Type :=
| Ok (a : A)
| Raise (e : exn).
Arguments Ok {A} a.
Arguments Raise {A} e.

Definition bind {A B} (m : result A) (k : A -> result B) : result B :=
  match m with
  | Ok a => k a
  | Raise e => Raise e
  end.

Notation "'let*' x ':=' m 'in' k" := (bind m (fun x => k))
  (at level 10, x pattern, m at level 100, k at level 200).

Definition raises {A} (m : result A) : Prop := exists e, m = Raise e.

Definition is_Ok {A} (m : result A) : bool :=
  match m with
  | Ok _ => true
  | Raise _ => false
  end.

(** [[f(x) for x in xs]] where [f] may raise; evaluation is left to right. *)
Fixpoint mapM {A B} (f : A -> result B) (xs : list A) : result (list B) :=
  match xs with
  | [] => Ok []
  | x :: xs' => let* y := f x in let* ys := mapM f xs' in Ok (y :: ys)
  end.

(** ** Python strings and lists *)

Module Py.

Fixpoint startswith (s p : string) {struct p} : bool :=
  match p, s with
  | EmptyString, _ => true
  | String a p', String b s' => if Ascii.eqb a b then startswith s' p' else false
  | String _ _, EmptyString => false
  end.

Definition endswith (s p : string) : bool :=
  startswith (String.rev s) (String.rev p).

(** [s.split(sep)] for the non-empty separator [String c sep'].  [skip]
    counts the characters of a matched separator still to be passed. *)
Fixpoint split_go (c : ascii) (sep' : string) (skip : nat) (s : string)
  : list string :=
  match s with
  | EmptyString => [EmptyString]
  | String a s' =>
      match skip with
      | S k => split_go c sep' k s'
      | O =>
          if Ascii.eqb a c && startswith s' sep'
          then EmptyString :: split_go c sep' (String.length sep') s'
          else match split_go c sep' 0 s' with
               | p :: ps => String a p :: ps
               | [] => [String a EmptyString]
               end
      end
  end.

Definition split (s sep : string) : result (list string) :=
  match sep with
  | EmptyString => Raise (ValueError EmptySeparator)
  | String c sep' => Ok (split_go c sep' 0 s)
  end.

(** [s.split(c)] for a one-character literal separator. *)
Definition split_char (s : string) (c : ascii) : list string :=
  split_go c EmptyString 0 s.

(** [l[1:-1]] on a list. *)
Definition slice_1_m1 {A} (l : list A) : list A :=
  removelast (tail l).

(** [s[1:-1]] on a string. *)
Definition str_slice_1_m1 (s : string) : string :=
  string_of_list_ascii (slice_1_m1 (list_ascii_of_string s)).

(** [l[i]] for a non-negative index. *)
Definition index {A} (l : list A) (i : nat) : result A :=
  match l !! i with
  | Some x => Ok x
  | None => Raise IndexError
  end.

(** [a, b = l] *)
Definition unpack2 {A} (l : list A) : result (A * A) :=
  match l with
  | [a; b] => Ok (a, b)
  | _ => if length l <? 2 then Raise (ValueError (NotEnoughValues 2 (length l)))
         else Raise (ValueError (TooManyValues 2))
  end.

(** [a, b, c = l] *)
Definition unpack3 {A} (l : list A) : result (A * A * A) :=
  match l with
  | [a; b; c] => Ok (a, b, c)
  | _ => if length l <? 3 then Raise (ValueError (NotEnoughValues 3 (length l)))
         else Raise (ValueError (TooManyValues 3))
  end.

(** [a, b, *rest = l] *)
Definition unpack2_star {A} (l : list A) : result (A * A * list A) :=
  match l with
  | a :: b :: rest => Ok (a, b, rest)
  | _ => Raise (ValueError (NotEnoughValues 2 (length l)))
  end.

(** [a, *rest = l] *)
Definition unpack1_star {A} (l : list A) : result (A * list A) :=
  match l with
  | a :: rest => Ok (a, rest)
  | [] => Raise (ValueError (NotEnoughValues 1 0))
  end.

(** [a, b, c, d, e, f, g = l] *)
Definition unpack7 {A} (l : list A) : result (A * A * A * A * A * A * A) :=
  match l with
  | [a; b; c; d; e; f; g] => Ok (a, b, c, d, e, f, g)
  | _ => if length l <? 7 then Raise (ValueError (NotEnoughValues 7 (length l)))
         else Raise (ValueError (TooManyValues 7))
  end.

(** [bool(s)] on a string: true exactly for the non-empty strings. *)
Definition bool_of_str (s : string) : bool :=
  match s with
  | EmptyString => false
  | String _ _ => true
  end.

(** The characters [str.rstrip()] removes.  A character of a string is
    read as the code point of its number, below 256: the white space
    there is [\t \n \v \f \r], the separators [0x1c .. 0x1f], the space,
    the next line [0x85] and the no-break space [0xa0]. *)
Definition isspace (a : ascii) : bool :=
  let n := nat_of_ascii a in
  ((9 <=? n) && (n <=? 13)) || ((28 <=? n) && (n <=? 32))
  || (n =? 133) || (n =? 160).

Fixpoint lstrip_chars (l : list ascii) : list ascii :=
  match l with
  | a :: l' => if isspace a then lstrip_chars l' else l
  | [] => []
  end.

Definition rstrip (s : string) : string :=
  string_of_list_ascii (rev (lstrip_chars (rev (list_ascii_of_string s)))).

End Py.

(** ** What the module imports

    [float] and [datetime] are Python's, [pandas] is a library, and the
    constants of [gama.logging] and [gama.logging.machine_logging] are
    declared outside [GamaReport.py]; the development is parametric in
    them. *)

(** Python's [float] values: [float s] is [float(s)] ([None] when it raises
    [ValueError]), [float_le] is [<=], [isnan] is [math.isnan] and
    [float_of_nat] the conversion of an [int].  [float] reads [nan] as
    well as numbers, and a NaN is in no order with any value. *)
Class PyFloat := {
  pyfloat : Type;
  float : string -> option pyfloat;
  float_le : pyfloat -> pyfloat -> bool;
  isnan : pyfloat -> bool;
  float_of_nat : nat -> pyfloat;
}.

(** [strptime s] is [datetime.strptime(s, TIME_FORMAT)], as a number of
    microseconds since a fixed instant; [None] when it raises [ValueError]. *)
Class PyTime := {
  strptime : string -> option Z;
}.

(** The constants of [gama.logging.machine_logging]. [TOKENS_values] is
    [TOKENS.values()]. *)
Class MachineLogging := {
  PLE_START : string;
  PLE_DELIM : string;
  PLE_END : string;
  TOKENS_values : list string;
  TOKENS_EVALUATION_RESULT : string;
  TOKENS_PHASE_START : string;
  TOKENS_PHASE_END : string;
}.

(** [readlines path] is [open(path, 'r').readlines()]; [None] when the file
    cannot be opened. *)
Class FileSystem := {
  readlines : string -> option (list string);
}.

(** ** pandas *)

Section Pandas.
Context {FL : PyFloat}.

(** The values of a frame; [CNone] is a missing value, the [None] that
    fills up a short row. *)
Inductive cell : Type :=
| CInt (n : nat)
| CStr (s : string)
| CFloat (x : pyfloat)
| CNone.

(** A frame: the length of its index and its labelled columns, in order.
    Labels may repeat. *)
Record DataFrame : Type := {
  index_len : nat;
  columns : list (string * list cell);
}.

(** [pd.DataFrame(data, columns=column_names)] for a list of rows: short
    rows are filled up with missing values, and the width of the data has
    to be the number of column names. *)
Definition DataFrame_new (data : list (list cell)) (column_names : list string)
  : result DataFrame :=
  match data with
  | [] => Ok {| index_len := 0; columns := (fun c => (c, [])) <$> column_names |}
  | _ :: _ =>
      let width := max_list (length <$> data) in
      if width =? length column_names
      then Ok {| index_len := length data;
                 columns := imap (fun j c => (c, (fun row => default CNone (row !! j)) <$> data))
                                 column_names |}
      else Raise (ValueError (ColumnsPassed (length column_names) width))
  end.

(** What [df[key]] selects: a series when the label is unique, a
    sub-frame when it is repeated. *)
Inductive selection : Type :=
| Series (values : list cell)
| Frame (cols : list (string * list cell)).

Definition getitem (df : DataFrame) (key : string) : result selection :=
  match filter (fun c => c.1 = key) (columns df) with
  | [] => Raise (KeyError key)
  | [c] => Ok (Series c.2)
  | cs => Ok (Frame cs)
  end.

(** [pd.isna]: the missing value, and a float that is a NaN. *)
Definition isna (c : cell) : bool :=
  match c with
  | CNone => true
  | CFloat x => isnan x
  | _ => false
  end.

(** The larger of two values, compared as Python objects. *)
Definition cell_max (a b : cell) : result cell :=
  match a, b with
  | CFloat x, CFloat y => Ok (if float_le x y then b else a)
  | CInt n, CInt m => Ok (if n <=? m then b else a)
  | CInt n, CFloat y => Ok (if float_le (float_of_nat n) y then b else a)
  | CFloat x, CInt m => Ok (if float_le x (float_of_nat m) then b else a)
  | CStr s, CStr t => Ok (if String.leb s t then b else a)
  | _, _ => Raise TypeError
  end.

(** [cummax] skips the missing values ([skipna=True]): it runs
    [np.maximum.accumulate] over a copy of the column that has [-inf] in
    the place of every value with [pd.isna], and then writes NaN back
    into these places.  [masked] is a value of this copy. *)
Inductive masked : Type :=
| NegInf
| Val (c : cell).

Definition mask (c : cell) : masked := if isna c then NegInf else Val c.

(** [np.maximum] on two values of the copy.  [-inf] is a float: it is
    below every number, and has no order with a string. *)
Definition np_maximum (a b : masked) : result masked :=
  match a, b with
  | Val x, Val y => let* m := cell_max x y in Ok (Val m)
  | NegInf, NegInf => Ok NegInf
  | NegInf, Val (CStr _) => Raise TypeError
  | Val (CStr _), NegInf => Raise TypeError
  | NegInf, Val _ => Ok b
  | Val _, NegInf => Ok a
  end.

(** The running maximum of a column, after the running maximum [acc] of
    what came before.  A missing value takes part as [-inf] and stays
    in its place in the result. *)
Fixpoint accumulate (acc : option masked) (l : list cell) : result (list cell) :=
  match l with
  | [] => Ok []
  | c :: l' =>
      let* m := match acc with None => Ok (mask c) | Some a => np_maximum a (mask c) end in
      let* r := accumulate (Some m) l' in
      Ok ((if isna c then c else match m with Val c' => c' | NegInf => c end) :: r)
  end.

Definition cummax (sel : selection) : result selection :=
  match sel with
  | Series values => let* r := accumulate None values in Ok (Series r)
  | Frame cols =>
      let* rs := mapM (fun c => let* r := accumulate None c.2 in Ok (c.1, r)) cols in
      Ok (Frame rs)
  end.

(** [df[key] = value]: a series replaces the columns labelled [key], or
    becomes a new last column; a sub-frame of several columns cannot
    be stored under one label. *)
Definition setitem (df : DataFrame) (key : string) (value : selection)
  : result DataFrame :=
  match value with
  | Series values =>
      Ok {| index_len := index_len df;
            columns :=
              if bool_decide (key ∈ (columns df).*1)
              then (fun c => if bool_decide (c.1 = key) then (key, values) else c) <$> columns df
              else (columns df ++ [(key, values)])%list |}
  | Frame _ => Raise (ValueError (CannotSetFrame key))
  end.

End Pandas.

(** ** GamaReport.py *)

Definition string_of_nat (n : nat) : string :=
  NilZero.string_of_uint (Nat.to_uint n).

Definition lift_option {A} (o : option A) (e : exn) : result A :=
  match o with
  | Some a => Ok a
  | None => Raise e
  end.

Definition dict_getitem {V} (d : gmap string V) (key : string) : result V :=
  lift_option (d !! key) (KeyError key).

Section GamaReport.
Context {FL : PyFloat} {TM : PyTime} {ML : MachineLogging} {FS : FileSystem}.

Definition _find_metric_configuration (log_lines : list string)
  : result (list string) :=
  let* init_line := Py.index log_lines 1 in
  let* (_, arguments) := Py.unpack2 (Py.split_char init_line "(") in
  let* (scoring, regularize_length, _) :=
    Py.unpack2_star (Py.split_char arguments ",") in
  let* (_, metric) := Py.unpack2 (Py.split_char scoring "=") in
  let* (_, regularize) := Py.unpack2 (Py.split_char regularize_length "=") in
  if Py.bool_of_str regularize
  then Ok [metric; "length"]
  else Ok [metric].

Definition phases_order : list string :=
  ["preprocessing"; "search"; "postprocess"].

Definition parse_time (s : string) : result Z :=
  lift_option (strptime s) (ValueError (TimeDataDoesNotMatch s)).

(** [timedelta.total_seconds()] of a difference in microseconds. *)
Definition total_seconds (us : Z) : Q := Qmake us 1000000.

(** The body of the loop of [_find_phase_information]. *)
Definition phase_information (events_by_type : gmap string (list (list string)))
    (phase : string) : result (string * string * Q) :=
  let* starts := dict_getitem events_by_type TOKENS_PHASE_START in
  let* start_phase := Py.index (filter (fun event => phase ∈ event) starts) 0 in
  let* ends := dict_getitem events_by_type TOKENS_PHASE_END in
  let* end_phase := Py.index (filter (fun event => phase ∈ event) ends) 0 in
  let* (_, _, start_time) := Py.unpack3 start_phase in
  let* (_, algorithm, end_time) := Py.unpack3 end_phase in
  let* te := parse_time end_time in
  let* ts := parse_time start_time in
  Ok (phase, algorithm, total_seconds (te - ts)).

Definition _find_phase_information
    (events_by_type : gmap string (list (list string)))
  : result (list (string * string * Q)) :=
  mapM (phase_information events_by_type) phases_order.

Definition parse_float (s : string) : result pyfloat :=
  lift_option (float s) (ValueError (CouldNotConvertToFloat s)).

(** [[float(value) for value in fitness[1:-1].split(',')]] *)
Definition metrics_values_of (fitness : string) : result (list pyfloat) :=
  mapM parse_float (Py.split_char (Py.str_slice_1_m1 fitness) ",").

(** One iteration of the first loop of [_evaluations_to_dataframe]: the
    row appended to [evaluations] and the new value of [metrics_values]. *)
Definition evaluation_row (i : nat) (line : list string)
  : result (list cell * list pyfloat) :=
  let* (time, duration, process_duration, fitness, id_, pipeline_str, log_time) :=
    Py.unpack7 line in
  let* metrics_values := metrics_values_of fitness in
  Ok (([CInt i; CStr time; CStr duration] ++ (CFloat <$> metrics_values)
         ++ [CStr pipeline_str; CStr id_])%list,
      metrics_values).

(** The first loop, from index [i] on; [metrics_values] is [None] while
    the variable is unbound. *)
Fixpoint evaluation_loop (i : nat) (evaluation_lines : list (list string))
    (evaluations : list (list cell)) (metrics_values : option (list pyfloat))
  : result (list (list cell) * option (list pyfloat)) :=
  match evaluation_lines with
  | [] => Ok (evaluations, metrics_values)
  | line :: rest =>
      let* (row, mv) := evaluation_row i line in
      evaluation_loop (S i) rest (evaluations ++ [row])%list (Some mv)
  end.

Definition cummax_name (metric : string) : string := metric +:+ "_cummax".

(** The second loop: [df[f'{metric}_cummax'] = df[metric].cummax()]. *)
Fixpoint cummax_loop (df : DataFrame) (metric_names : list string)
  : result DataFrame :=
  match metric_names with
  | [] => Ok df
  | metric :: rest =>
      let* sel := getitem df metric in
      let* cm := cummax sel in
      let* df' := setitem df (cummax_name metric) cm in
      cummax_loop df' rest
  end.

Definition _evaluations_to_dataframe (evaluation_lines : list (list string))
    (metric_names : option (list string)) : result DataFrame :=
  let* (evaluations, metrics_values) :=
    evaluation_loop 0 evaluation_lines [] None in
  let* metric_names :=
    match metric_names with
    | Some names => Ok names
    | None =>
        let* mv := lift_option metrics_values (UnboundLocalError "metrics_values") in
        Ok ((fun m_i => "metric_" +:+ string_of_nat m_i) <$> seq 0 (length mv))
    end in
  let column_names :=
    (["n"; "start"; "duration"] ++ metric_names ++ ["pipeline"; "id"])%list in
  let* df := DataFrame_new evaluations column_names in
  cummax_loop df metric_names.

(** [[line.split(PLE_DELIM)[1:-1] for line in log_lines if ...]] *)
Definition ple_lines_of (log_lines : list string) : result (list (list string)) :=
  mapM (fun line => let* parts := Py.split line PLE_DELIM in Ok (Py.slice_1_m1 parts))
       (filter (fun line => Py.startswith line PLE_START && Py.endswith line PLE_END)
               log_lines).

(** [[event for line_token, *event in ple_lines if token == line_token]] *)
Definition events_of (token : string) (ple_lines : list (list string))
  : result (list (list string)) :=
  let* unpacked := mapM Py.unpack1_star ple_lines in
  Ok ((filter (fun p => token = p.1) unpacked).*2).

(** [{token: [...] for token in tokens}], continuing from the dict [d]. *)
Fixpoint events_by_type_of (tokens : list string) (ple_lines : list (list string))
    (d : gmap string (list (list string)))
  : result (gmap string (list (list string))) :=
  match tokens with
  | [] => Ok d
  | token :: rest =>
      let* events := events_of token ple_lines in
      events_by_type_of rest ple_lines (<[token := events]> d)
  end.

(** The attributes of a report.  [_individuals] is [None] after
    construction; it is the [cache] of the [individuals] property
    below. *)
Record GamaReport : Type := {
  name : string;
  metrics : list string;
  evaluations : DataFrame;
  phases : list (string * string * Q);
}.

(** The first lines of [__init__]: the check of the arguments and the
    reading of the file. *)
Definition load_log_lines (logfile : option string)
    (log_lines : option (list string)) : result (list string) :=
  match logfile, log_lines with
  | None, None =>
      Raise (ValueError (Msg "Either 'logfile' or 'loglines' must be provided. Both are None."))
  | Some _, Some _ =>
      Raise (ValueError (Msg "Exactly one of 'logfile' and 'loglines' may be provided at once."))
  | Some path, None =>
      let* raw := lift_option (readlines path) (FileNotFoundError path) in
      Ok (Py.rstrip <$> raw)
  | None, Some lines => Ok lines
  end.

(** The two comprehensions of [__init__] that build [events_by_type]. *)
Definition group_events (log_lines : list string)
  : result (gmap string (list (list string))) :=
  let* ple_lines := ple_lines_of log_lines in
  events_by_type_of TOKENS_values ple_lines ∅.

Definition GamaReport__init__ (logfile : option string)
    (log_lines : option (list string)) (name : option string)
  : result GamaReport :=
  let* log_lines := load_log_lines logfile log_lines in
  let name := match name with
              | Some n => n
              | None => match logfile with Some path => path | None => "nameless" end
              end in
  let* metrics := _find_metric_configuration log_lines in
  let* events_by_type := group_events log_lines in
  let* evaluation_lines := dict_getitem events_by_type TOKENS_EVALUATION_RESULT in
  let* evaluations := _evaluations_to_dataframe evaluation_lines (Some metrics) in
  let* phases := _find_phase_information events_by_type in
  Ok {| name := name; metrics := metrics; evaluations := evaluations;
        phases := phases |}.

End GamaReport.

(** ** The [individuals] property

    [Individual.from_string] is defined in
    [gama.genetic_programming.components] and [pset] is built when the
    module is loaded; the property is parametric in the type of the
    individuals and in [from_string pipeline], which stands for
    [Individual.from_string(pipeline, pset)] and is given whatever object
    the [pipeline] column holds. *)

(** The outcome of reading the property: besides the exceptions of [exn],
    the [AttributeError] of a frame that has no column of the name. *)
Inductive outcome (A : Type) : Type :=
| Returns (a : A)
| Raises (e : exn)
| RaisesAttributeError (attribute : string).
Arguments Returns {A} a.
Arguments Raises {A} e.
Arguments RaisesAttributeError {A} attribute.

Section Individuals.
Context {FL : PyFloat}.
Variable Individual : Type.
Variable from_string : cell -> result Individual.

(** [df.<label>] for a label that is not an attribute of the frame
    itself: the selection [df[label]]. *)
Definition getattr (df : DataFrame) (label : string) : outcome selection :=
  match getitem df label with
  | Ok sel => Returns sel
  | Raise _ => RaisesAttributeError label
  end.

(** What a loop over a selection yields: the values of a series, the
    column labels of a frame. *)
Definition iter (sel : selection) : list cell :=
  match sel with
  | Series values => values
  | Frame cols => CStr <$> cols.*1
  end.

(** [{id_: Individual.from_string(pipeline, pset) for id_, pipeline in
    pairs}], as the list of the pairs stored, in this order; in the
    dictionary a later pair takes the place of an earlier one with an
    equal key. *)
Fixpoint individuals_of (pairs : list (cell * cell))
  : result (list (cell * Individual)) :=
  match pairs with
  | [] => Ok []
  | (id_, pipeline) :: rest =>
      let* individual := from_string pipeline in
      let* stored := individuals_of rest in
      Ok ((id_, individual) :: stored)
  end.

(** The property [individuals] of a report whose attribute
    [_individuals] is [cache]: the value returned and the new value of
    the attribute. *)
Definition individuals (self : GamaReport) (cache : option (list (cell * Individual)))
  : outcome (list (cell * Individual) * option (list (cell * Individual))) :=
  match cache with
  | Some stored => Returns (stored, cache)
  | None =>
      match getattr (evaluations self) "id" with
      | Returns ids =>
          match getattr (evaluations self) "pipeline" with
          | Returns pipelines =>
              match individuals_of (zip (iter ids) (iter pipelines)) with
              | Ok stored => Returns (stored, Some stored)
              | Raise e => Raises e
              end
          | Raises e => Raises e
          | RaisesAttributeError attribute => RaisesAttributeError attribute
          end
      | Raises e => Raises e
      | RaisesAttributeError attribute => RaisesAttributeError attribute
      end
  end.

End Individuals.

(** ** A concrete instance

    A reading of decimal literals and of time stamps, a set of logging
    constants and a small log, on which the functions above can be run. *)

Module Sample.

Definition digit_of (a : ascii) : option Z :=
  let n := nat_of_ascii a in
  if (48 <=? n) && (n <=? 57) then Some (Z.of_nat (n - 48)) else None.

(** The value of a run of decimal digits, after the digits read so far. *)
Fixpoint digits_value (acc : Z) (l : list ascii) : option Z :=
  match l with
  | [] => Some acc
  | a :: l' =>
      match digit_of a with
      | Some d => digits_value (10 * acc + d)%Z l'
      | None => None
      end
  end.

Definition number (s : string) : option Z :=
  match s with
  | EmptyString => None
  | _ => digits_value 0 (list_ascii_of_string s)
  end.

(** Literals of the form [[+-]digits[.digits]], read exactly. *)
Definition decimal (s : string) : option Q :=
  let (sign, body) :=
    match s with
    | String "-" s' => ((-1)%Z, s')
    | String "+" s' => (1%Z, s')
    | _ => (1%Z, s)
    end in
  match Py.split_char body "." with
  | [int_part] =>
      match number int_part with
      | Some n => Some (Qmake (sign * n) 1)
      | None => None
      end
  | [int_part; frac_part] =>
      match digits_value 0 (list_ascii_of_string (int_part +:+ frac_part)) with
      | Some n =>
          if (String.length int_part + String.length frac_part =? 0)%nat then None
          else Some (Qmake (sign * n) (Z.to_pos (10 ^ Z.of_nat (String.length frac_part))))
      | None => None
      end
  | _ => None
  end.

(** Floats: the decimal numbers, and NaN. *)
Inductive number_or_nan : Type :=
| Finite (q : Q)
| NaN.

Definition read_float (s : string) : option number_or_nan :=
  if String.eqb s "nan" then Some NaN else Finite <$> decimal s.

Definition le_float (x y : number_or_nan) : bool :=
  match x, y with
  | Finite a, Finite b => Qle_bool a b
  | _, _ => false
  end.

#[export] Instance decimal_float : PyFloat := {|
  pyfloat := number_or_nan;
  float := read_float;
  float_le := le_float;
  isnan := fun x => match x with NaN => true | Finite _ => false end;
  float_of_nat := fun n => Finite (inject_Z (Z.of_nat n));
|}.

(** Days from 1970-01-01 to the given date of the Gregorian calendar. *)
Definition days_from_civil (y m d : Z) : Z :=
  let y' := (if m <=? 2 then y - 1 else y)%Z in
  let era := (y' / 400)%Z in
  let yoe := (y' - era * 400)%Z in
  let doy := ((153 * (if m >? 2 then m - 3 else m + 9) + 2) / 5 + d - 1)%Z in
  let doe := (yoe * 365 + yoe / 4 - yoe / 100 + doy)%Z in
  (era * 146097 + doe - 719468)%Z.

Definition is_leap (y : Z) : bool :=
  ((y mod 4 =? 0) && negb (y mod 100 =? 0) || (y mod 400 =? 0))%Z.

Definition days_in_month (y m : Z) : Z :=
  if (m =? 2)%Z then (if is_leap y then 29 else 28)%Z
  else if ((m =? 4) || (m =? 6) || (m =? 9) || (m =? 11))%Z then 30%Z
  else 31%Z.

Definition fixed_width (w : nat) (s : string) : option Z :=
  if (String.length s =? w)%nat then number s else None.

(** Time stamps [YYYY-MM-DD HH:MM:SS,f] with zero-padded fields and one to
    six digits of fraction, the form [%Y-%m-%d %H:%M:%S,%f] of Python's
    logging. *)
Definition timestamp (s : string) : option Z :=
  match Py.split_char s " " with
  | [date; clock] =>
      match Py.split_char date "-", Py.split_char clock "," with
      | [ys; ms; ds], [hms; fs] =>
          match Py.split_char hms ":" with
          | [hs; mins; secs] =>
              y ← fixed_width 4 ys; m ← fixed_width 2 ms; d ← fixed_width 2 ds;
              h ← fixed_width 2 hs; mi ← fixed_width 2 mins; sec ← fixed_width 2 secs;
              f ← number fs;
              if ((1 <=? y) && (1 <=? m) && (m <=? 12) && (1 <=? d)
                  && (d <=? days_in_month y m) && (h <? 24) && (mi <? 60)
                  && (sec <? 60))%Z
                 && (String.length fs <=? 6)%nat
              then Some ((((days_from_civil y m d * 24 + h) * 60 + mi) * 60 + sec) * 1000000
                         + f * 10 ^ Z.of_nat (6 - String.length fs))%Z
              else None
          | _ => None
          end
      | _, _ => None
      end
  | _ => None
  end.

#[export] Instance logging_time : PyTime := {| strptime := timestamp |}.

#[export] Instance logging_constants : MachineLogging := {|
  PLE_START := "PLE";
  PLE_DELIM := ";";
  PLE_END := "END!";
  TOKENS_values := ["EVAL"; "EVAL_ERR"; "START"; "END"; "INIT"];
  TOKENS_EVALUATION_RESULT := "EVAL";
  TOKENS_PHASE_START := "START";
  TOKENS_PHASE_END := "END";
|}.

Definition config_line : string :=
  "GamaClassifier(scoring=accuracy,regularize_length=True,max_total_time=3600)".

Definition phase_lines : list string :=
  [ "PLE;START;preprocessing;default;2020-01-01 10:00:00,000000;END!";
    "PLE;END;preprocessing;default;2020-01-01 10:00:05,500000;END!";
    "PLE;START;search;AsyncEA;2020-01-01 10:00:06,000000;END!";
    "PLE;END;search;AsyncEA;2020-01-01 10:10:06,000000;END!";
    "PLE;START;postprocess;BestFit;2020-01-01 10:10:07,000000;END!";
    "PLE;END;postprocess;BestFit;2020-01-01 10:10:09,250000;END!" ].

Definition eval_lines : list string :=
  [ "PLE;EVAL;2020-01-01 10:00:07,000000;1.5;1.4;(0.9,-5);id1;GaussianNB(data);2020-01-01 10:00:08,500000;END!";
    "PLE;EVAL;2020-01-01 10:00:09,000000;2.5;2.4;(0.8,-3);id2;BernoulliNB(data);2020-01-01 10:00:11,500000;END!";
    "PLE;EVAL;2020-01-01 10:00:12,000000;0.5;0.4;(0.95,-7);id3;MultinomialNB(data);2020-01-01 10:00:12,500000;END!" ].

Definition log : list string :=
  (["Using GAMA version 0.1.0."; config_line] ++ phase_lines ++ eval_lines)%list.

(** Variants of the log. *)

Definition lines_of (phase_events eval_events : list string) : list string :=
  (["Using GAMA version 0.1.0."; config_line] ++ phase_events ++ eval_events)%list.

(** An event with a token that is not among the expected ones. *)
Definition log_with_custom_event : list string :=
  (log ++ ["PLE;CUSTOM;payload;END!"])%list.

(** Phase events of two fields: phase and time at the start, algorithm
    and time at the end. *)
Definition two_field_log : list string :=
  lines_of
    [ "PLE;START;preprocessing;2020-01-01 10:00:00,000000;END!";
      "PLE;END;default;2020-01-01 10:00:05,500000;END!";
      "PLE;START;search;2020-01-01 10:00:06,000000;END!";
      "PLE;END;AsyncEA;2020-01-01 10:10:06,000000;END!";
      "PLE;START;postprocess;2020-01-01 10:10:07,000000;END!";
      "PLE;END;BestFit;2020-01-01 10:10:09,250000;END!" ]
    eval_lines.

(** The search ends ten minutes before it starts. *)
Definition backwards_log : list string :=
  lines_of
    [ "PLE;START;preprocessing;default;2020-01-01 10:00:00,000000;END!";
      "PLE;END;preprocessing;default;2020-01-01 10:00:05,500000;END!";
      "PLE;START;search;AsyncEA;2020-01-01 10:10:06,000000;END!";
      "PLE;END;search;AsyncEA;2020-01-01 10:00:06,000000;END!";
      "PLE;START;postprocess;BestFit;2020-01-01 10:10:07,000000;END!";
      "PLE;END;postprocess;BestFit;2020-01-01 10:10:09,250000;END!" ]
    eval_lines.

(** No event ends the search. *)
Definition phase_lines_without_search_end : list string :=
  [ "PLE;START;preprocessing;default;2020-01-01 10:00:00,000000;END!";
    "PLE;END;preprocessing;default;2020-01-01 10:00:05,500000;END!";
    "PLE;START;search;AsyncEA;2020-01-01 10:00:06,000000;END!";
    "PLE;START;postprocess;BestFit;2020-01-01 10:10:07,000000;END!";
    "PLE;END;postprocess;BestFit;2020-01-01 10:10:09,250000;END!" ].

Definition log_without_search_end : list string :=
  lines_of phase_lines_without_search_end eval_lines.

(** No event ends the search, and a fitness value is not a number. *)
Definition log_without_search_end_bad_fitness : list string :=
  lines_of phase_lines_without_search_end
    [ "PLE;EVAL;2020-01-01 10:00:07,000000;1.5;1.4;(abc,-5);id1;GaussianNB(data);2020-01-01 10:00:08,500000;END!" ].

(** The accuracy of the second evaluation is not a number. *)
Definition log_with_nan : list string :=
  lines_of phase_lines
    [ "PLE;EVAL;2020-01-01 10:00:07,000000;1.5;1.4;(0.9,-5);id1;GaussianNB(data);2020-01-01 10:00:08,500000;END!";
      "PLE;EVAL;2020-01-01 10:00:09,000000;2.5;2.4;(nan,-3);id2;BernoulliNB(data);2020-01-01 10:00:11,500000;END!";
      "PLE;EVAL;2020-01-01 10:00:12,000000;0.5;0.4;(0.8,-7);id3;MultinomialNB(data);2020-01-01 10:00:12,500000;END!" ].


(** More variants of the log, and a decoder of pipelines. *)

Definition events_to_write : list (string * list string) :=
  [ ("START", ["search"; "AsyncEA"; "2020-01-01 10:00:06,000000"]);
    ("EVAL_ERR", []);
    ("END", ["search"; "AsyncEA"; "2020-01-01 10:10:06,000000"]) ].

(** A line without markers among the events. *)
Definition log_with_note : list string :=
  ("Using GAMA version 0.1.0." :: config_line
     :: phase_lines ++ "INFO search started" :: eval_lines)%list.

(** A framed line with nothing between the markers. *)
Definition log_with_empty_event : list string :=
  (log ++ ["PLEEND!"])%list.

(** The lines as [readlines] returns them, each with its newline. *)
Definition unstripped_log : list string :=
  (fun line => line +:+ String "010" EmptyString) <$> log.

Definition two_evaluations : list (list string) :=
  [ ["2020-01-01 10:00:07,000000"; "1.5"; "1.4"; "(0.9,-5)"; "id1";
     "GaussianNB(data)"; "2020-01-01 10:00:08,500000"];
    ["2020-01-01 10:00:09,000000"; "2.5"; "2.4"; "(0.8,-3)"; "id2";
     "BernoulliNB(data)"; "2020-01-01 10:00:11,500000"] ].

(** Three evaluation events; the first value of the second is not a
    number. *)
Definition evaluations_with_nan : list (list string) :=
  [ ["2020-01-01 10:00:07,000000"; "1.5"; "1.4"; "(0.9,-5)"; "id1";
     "GaussianNB(data)"; "2020-01-01 10:00:08,500000"];
    ["2020-01-01 10:00:09,000000"; "2.5"; "2.4"; "(nan,-3)"; "id2";
     "BernoulliNB(data)"; "2020-01-01 10:00:11,500000"];
    ["2020-01-01 10:00:12,000000"; "0.5"; "0.4"; "(0.8,-7)"; "id3";
     "MultinomialNB(data)"; "2020-01-01 10:00:12,500000"] ].

(** A pipeline as the list of the texts between its opening
    parentheses. *)
Definition primitives (pipeline : cell) : result (list string) :=
  match pipeline with
  | CStr s => Ok (Py.split_char s "(")
  | _ => Raise TypeError
  end.

#[export] Instance one_file : FileSystem := {|
  readlines := fun path =>
    if String.eqb path "gama.log"
    then Some ((fun line => line +:+ String "010" EmptyString) <$> log)
    else None;
|}.

End Sample.

(** ** Vocabulary of the statements *)

(** [c in s] for a character [c]. *)
Fixpoint has_char (s : string) (c : ascii) : bool :=
  match s with
  | EmptyString => false
  | String a s' => Ascii.eqb a c || has_char s' c
  end.



(** The events of the framed lines [ple_lines] whose first field is
    [token], in the order of the log. *)
Definition events_with (token : string) (ple_lines : list (list string))
  : list (list string) :=
  omap (fun line => match line with
                    | t :: event => if decide (token = t) then Some event else None
                    | [] => None
                    end) ple_lines.

Section Vocabulary.
Context {TM : PyTime} {ML : MachineLogging}.

(** The event that [[event for event in events if phase in event][0]]
    selects, if there is one. *)
Definition selected_event (phase : string) (events : list (list string))
  : option (list string) :=
  head (filter (fun event => phase ∈ event) events).

(** [record] is made from the selected events of [phase], both of three
    fields: the algorithm is the second field of the end event, the
    time stamps are the third fields. *)
Definition phase_record_of (d : gmap string (list (list string)))
    (phase : string) (record : string * string * Q) : Prop :=
  exists starts ends f1 f2 start_time g1 algorithm end_time ts te,
    d !! TOKENS_PHASE_START = Some starts /\
    d !! TOKENS_PHASE_END = Some ends /\
    selected_event phase starts = Some [f1; f2; start_time] /\
    selected_event phase ends = Some [g1; algorithm; end_time] /\
    phase ∈ [f1; f2; start_time] /\
    phase ∈ [g1; algorithm; end_time] /\
    strptime start_time = Some ts /\
    strptime end_time = Some te /\
    record = (phase, algorithm, total_seconds (te - ts)).

(** No phase-start event, or no phase-end event, of the grouping names
    [phase]. *)
Definition phase_missing (d : gmap string (list (list string))) (phase : string)
  : Prop :=
  (forall starts, d !! TOKENS_PHASE_START = Some starts ->
                  selected_event phase starts = None) \/
  (forall ends, d !! TOKENS_PHASE_END = Some ends ->
                selected_event phase ends = None).

(** [p] stands before [phase] in the fixed order of the phases. *)
Definition phase_before (p phase : string) : Prop :=
  exists i j, i < j /\ phases_order !! i = Some p /\ phases_order !! j = Some phase.

End Vocabulary.

Section TableVocabulary.
Context {FL : PyFloat}.

Definition labels (df : DataFrame) : list string := (columns df).*1.

(** No metric name is the name of the derived column of a metric that
    stands before it in the list. *)
Fixpoint cummax_free (metric_names : list string) : Prop :=
  match metric_names with
  | [] => True
  | metric :: rest => (cummax_name metric ∉ rest) /\ cummax_free rest
  end.

Definition float_max (a b : pyfloat) : pyfloat := if float_le a b then b else a.

(** The running maximum of [vs] that passes over the NaNs, after the
    maximum [acc] of the numbers that came before: a NaN stays in its
    place and does not count. *)
Fixpoint running_max (acc : option pyfloat) (vs : list pyfloat) : list pyfloat :=
  match vs with
  | [] => []
  | v :: vs' =>
      if isnan v then v :: running_max acc vs'
      else let m := match acc with None => v | Some a => float_max a v end in
           m :: running_max (Some m) vs'
  end.

(** The values of [vs] that are numbers. *)
Definition numbers (vs : list pyfloat) : list pyfloat :=
  filter (fun v => isnan v = false) vs.

(** The running maximum [acc] of the numbers met so far, as
    [accumulate] holds it. *)
Definition state_of (acc : option pyfloat) (st : option masked) : Prop :=
  match acc with
  | None => st = None \/ st = Some NegInf
  | Some a => st = Some (Val (CFloat a))
  end.

(** What is not a string: a number, or the [-inf] of a missing value. *)
Definition not_str (m : masked) : Prop :=
  match m with
  | Val (CStr _) => False
  | _ => True
  end.

(** [m] is a maximum of [vs]: one of its elements, and no element is
    above it. *)
Definition is_maximum (m : pyfloat) (vs : list pyfloat) : Prop :=
  m ∈ vs /\ forall v, v ∈ vs -> float_le v m = true.

Definition column_names_of (metric_names : list string) : list string :=
  (["n"; "start"; "duration"] ++ metric_names ++ ["pipeline"; "id"])%list.

(** The names [metric_0 .. metric_{k-1}]. *)
Definition synthesized_names (k : nat) : list string :=
  (fun m_i => "metric_" +:+ string_of_nat m_i) <$> seq 0 k.

(** The texts between the commas of the fitness field of an
    evaluation event, the outer parentheses left out, and their
    number. *)
Definition fitness_fields (line : list string) : option (list string) :=
  (fun fitness => Py.split_char (Py.str_slice_1_m1 fitness) ",") <$> line !! 3.

Definition fitness_arity (line : list string) : option nat :=
  length <$> fitness_fields line.

(** [v] is the [j]-th value of the fitness of the evaluation event
    [line]. *)
Definition metric_value (j : nat) (line : list string) (v : pyfloat) : Prop :=
  exists fitness vs,
    line !! 3 = Some fitness /\ metrics_values_of fitness = Ok vs /\ vs !! j = Some v.


(** A row as the first loop builds it, with the values of its fitness. *)
Definition built (p : list cell * list pyfloat) : Prop :=
  exists i time duration pipeline_str id_,
    p.1 = ([CInt i; CStr time; CStr duration] ++ (CFloat <$> p.2)
             ++ [CStr pipeline_str; CStr id_])%list /\
    0 < length p.2.

End TableVocabulary.

(** The last character of a string. *)
Fixpoint last_char (s : string) : option ascii :=
  match s with
  | EmptyString => None
  | String a s' => match last_char s' with Some b => Some b | None => Some a end
  end.

(** [sep.join(parts)] *)
Fixpoint join (sep : string) (parts : list string) : string :=
  match parts with
  | [] => ""
  | [p] => p
  | p :: rest => p +:+ sep +:+ join sep rest
  end.

Section EventVocabulary.
Context {ML : MachineLogging}.

(** The line of the log for an event: the start marker, the token, the
    fields and the end marker, joined by the delimiter. *)
Definition format_event (token : string) (fields : list string) : string :=
  join PLE_DELIM ([PLE_START; token] ++ fields ++ [PLE_END])%list.

(** The condition of the comprehension that selects the framed lines. *)
Definition is_framed (line : string) : bool :=
  Py.startswith line PLE_START && Py.endswith line PLE_END.

End EventVocabulary.

(** A constructor call whose first two arguments are [k1=metric] and
    [k2=value], whatever the names [k1] and [k2]; [tail] is what follows
    the value. *)
Definition call_line (ctor k1 metric k2 value tail : string) : string :=
  ctor +:+ "(" +:+ k1 +:+ "=" +:+ metric +:+ "," +:+ k2 +:+ "=" +:+ value +:+ tail.

(** The line has one opening parenthesis, after [ctor]; the names and
    values of the two arguments hold no comma and no equals sign; [tail]
    is empty or starts with a comma. *)
Definition well_formed_line (ctor k1 metric k2 value tail : string) : Prop :=
  has_char ctor "(" = false /\
  Forall (fun s => has_char s "(" = false /\ has_char s "," = false /\
                   has_char s "=" = false) [k1; metric; k2; value] /\
  has_char tail "(" = false /\
  (tail = "" \/ exists rest, tail = String "," rest).

Section FrameVocabulary.
Context {FL : PyFloat}.

(** Every column has one value for each row of the index. *)
Definition rectangular (df : DataFrame) : Prop :=
  Forall (fun c => length c.2 = index_len df) (columns df).

(** The frame without rows that has the given labels. *)
Definition empty_frame (column_labels : list string) : DataFrame :=
  {| index_len := 0; columns := (fun c => (c, [])) <$> column_labels |}.

End FrameVocabulary.

(** [w] is white space only; [t] does not end in white space. *)
Definition blank (w : string) : bool :=
  forallb Py.isspace (list_ascii_of_string w).

Definition stripped (t : string) : bool :=
  match last_char t with
  | Some a => negb (Py.isspace a)
  | None => true
  end.

(** The [k]-th field of an event; the empty string when the event is
    shorter. *)
Definition event_field (k : nat) (event : list string) : string :=
  default "" (event !! k).

(** * Properties *)

(** ** Python strings *)

Lemma append_cons (x : ascii) (a b : string) :
  String x a +:+ b = String x (a +:+ b).
Proof. reflexivity. Qed.

Lemma append_nil_r (a : string) : a +:+ "" = a.
Proof.
  induction a as [|x a IH]; [reflexivity|].
  rewrite append_cons. now rewrite IH.
Qed.

Lemma append_assoc_str (a b c : string) : (a +:+ b) +:+ c = a +:+ (b +:+ c).
Proof.
  induction a as [|x a IH]; [reflexivity|].
  rewrite !append_cons. now rewrite IH.
Qed.

Lemma has_char_app (a b : string) (c : ascii) :
  has_char (a +:+ b) c = has_char a c || has_char b c.
Proof.
  induction a as [|x a IH]; [reflexivity|].
  rewrite append_cons. simpl. rewrite IH. now rewrite orb_assoc.
Qed.

Lemma split_char_absent (s : string) (c : ascii) :
  has_char s c = false -> Py.split_char s c = [s].
Proof.
  unfold Py.split_char. induction s as [|a s IH]; simpl; [reflexivity|].
  intros [Ha Hs]%orb_false_elim. rewrite Ha. simpl. now rewrite (IH Hs).
Qed.

Lemma split_char_first (a b : string) (c : ascii) :
  has_char a c = false ->
  Py.split_char (a +:+ String c b) c = a :: Py.split_char b c.
Proof.
  unfold Py.split_char. induction a as [|x a IH].
  - intros _. change ("" +:+ String c b) with (String c b). simpl.
    now rewrite Ascii.eqb_refl.
  - intros [Hx Ha]%orb_false_elim. rewrite append_cons. simpl.
    rewrite Hx. simpl. now rewrite (IH Ha).
Qed.

Lemma split_char_nonempty (s : string) (c : ascii) : Py.split_char s c <> [].
Proof.
  unfold Py.split_char. destruct s as [|a s]; simpl; [discriminate|].
  destruct (Ascii.eqb a c); simpl; [discriminate|].
  destruct (Py.split_go c "" 0 s); discriminate.
Qed.

(** ** The metric configuration *)





(** ** The error monad *)

Lemma bind_Ok {A B} (m : result A) (k : A -> result B) (b : B) :
  bind m k = Ok b -> exists a, m = Ok a /\ k a = Ok b.
Proof. destruct m as [a|e]; simpl; [eauto | discriminate]. Qed.

Lemma bind_Raise {A B} (m : result A) (k : A -> result B) (e : exn) :
  m = Raise e -> bind m k = Raise e.
Proof. now intros ->. Qed.

Lemma not_Ok_raises {A} (m : result A) : (forall a, m <> Ok a) -> raises m.
Proof. destruct m as [a|e]; [intros Hm; now destruct (Hm a) | exists e; reflexivity]. Qed.

Lemma raises_not_Ok {A} (m : result A) (a : A) : raises m -> m <> Ok a.
Proof. intros [e ->]. discriminate. Qed.

Lemma is_Ok_true {A} (m : result A) : is_Ok m = true -> exists a, m = Ok a.
Proof. destruct m as [a|e]; [eauto | discriminate]. Qed.

(** Closes an equation between closed terms by evaluating both sides. *)
Ltac by_evaluation :=
  lazymatch goal with
  | |- ?l = ?r => exact (@eq_refl _ r <: l = r)
  end.

Lemma raises_bind {A B} (m : result A) (k : A -> result B) :
  raises m -> raises (bind m k).
Proof. intros [e ->]. exists e. reflexivity. Qed.

Ltac inv_bind H :=
  let a := fresh "a" in
  let Ha := fresh "E" in
  apply bind_Ok in H as (a & Ha & H).

Lemma mapM_Ok_length {A B} (f : A -> result B) (xs : list A) (ys : list B) :
  mapM f xs = Ok ys -> length ys = length xs.
Proof.
  revert ys. induction xs as [|x xs IH]; simpl; intros ys Hm.
  - now inversion Hm.
  - inv_bind Hm. inv_bind Hm. inversion Hm; subst. simpl. f_equal. eauto.
Qed.

Lemma mapM_Ok_lookup {A B} (f : A -> result B) (xs : list A) (ys : list B) :
  mapM f xs = Ok ys ->
  forall i x, xs !! i = Some x -> exists y, ys !! i = Some y /\ f x = Ok y.
Proof.
  revert ys. induction xs as [|x xs IH]; simpl; intros ys Hm i x' Hi.
  - discriminate.
  - inv_bind Hm. inv_bind Hm. inversion Hm; subst.
    destruct i as [|i]; simpl in *.
    + inversion Hi; subst. eauto.
    + eauto.
Qed.

Section Properties.
Context {FL : PyFloat} {TM : PyTime} {ML : MachineLogging} {FS : FileSystem}.

(** ** The arguments of the constructor *)

(** C9. The constructor raises the [ValueError] of its argument check
    when both a file and a list of lines are given, and when neither
    is; a report is produced only when exactly one of them is given. *)
Theorem init_exactly_one_source (nm : option string) :
  (forall path lines,
     GamaReport__init__ (Some path) (Some lines) nm
     = Raise (ValueError (Msg "Exactly one of 'logfile' and 'loglines' may be provided at once."))) /\
  GamaReport__init__ None None nm
  = Raise (ValueError (Msg "Either 'logfile' or 'loglines' must be provided. Both are None.")) /\
  (forall logfile log_lines r,
     GamaReport__init__ logfile log_lines nm = Ok r ->
     (is_Some logfile /\ log_lines = None) \/ (logfile = None /\ is_Some log_lines)).
Proof.
  split; [reflexivity|]. split; [reflexivity|].
  intros [path|] [lines|] r Hr; try discriminate Hr.
  - left. eauto.
  - right. eauto.
Qed.

(** C10. For a list of fewer than two lines given in memory, the
    constructor raises the [IndexError] of [log_lines[1]] in
    [_find_metric_configuration]: the exception of its first step after
    the argument check, so that no event is grouped and no table
    built, and no report is produced. *)
Theorem init_short_log (lines : list string) (nm : option string) :
  length lines < 2 ->
  _find_metric_configuration lines = Raise IndexError /\
  GamaReport__init__ None (Some lines) nm = Raise IndexError /\
  forall r, GamaReport__init__ None (Some lines) nm <> Ok r.
Proof.
  intros Hlen.
  assert (Hm : _find_metric_configuration lines = Raise IndexError).
  { destruct lines as [|l0 [|l1 rest]]; simpl in Hlen; [reflexivity..|lia]. }
  assert (Hi : GamaReport__init__ None (Some lines) nm = Raise IndexError).
  { unfold GamaReport__init__. simpl. now rewrite Hm. }
  repeat split; [assumption..|]. intros r. rewrite Hi. discriminate.
Qed.

(** ** The grouping of the events *)

Lemma events_of_Ok (token : string) (ple_lines events : list (list string)) :
  events_of token ple_lines = Ok events -> events = events_with token ple_lines.
Proof.
  unfold events_of. intros Hev. inv_bind Hev. inversion Hev; subst; clear Hev.
  revert a E. induction ple_lines as [|line rest IH]; simpl; intros unpacked Hm.
  - now inversion Hm.
  - inv_bind Hm. inv_bind Hm. inversion Hm; subst; clear Hm.
    destruct line as [|t event]; [discriminate|]. simpl in E. inversion E; subst.
    rewrite filter_cons. simpl. destruct (decide (token = t)); simpl.
    + f_equal. now apply IH.
    + now apply IH.
Qed.

Lemma events_by_type_of_lookup (tokens : list string)
    (ple_lines : list (list string)) (d d' : gmap string (list (list string))) :
  events_by_type_of tokens ple_lines d = Ok d' ->
  forall token,
    d' !! token = if decide (token ∈ tokens) then Some (events_with token ple_lines)
                  else d !! token.
Proof.
  revert d. induction tokens as [|t tokens IH]; intros d Hd token; simpl in Hd.
  - inversion Hd; subst.
    destruct (decide (token ∈ [])) as [Hc|_]; [inversion Hc | reflexivity].
  - inv_bind Hd. apply events_of_Ok in E. subst a.
    rewrite (IH _ Hd token).
    destruct (decide (token ∈ tokens)) as [Hin|Hnin].
    + rewrite decide_True by (now right). reflexivity.
    + destruct (decide (token = t)) as [->|Hne].
      * rewrite decide_True by left. now rewrite lookup_insert_eq.
      * rewrite decide_False by (intros [?|?]%elem_of_cons; tauto).
        now rewrite lookup_insert_ne.
Qed.

Lemma events_with_absent (token : string) (ple_lines : list (list string)) :
  (forall event, token :: event ∉ ple_lines) -> events_with token ple_lines = [].
Proof.
  unfold events_with. induction ple_lines as [|line rest IH]; intros Habs; [reflexivity|].
  simpl. destruct line as [|t event].
  - apply IH. intros event Hin. apply (Habs event). now right.
  - destruct (decide (token = t)) as [->|Hne].
    + exfalso. apply (Habs event). left.
    + apply IH. intros event' Hin. apply (Habs event'). now right.
Qed.

(** C5, as amended.  The keys of the grouping are exactly the expected
    tokens [TOKENS.values()]: an expected token maps to the events that
    carry it, in the order of the log, hence to the empty list when the
    log has none; the framed events with any other token are dropped,
    there is no key for them. *)
Theorem events_by_type_expected_tokens_only (log_lines : list string)
    (ple_lines : list (list string)) (d : gmap string (list (list string))) :
  ple_lines_of log_lines = Ok ple_lines ->
  group_events log_lines = Ok d ->
  forall token,
    (token ∈ TOKENS_values -> d !! token = Some (events_with token ple_lines)) /\
    (token ∈ TOKENS_values -> (forall event, token :: event ∉ ple_lines) ->
     d !! token = Some []) /\
    (token ∉ TOKENS_values -> d !! token = None).
Proof.
  intros Hple Hd token. unfold group_events in Hd. rewrite Hple in Hd. simpl in Hd.
  pose proof (events_by_type_of_lookup _ _ _ _ Hd token) as Hl.
  repeat split.
  - intros Hin. now rewrite decide_True in Hl.
  - intros Hin Habs. rewrite decide_True in Hl by assumption.
    now rewrite events_with_absent in Hl.
  - intros Hnin. rewrite decide_False in Hl by assumption.
    now rewrite lookup_empty in Hl.
Qed.

(** ** The phases *)

Lemma mapM_Forall2 {A B} (f : A -> result B) (xs : list A) (ys : list B) :
  mapM f xs = Ok ys -> Forall2 (fun x y => f x = Ok y) xs ys.
Proof.
  revert ys. induction xs as [|x xs IH]; simpl; intros ys Hm.
  - inversion Hm. constructor.
  - inv_bind Hm. inv_bind Hm. inversion Hm; subst. constructor; auto.
Qed.

Lemma index_0_Ok {A} (l : list A) (x : A) : Py.index l 0 = Ok x -> head l = Some x.
Proof. destruct l; simpl; [discriminate | now inversion 1]. Qed.

Lemma unpack3_Ok {A} (l : list A) (a b c : A) :
  Py.unpack3 l = Ok (a, b, c) -> l = [a; b; c].
Proof.
  destruct l as [|x [|y [|z [|w l]]]]; simpl; try discriminate.
  now inversion 1.
Qed.

Lemma lift_option_Ok {A} (o : option A) (e : exn) (a : A) :
  lift_option o e = Ok a -> o = Some a.
Proof. destruct o; simpl; [now inversion 1 | discriminate]. Qed.

Lemma selected_event_elem (phase : string) (events : list (list string))
    (event : list string) :
  selected_event phase events = Some event -> phase ∈ event /\ event ∈ events.
Proof.
  unfold selected_event. intros Hh.
  assert (Hin : event ∈ filter (fun event => phase ∈ event) events).
  { destruct (filter _ events); simpl in Hh; [discriminate|].
    inversion Hh; subst. left. }
  now apply list_elem_of_filter in Hin.
Qed.

Lemma phase_information_Ok (d : gmap string (list (list string))) (phase : string)
    (record : string * string * Q) :
  phase_information d phase = Ok record -> phase_record_of d phase record.
Proof.
  unfold phase_information. intros Hp.
  inv_bind Hp. apply lift_option_Ok in E.
  inv_bind Hp. apply index_0_Ok in E0.
  inv_bind Hp. apply lift_option_Ok in E1.
  inv_bind Hp. apply index_0_Ok in E2.
  inv_bind Hp. destruct a3 as [[f1 f2] start_time]. apply unpack3_Ok in E3. subst a0.
  inv_bind Hp. destruct a0 as [[g1 algorithm] end_time]. apply unpack3_Ok in E3. subst a2.
  inv_bind Hp. apply lift_option_Ok in E3.
  inv_bind Hp. apply lift_option_Ok in E4.
  inversion Hp; subst; clear Hp.
  exists a, a1, f1, f2, start_time, g1, algorithm, end_time, a2, a0.
  repeat split; try assumption.
  - now apply (selected_event_elem _ a).
  - now apply (selected_event_elem _ a1).
Qed.

Lemma find_phase_information_records (d : gmap string (list (list string)))
    (info : list (string * string * Q)) :
  _find_phase_information d = Ok info ->
  Forall2 (phase_record_of d) phases_order info.
Proof.
  intros Hi. apply mapM_Forall2 in Hi.
  eapply Forall2_impl; [exact Hi|]. intros phase record. apply phase_information_Ok.
Qed.

(** C6, as amended.  When the phases are extracted, the start event and
    the end event selected for each phase have exactly three fields,
    one of which is the name of the phase; the algorithm is read from
    the second field of the end event, and the time stamps from the
    third field of either event. *)
Theorem phase_events_have_three_fields (d : gmap string (list (list string)))
    (info : list (string * string * Q)) :
  _find_phase_information d = Ok info ->
  Forall2 (phase_record_of d) phases_order info.
Proof.
  intros Hi. apply mapM_Forall2 in Hi.
  apply Forall2_same_length_lookup_2; [eapply Forall2_length; eassumption|].
  intros i phase record Hphase Hrecord.
  destruct (Forall2_lookup_l _ _ _ _ _ Hi Hphase) as (record' & Hrecord' & Hok).
  rewrite Hrecord in Hrecord'. inversion Hrecord'; subst record'.
  now apply phase_information_Ok.
Qed.

Lemma total_seconds_nonneg (us : Z) : (0 <= total_seconds us)%Q <-> (0 <= us)%Z.
Proof. unfold total_seconds, Qle. simpl. lia. Qed.

Lemma init_Ok (logfile : option string) (log_lines : option (list string))
    (nm : option string) (r : GamaReport) :
  GamaReport__init__ logfile log_lines nm = Ok r ->
  exists lines d evaluation_lines,
    load_log_lines logfile log_lines = Ok lines /\
    _find_metric_configuration lines = Ok (metrics r) /\
    group_events lines = Ok d /\
    d !! TOKENS_EVALUATION_RESULT = Some evaluation_lines /\
    _evaluations_to_dataframe evaluation_lines (Some (metrics r)) = Ok (evaluations r) /\
    _find_phase_information d = Ok (phases r).
Proof.
  unfold GamaReport__init__. intros Hr.
  inv_bind Hr. inv_bind Hr. inv_bind Hr. inv_bind Hr. inv_bind Hr. inv_bind Hr.
  inversion Hr; subst; clear Hr. simpl.
  apply lift_option_Ok in E2. eauto 10.
Qed.

(** C7, as amended.  A constructed report has exactly three phase
    records, for preprocessing, search and postprocess in this order,
    whatever the order of the events in the log.  The duration of a
    record is the end time minus the start time in seconds; it is
    non-negative exactly when the end time stamp is not earlier than
    the start time stamp. *)
Theorem phases_fixed_order (logfile : option string)
    (log_lines : option (list string)) (nm : option string) (r : GamaReport) :
  GamaReport__init__ logfile log_lines nm = Ok r ->
  (exists a1 d1 a2 d2 a3 d3,
     phases r = [("preprocessing", a1, d1); ("search", a2, d2); ("postprocess", a3, d3)]) /\
  (exists lines d,
     load_log_lines logfile log_lines = Ok lines /\ group_events lines = Ok d /\
     Forall2 (phase_record_of d) phases_order (phases r)) /\
  (forall phase algorithm duration,
     (phase, algorithm, duration) ∈ phases r ->
     exists ts te, duration = total_seconds (te - ts) /\
                   ((0 <= duration)%Q <-> (ts <= te)%Z)).
Proof.
  intros Hr. apply init_Ok in Hr as (lines & d & evs & Hl & _ & Hg & _ & _ & Hp).
  pose proof (find_phase_information_records _ _ Hp) as HF.
  split; [|split].
  - unfold phases_order in HF.
    apply Forall2_cons_inv_l in HF as (r1 & t1 & R1 & HF & Heq).
    apply Forall2_cons_inv_l in HF as (r2 & t2 & R2 & HF & ->).
    apply Forall2_cons_inv_l in HF as (r3 & t3 & R3 & HF & ->).
    apply Forall2_nil_inv_l in HF as ->.
    destruct R1 as (?&?&?&?&?&?&a1&?&ts1&te1&?&?&?&?&?&?&?&?&->).
    destruct R2 as (?&?&?&?&?&?&a2&?&ts2&te2&?&?&?&?&?&?&?&?&->).
    destruct R3 as (?&?&?&?&?&?&a3&?&ts3&te3&?&?&?&?&?&?&?&?&->).
    rewrite Heq. eauto 10.
  - eauto.
  - intros phase algorithm duration Hin.
    apply list_elem_of_lookup in Hin as [i Hi].
    destruct (Forall2_lookup_r _ _ _ _ _ HF Hi) as (p & _ & Hrec).
    destruct Hrec as (?&?&?&?&?&?&?&?&ts&te&?&?&?&?&?&?&?&?&Heq).
    inversion Heq; subst. exists ts, te. split; [reflexivity|].
    rewrite total_seconds_nonneg. lia.
Qed.

Lemma mapM_raises {A B} (f : A -> result B) (xs : list A) (x : A) :
  x ∈ xs -> raises (f x) -> raises (mapM f xs).
Proof.
  induction xs as [|y xs IH]; intros Hin Hr; [inversion Hin|].
  simpl. destruct (f y) as [b|e] eqn:Ey; [|exists e; reflexivity]. simpl.
  apply elem_of_cons in Hin as [->|Hin].
  - destruct Hr as [e He]. congruence.
  - destruct (IH Hin Hr) as [e ->]. exists e. reflexivity.
Qed.

Lemma head_None_nil {A} (l : list A) : head l = None -> l = [].
Proof. destruct l; [reflexivity | discriminate]. Qed.

Lemma phase_information_missing (d : gmap string (list (list string)))
    (phase : string) :
  phase_missing d phase ->
  raises (phase_information d phase) /\
  (is_Some (d !! TOKENS_PHASE_START) -> is_Some (d !! TOKENS_PHASE_END) ->
   phase_information d phase = Raise IndexError).
Proof.
  intros Hmiss. unfold phase_information, dict_getitem.
  destruct (d !! TOKENS_PHASE_START) as [starts|] eqn:Hs; simpl.
  2:{ split; [eexists; reflexivity | intros [? ?]; discriminate]. }
  destruct (filter (fun event => phase ∈ event) starts) as [|start_phase ?] eqn:Hfs; simpl.
  { split; [eexists|]; reflexivity. }
  destruct (d !! TOKENS_PHASE_END) as [ends|] eqn:He; simpl.
  2:{ split; [eexists; reflexivity | intros _ [? ?]; discriminate]. }
  destruct Hmiss as [Hmiss|Hmiss].
  - specialize (Hmiss starts Hs). unfold selected_event in Hmiss.
    rewrite Hfs in Hmiss. discriminate.
  - specialize (Hmiss ends He). apply head_None_nil in Hmiss.
    rewrite Hmiss. simpl.
    split; [eexists|]; reflexivity.
Qed.

Lemma group_events_Ok (lines : list string) (d : gmap string (list (list string))) :
  group_events lines = Ok d ->
  exists ple_lines,
    ple_lines_of lines = Ok ple_lines /\
    events_by_type_of TOKENS_values ple_lines ∅ = Ok d.
Proof. unfold group_events. intros Hd. inv_bind Hd. eauto. Qed.

Lemma group_events_expected (lines : list string)
    (d : gmap string (list (list string))) (token : string) :
  group_events lines = Ok d -> token ∈ TOKENS_values -> is_Some (d !! token).
Proof.
  intros Hd Hin. destruct (group_events_Ok _ _ Hd) as (ple & _ & Hby).
  rewrite (events_by_type_of_lookup _ _ _ _ Hby token).
  rewrite decide_True by assumption. eauto.
Qed.

(** C8, as amended.  When some phase has no matching phase-start event
    or no matching phase-end event among the grouped events, the
    constructor raises and no report is returned.  The exception is the
    [IndexError] of the look-up of the missing event when the steps
    before it succeed: the metrics are found, the table is built and
    the phases that come first are extracted. *)
Theorem init_missing_phase (logfile : option string)
    (log_lines : option (list string)) (nm : option string) (lines : list string)
    (d : gmap string (list (list string))) (phase : string) :
  load_log_lines logfile log_lines = Ok lines ->
  group_events lines = Ok d ->
  phase ∈ phases_order ->
  phase_missing d phase ->
  raises (GamaReport__init__ logfile log_lines nm) /\
  (forall ms evaluation_lines df,
     _find_metric_configuration lines = Ok ms ->
     d !! TOKENS_EVALUATION_RESULT = Some evaluation_lines ->
     _evaluations_to_dataframe evaluation_lines (Some ms) = Ok df ->
     TOKENS_PHASE_START ∈ TOKENS_values ->
     TOKENS_PHASE_END ∈ TOKENS_values ->
     (forall p, phase_before p phase -> exists record, phase_information d p = Ok record) ->
     GamaReport__init__ logfile log_lines nm = Raise IndexError).
Proof.
  intros Hl Hg Hin Hmiss.
  destruct (phase_information_missing _ _ Hmiss) as [Hraise Hkind].
  split.
  - apply not_Ok_raises. intros r Hr.
    apply init_Ok in Hr as (lines' & d' & evs & Hl' & _ & Hg' & _ & _ & Hp).
    rewrite Hl in Hl'. inversion Hl'; subst lines'.
    rewrite Hg in Hg'. inversion Hg'; subst d'.
    apply (raises_not_Ok _ (phases r) (mapM_raises _ _ _ Hin Hraise)). exact Hp.
  - intros ms evs df Hm He Hdf Hs Hend Hbefore.
    unfold GamaReport__init__. rewrite Hl. simpl. rewrite Hm. simpl.
    rewrite Hg. simpl. unfold dict_getitem at 1. rewrite He. simpl.
    rewrite Hdf. simpl.
    specialize (Hkind (group_events_expected _ _ _ Hg Hs)
                      (group_events_expected _ _ _ Hg Hend)).
    unfold _find_phase_information, phases_order in *.
    assert (Hpre : phase = "preprocessing" \/ phase = "search" \/ phase = "postprocess").
    { rewrite !elem_of_cons, elem_of_nil in Hin. tauto. }
    destruct Hpre as [->| [->| ->]].
    + simpl. now rewrite Hkind.
    + destruct (Hbefore "preprocessing") as [r1 Hr1].
      { exists 0, 1. repeat split. lia. }
      simpl. rewrite Hr1. simpl. now rewrite Hkind.
    + destruct (Hbefore "preprocessing") as [r1 Hr1].
      { exists 0, 2. repeat split. lia. }
      destruct (Hbefore "search") as [r2 Hr2].
      { exists 1, 2. repeat split. lia. }
      simpl. rewrite Hr1. simpl. rewrite Hr2. simpl. now rewrite Hkind.
Qed.

End Properties.

(** ** Frames *)

Section Frames.
Context {FL : PyFloat}.

Implicit Types (df : DataFrame) (cols : list (string * list cell)).

Lemma filter_label_length cols (key : string) :
  length (filter (fun c => c.1 = key) cols)
  = length (filter (fun label => label = key) cols.*1).
Proof.
  induction cols as [|c cols IH]; [reflexivity|].
  rewrite fmap_cons, !filter_cons. simpl.
  destruct (decide (c.1 = key)); simpl; now rewrite IH.
Qed.

Lemma filter_label_absent cols (key : string) :
  key ∉ cols.*1 -> filter (fun c => c.1 = key) cols = [].
Proof.
  induction cols as [|c cols IH]; [reflexivity|].
  rewrite fmap_cons, not_elem_of_cons. intros [Hne Hnin].
  rewrite filter_cons. destruct (decide (c.1 = key)); [congruence|]. now apply IH.
Qed.

Lemma filter_label_unique cols (key : string) (values : list cell) :
  NoDup cols.*1 -> (key, values) ∈ cols ->
  filter (fun c => c.1 = key) cols = [(key, values)].
Proof.
  induction cols as [|c cols IH]; intros Hnd Hin; [inversion Hin|].
  rewrite fmap_cons in Hnd. apply NoDup_cons in Hnd as [Hc Hnd].
  rewrite filter_cons. apply elem_of_cons in Hin as [<-|Hin].
  - simpl. rewrite decide_True by reflexivity.
    now rewrite filter_label_absent.
  - destruct (decide (c.1 = key)) as [Heq|Hne].
    + exfalso. apply Hc. rewrite Heq.
      apply list_elem_of_fmap. exists (key, values). auto.
    + now apply IH.
Qed.

Lemma getitem_Series_elem df (key : string) (values : list cell) :
  getitem df key = Ok (Series values) ->
  (key, values) ∈ columns df /\
  length (filter (fun label => label = key) (columns df).*1) = 1.
Proof.
  unfold getitem. rewrite <- filter_label_length.
  destruct (filter (fun c => c.1 = key) (columns df)) as [|c [|c' rest]] eqn:Hf;
    try discriminate.
  intros Hs. inversion Hs; subst; clear Hs. split; [|reflexivity].
  assert (Hin : c ∈ filter (fun c => c.1 = key) (columns df)) by (rewrite Hf; left).
  apply list_elem_of_filter in Hin as [Hk Hin]. destruct c as [k v]. simpl in *.
  now subst k.
Qed.

Lemma getitem_unique df (key : string) (values : list cell) :
  NoDup (columns df).*1 -> (key, values) ∈ columns df ->
  getitem df key = Ok (Series values).
Proof.
  intros Hnd Hin. unfold getitem. now rewrite (filter_label_unique _ _ _ Hnd Hin).
Qed.

Lemma setitem_Ok df (key : string) (value : selection) df' :
  setitem df key value = Ok df' ->
  exists values,
    value = Series values /\
    index_len df' = index_len df /\
    columns df' =
      if bool_decide (key ∈ (columns df).*1)
      then (fun c => if bool_decide (c.1 = key) then (key, values) else c) <$> columns df
      else (columns df ++ [(key, values)])%list.
Proof.
  destruct value as [values|cs]; simpl; [|discriminate].
  intros Hs. inversion Hs; subst; clear Hs. simpl. eauto.
Qed.

Lemma replace_labels cols (key : string) (values : list cell) :
  ((fun c => if bool_decide (c.1 = key) then (key, values) else c) <$> cols).*1
  = cols.*1.
Proof.
  induction cols as [|c cols IH]; [reflexivity|].
  rewrite !fmap_cons, IH. f_equal. case_bool_decide; [now subst | reflexivity].
Qed.

Lemma replace_filter_ne cols (key k : string) (values : list cell) :
  k <> key ->
  filter (fun c => c.1 = k)
         ((fun c => if bool_decide (c.1 = key) then (key, values) else c) <$> cols)
  = filter (fun c => c.1 = k) cols.
Proof.
  intros Hne. induction cols as [|c cols IH]; [reflexivity|].
  rewrite fmap_cons, !filter_cons. case_bool_decide; simpl.
  - rewrite decide_False by congruence.
    rewrite decide_False by congruence. apply IH.
  - destruct (decide (c.1 = k)); now rewrite IH.
Qed.

(** A stored series leaves the other labels as they are. *)
Lemma setitem_filter_ne df (key k : string) (values : list cell) df' :
  setitem df key (Series values) = Ok df' -> k <> key ->
  filter (fun c => c.1 = k) (columns df') = filter (fun c => c.1 = k) (columns df).
Proof.
  intros Hs Hne. apply setitem_Ok in Hs as (v & Hv & _ & ->). inversion Hv; subst v.
  case_bool_decide.
  - now apply replace_filter_ne.
  - rewrite filter_app, filter_cons. simpl.
    rewrite decide_False by congruence. now rewrite filter_nil, app_nil_r.
Qed.

Lemma setitem_getitem_ne df (key k : string) (values : list cell) df' :
  setitem df key (Series values) = Ok df' -> k <> key ->
  getitem df' k = getitem df k.
Proof.
  intros Hs Hne. unfold getitem. now rewrite (setitem_filter_ne _ _ _ _ _ Hs Hne).
Qed.

Lemma setitem_labels df (key : string) (values : list cell) df' :
  setitem df key (Series values) = Ok df' ->
  (columns df').*1 =
    if bool_decide (key ∈ (columns df).*1) then (columns df).*1
    else ((columns df).*1 ++ [key])%list.
Proof.
  intros Hs. apply setitem_Ok in Hs as (v & Hv & _ & ->). inversion Hv; subst v.
  case_bool_decide; [apply replace_labels|]. now rewrite fmap_app.
Qed.

Lemma setitem_NoDup df (key : string) (values : list cell) df' :
  setitem df key (Series values) = Ok df' ->
  NoDup (columns df).*1 -> NoDup (columns df').*1.
Proof.
  intros Hs Hnd. rewrite (setitem_labels _ _ _ _ Hs).
  case_bool_decide; [assumption|].
  apply NoDup_app. split; [assumption|]. split.
  - intros x Hx [->|Hin]%elem_of_cons; [contradiction | inversion Hin].
  - apply NoDup_singleton.
Qed.

Lemma setitem_elem_key df (key : string) (values : list cell) df' :
  setitem df key (Series values) = Ok df' -> (key, values) ∈ columns df'.
Proof.
  intros Hs. apply setitem_Ok in Hs as (v & Hv & _ & ->). inversion Hv; subst v.
  case_bool_decide as Hin.
  - apply list_elem_of_fmap in Hin as ([k v] & -> & Hin). simpl.
    apply list_elem_of_fmap. exists (k, v). split; [|assumption].
    simpl. now rewrite bool_decide_true.
  - apply elem_of_app. right. left.
Qed.

(** The column at a position keeps its label, and its values unless
    the label is the one written. *)
Lemma setitem_lookup df (key : string) (values : list cell) df' (c : nat)
    (label : string) (col : list cell) :
  setitem df key (Series values) = Ok df' ->
  columns df !! c = Some (label, col) ->
  exists col', columns df' !! c = Some (label, col') /\ (label <> key -> col' = col).
Proof.
  intros Hs Hc. apply setitem_Ok in Hs as (v & Hv & _ & ->). inversion Hv; subst v.
  case_bool_decide.
  - rewrite list_lookup_fmap, Hc. simpl. case_bool_decide; simpl in *.
    + subst. eexists. split; [reflexivity | congruence].
    + eauto.
  - exists col. split; [|reflexivity]. now apply lookup_app_l_Some.
Qed.

End Frames.

(** ** The running maximum *)

Section RunningMaximum.
Context {FL : PyFloat}.

Lemma numbers_cons_nan (v : pyfloat) (vs : list pyfloat) :
  isnan v = true -> numbers (v :: vs) = numbers vs.
Proof. intros Hv. unfold numbers. rewrite filter_cons_False; [reflexivity | congruence]. Qed.

Lemma numbers_cons_number (v : pyfloat) (vs : list pyfloat) :
  isnan v = false -> numbers (v :: vs) = v :: numbers vs.
Proof. intros Hv. unfold numbers. now rewrite filter_cons_True. Qed.

Lemma numbers_elem (v : pyfloat) (vs : list pyfloat) :
  v ∈ numbers vs <-> isnan v = false /\ v ∈ vs.
Proof. unfold numbers. apply (list_elem_of_filter (fun x => isnan x = false)). Qed.

Lemma running_max_length (vs : list pyfloat) (acc : option pyfloat) :
  length (running_max acc vs) = length vs.
Proof.
  revert acc. induction vs as [|v vs IH]; intros acc; [reflexivity|].
  simpl. destruct (isnan v); simpl; now rewrite IH.
Qed.

(** In the place of a NaN the running maximum has this NaN. *)
Lemma running_max_nan (vs : list pyfloat) (acc : option pyfloat) (i : nat)
    (v : pyfloat) :
  vs !! i = Some v -> isnan v = true -> running_max acc vs !! i = Some v.
Proof.
  revert acc i. induction vs as [|w vs IH]; intros acc i Hi Hv; [discriminate|].
  simpl. destruct i as [|i]; simpl in Hi.
  - inversion Hi; subst w. now rewrite Hv.
  - destruct (isnan w); simpl; now apply IH.
Qed.

Hypothesis float_le_total :
  forall x y, isnan x = false -> isnan y = false ->
              float_le x y = true \/ float_le y x = true.
Hypothesis float_le_trans :
  forall x y z, float_le x y = true -> float_le y z = true -> float_le x z = true.

Lemma float_le_refl (x : pyfloat) : isnan x = false -> float_le x x = true.
Proof. intros Hx. destruct (float_le_total x x Hx Hx); assumption. Qed.

Lemma float_max_l (a v : pyfloat) :
  isnan a = false -> float_le a (float_max a v) = true.
Proof.
  intros Ha. unfold float_max.
  destruct (float_le a v) eqn:E; [assumption | now apply float_le_refl].
Qed.

Lemma float_max_r (a v : pyfloat) :
  isnan a = false -> isnan v = false -> float_le v (float_max a v) = true.
Proof.
  intros Ha Hv. unfold float_max. destruct (float_le a v) eqn:E; [now apply float_le_refl|].
  destruct (float_le_total a v Ha Hv); congruence.
Qed.

Lemma float_max_cases (a v : pyfloat) : float_max a v = a \/ float_max a v = v.
Proof. unfold float_max. destruct (float_le a v); auto. Qed.

(** The maximum after one more number. *)
Lemma is_maximum_snoc (pre : list pyfloat) (acc : option pyfloat) (v : pyfloat) :
  Forall (fun x => isnan x = false) pre ->
  match acc with None => pre = [] | Some a => is_maximum a pre end ->
  isnan v = false ->
  is_maximum (match acc with None => v | Some a => float_max a v end) (pre ++ [v]).
Proof.
  intros Hpre Hacc Hv. destruct acc as [a|].
  - destruct Hacc as [Hin Hle].
    assert (Ha : isnan a = false) by (rewrite Forall_forall in Hpre; auto).
    split.
    + apply elem_of_app. destruct (float_max_cases a v) as [-> | ->];
        [left; assumption | right; left].
    + intros x [Hx | Hx]%elem_of_app.
      * eapply float_le_trans; [apply Hle, Hx | now apply float_max_l].
      * apply list_elem_of_singleton in Hx as ->. now apply float_max_r.
  - subst pre. split; [left|].
    intros x Hx. apply list_elem_of_singleton in Hx as ->. now apply float_le_refl.
Qed.

Lemma running_max_from (pre vs : list pyfloat) (acc : option pyfloat) (i : nat)
    (v c : pyfloat) :
  Forall (fun x => isnan x = false) pre ->
  match acc with None => pre = [] | Some a => is_maximum a pre end ->
  vs !! i = Some v -> isnan v = false -> running_max acc vs !! i = Some c ->
  is_maximum c (pre ++ numbers (take (S i) vs)).
Proof.
  revert pre acc i. induction vs as [|w vs IH]; intros pre acc i Hpre Hacc Hi Hv Hc;
    [discriminate|].
  simpl in Hc. destruct (isnan w) eqn:Hw.
  - destruct i as [|i]; simpl in Hi, Hc.
    + inversion Hi; subst w. congruence.
    + rewrite firstn_cons, (numbers_cons_nan _ _ Hw). eapply IH; eassumption.
  - pose proof (is_maximum_snoc pre acc w Hpre Hacc Hw) as Hmax.
    destruct i as [|i]; simpl in Hi, Hc.
    + inversion Hc; subst c. rewrite firstn_cons, take_0, (numbers_cons_number _ _ Hw).
      exact Hmax.
    + rewrite firstn_cons, (numbers_cons_number _ _ Hw).
      change (w :: numbers (take (S i) vs)) with ([w] ++ numbers (take (S i) vs))%list.
      rewrite app_assoc.
      apply (IH (pre ++ [w])%list
                (Some (match acc with None => w | Some a => float_max a w end)) i);
        [| exact Hmax | assumption..].
      apply Forall_app. split; [assumption | now repeat constructor].
Qed.

(** In the place of a number, the running maximum is a maximum of the
    numbers up to this place. *)
Lemma running_max_is_maximum (vs : list pyfloat) (i : nat) (v c : pyfloat) :
  vs !! i = Some v -> isnan v = false -> running_max None vs !! i = Some c ->
  is_maximum c (numbers (take (S i) vs)).
Proof.
  intros Hi Hv Hc.
  apply (running_max_from [] vs None i v c); [constructor | reflexivity | assumption..].
Qed.

(** The numbers among the running maxima never decrease. *)
Lemma running_max_monotone (vs : list pyfloat) (i i' : nat) (a b : pyfloat) :
  i <= i' ->
  running_max None vs !! i = Some a -> running_max None vs !! i' = Some b ->
  isnan a = false -> isnan b = false -> float_le a b = true.
Proof.
  intros Hle Ha Hb Hna Hnb.
  destruct (lookup_lt_is_Some_2 vs i) as [v Hv].
  { rewrite <- (running_max_length vs None). eapply lookup_lt_Some. eassumption. }
  destruct (lookup_lt_is_Some_2 vs i') as [v' Hv'].
  { rewrite <- (running_max_length vs None). eapply lookup_lt_Some. eassumption. }
  assert (Hnv : isnan v = false).
  { destruct (isnan v) eqn:E; [|reflexivity].
    rewrite (running_max_nan _ _ _ _ Hv E) in Ha. inversion Ha; subst. congruence. }
  assert (Hnv' : isnan v' = false).
  { destruct (isnan v') eqn:E; [|reflexivity].
    rewrite (running_max_nan _ _ _ _ Hv' E) in Hb. inversion Hb; subst. congruence. }
  destruct (running_max_is_maximum _ _ _ _ Hv Hnv Ha) as [Hin _].
  destruct (running_max_is_maximum _ _ _ _ Hv' Hnv' Hb) as [_ Hmax].
  apply Hmax. apply numbers_elem in Hin as [_ Hin]. apply numbers_elem.
  split; [assumption|].
  apply list_elem_of_lookup in Hin as [k Hk]. apply lookup_take_Some in Hk as [Hk Hlt].
  apply (list_elem_of_lookup_2 _ k). rewrite lookup_take_lt by lia. exact Hk.
Qed.

Lemma running_max_properties (values : list pyfloat) :
  length (running_max None values) = length values /\
  (forall i v, values !! i = Some v -> isnan v = true ->
               running_max None values !! i = Some v) /\
  (forall i v c, values !! i = Some v -> isnan v = false ->
                 running_max None values !! i = Some c ->
                 is_maximum c (numbers (take (S i) values))) /\
  (forall i i' a b, i <= i' ->
                    running_max None values !! i = Some a ->
                    running_max None values !! i' = Some b ->
                    isnan a = false -> isnan b = false -> float_le a b = true).
Proof.
  split; [apply running_max_length|]. split; [intros i v; apply running_max_nan|].
  split; [intros i v c; apply running_max_is_maximum|].
  intros i i' a b. apply running_max_monotone.
Qed.

End RunningMaximum.

Section Accumulate.
Context {FL : PyFloat}.

(** On a column of floats, [accumulate] is the running maximum that
    passes over the NaNs. *)
Lemma accumulate_floats_from (vs : list pyfloat) (acc : option pyfloat)
    (st : option masked) :
  state_of acc st ->
  accumulate st (CFloat <$> vs) = Ok (CFloat <$> running_max acc vs).
Proof.
  revert acc st. induction vs as [|v vs IH]; intros acc st Hst; [reflexivity|].
  rewrite fmap_cons. simpl. unfold mask. simpl.
  destruct (isnan v) eqn:Hv.
  - destruct acc as [a|]; simpl in Hst.
    + subst st. simpl. rewrite (IH (Some a)) by reflexivity. reflexivity.
    + destruct Hst as [-> | ->]; simpl;
        (rewrite (IH None) by (right; reflexivity)); reflexivity.
  - destruct acc as [a|]; simpl in Hst.
    + subst st. simpl. unfold float_max.
      destruct (float_le a v); simpl;
        (rewrite (IH (Some _)) by reflexivity); reflexivity.
    + destruct Hst as [-> | ->]; simpl;
        (rewrite (IH (Some v)) by reflexivity); reflexivity.
Qed.

Lemma accumulate_floats (vs : list pyfloat) :
  accumulate None (CFloat <$> vs) = Ok (CFloat <$> running_max None vs).
Proof. apply accumulate_floats_from. left. reflexivity. Qed.

Lemma accumulate_length (l : list cell) (acc : option masked) (r : list cell) :
  accumulate acc l = Ok r -> length r = length l.
Proof.
  revert acc r. induction l as [|c l IH]; intros acc r Hacc.
  - now inversion Hacc.
  - simpl in Hacc. inv_bind Hacc. inv_bind Hacc. inversion Hacc; subst.
    simpl. f_equal. eapply IH. eassumption.
Qed.

Lemma np_maximum_not_str (a b m : masked) :
  not_str a -> np_maximum a b = Ok m -> not_str b /\ not_str m.
Proof.
  destruct a as [|[n|s|x|]], b as [|[n'|s'|x'|]]; simpl; try contradiction;
    try discriminate; intros _ Hm;
    repeat match goal with
           | H : context [if ?b then _ else _] |- _ => destruct b
           end;
    inversion Hm; subst; simpl; auto.
Qed.

Lemma np_maximum_str (s : string) (b m : masked) :
  np_maximum (Val (CStr s)) b = Ok m ->
  exists t u, b = Val (CStr t) /\ m = Val (CStr u).
Proof.
  destruct b as [|[n'|s'|x'|]]; simpl; try discriminate.
  intros Hm. destruct (String.leb s s'); inversion Hm; eauto.
Qed.

Lemma mask_str (c : cell) (t : string) : mask c = Val (CStr t) -> c = CStr t.
Proof.
  unfold mask. destruct (isna c); [discriminate|]. now inversion 1.
Qed.

Lemma mask_not_str (c : cell) : not_str (mask c) -> forall s, c <> CStr s.
Proof. intros Hn s ->. exact Hn. Qed.

Lemma accumulate_after_str (l : list cell) (s : string) (r : list cell) :
  accumulate (Some (Val (CStr s))) l = Ok r -> forall c, c ∈ l -> exists t, c = CStr t.
Proof.
  revert s r. induction l as [|c l IH]; intros s r Hacc c' Hin; [inversion Hin|].
  simpl in Hacc. inv_bind Hacc. inv_bind Hacc.
  apply np_maximum_str in E as (t & u & Ht & ->).
  apply mask_str in Ht as ->.
  apply elem_of_cons in Hin as [-> | Hin]; [eauto|].
  eapply IH; eassumption.
Qed.

Lemma accumulate_after_other (l : list cell) (m : masked) (r : list cell) :
  not_str m -> accumulate (Some m) l = Ok r -> forall s, CStr s ∉ l.
Proof.
  revert m r. induction l as [|c l IH]; intros m r Hm Hacc s Hin; [inversion Hin|].
  simpl in Hacc. inv_bind Hacc. inv_bind Hacc.
  destruct (np_maximum_not_str _ _ _ Hm E) as [Hc Ha].
  apply elem_of_cons in Hin as [Heq | Hin].
  - now apply (mask_not_str _ Hc s).
  - eapply IH; eassumption.
Qed.

(** A column that holds both a string and a float, a NaN or not, has
    no running maximum. *)
Lemma accumulate_no_mix (l : list cell) (r : list cell) (s : string) (x : pyfloat) :
  accumulate None l = Ok r -> CStr s ∈ l -> CFloat x ∈ l -> False.
Proof.
  destruct l as [|c l]; intros Hacc Hs Hx; [inversion Hs|].
  simpl in Hacc. inv_bind Hacc.
  destruct c as [n|t|y|].
  - apply elem_of_cons in Hs as [Heq | Hs]; [discriminate Heq|].
    eapply (accumulate_after_other _ (mask (CInt n)) _ I E). eassumption.
  - apply elem_of_cons in Hx as [Heq | Hx]; [discriminate Heq|].
    destruct (accumulate_after_str _ _ _ E _ Hx) as [u Hu]. discriminate Hu.
  - apply elem_of_cons in Hs as [Heq | Hs]; [discriminate Heq|].
    assert (Hn : not_str (mask (CFloat y))) by (unfold mask; simpl; destruct (isnan y); exact I).
    eapply (accumulate_after_other _ _ _ Hn E). eassumption.
  - apply elem_of_cons in Hs as [Heq | Hs]; [discriminate Heq|].
    eapply (accumulate_after_other _ (mask CNone) _ I E). eassumption.
Qed.

End Accumulate.

(** ** The loop over the metrics *)

Lemma length_append_str (a b : string) :
  String.length (a +:+ b) = String.length a + String.length b.
Proof.
  induction a as [|x a IH]; [reflexivity|].
  rewrite append_cons. simpl. now rewrite IH.
Qed.

Lemma append_cancel_r (a b s : string) : a +:+ s = b +:+ s -> a = b.
Proof.
  revert b. induction a as [|x a IH]; intros [|y b] Heq.
  - reflexivity.
  - apply (f_equal String.length) in Heq. change ("" +:+ s) with s in Heq.
    rewrite append_cons in Heq. simpl in Heq. rewrite length_append_str in Heq. lia.
  - apply (f_equal String.length) in Heq. change ("" +:+ s) with s in Heq.
    rewrite append_cons in Heq. simpl in Heq. rewrite length_append_str in Heq. lia.
  - rewrite !append_cons in Heq. inversion Heq; subst. f_equal. now apply IH.
Qed.

Lemma cummax_name_inj (m m' : string) : cummax_name m = cummax_name m' -> m = m'.
Proof. apply append_cancel_r. Qed.

Section CummaxLoop.
Context {FL : PyFloat}.

Implicit Types (df : DataFrame).

Lemma cummax_loop_cons df (metric : string) (rest : list string) df' :
  cummax_loop df (metric :: rest) = Ok df' ->
  exists col r df1,
    getitem df metric = Ok (Series col) /\
    accumulate None col = Ok r /\
    setitem df (cummax_name metric) (Series r) = Ok df1 /\
    cummax_loop df1 rest = Ok df'.
Proof.
  simpl. intros Hl. inv_bind Hl. inv_bind Hl. inv_bind Hl.
  destruct (setitem_Ok _ _ _ _ E1) as (r & -> & _).
  destruct a as [col|cs]; simpl in E0.
  - inv_bind E0. inversion E0; subst. eauto 10.
  - inv_bind E0. discriminate.
Qed.

(** Every metric selects a series of the frame the loop starts from,
    and this series has a running maximum. *)
Lemma cummax_loop_getitem (ms : list string) df df' :
  cummax_free ms -> cummax_loop df ms = Ok df' ->
  forall j m, ms !! j = Some m ->
    exists col r, getitem df m = Ok (Series col) /\ accumulate None col = Ok r.
Proof.
  revert df. induction ms as [|metric rest IH]; intros df Hfree Hl j m Hj;
    [discriminate|].
  destruct Hfree as [Hnin Hfree].
  apply cummax_loop_cons in Hl as (col & r & df1 & Hg & Ha & Hs & Hl).
  destruct j as [|j]; simpl in Hj.
  - inversion Hj; subst. eauto.
  - destruct (IH _ Hfree Hl j m Hj) as (col' & r' & Hg' & Ha').
    exists col', r'. split; [|assumption].
    rewrite <- Hg'. symmetry. eapply setitem_getitem_ne; [eassumption|].
    intros ->. apply Hnin. eapply list_elem_of_lookup_2. eassumption.
Qed.

(** The loop keeps the index, and the label at every position; it
    keeps the values of a column unless its label is the name of a
    derived column. *)
Lemma cummax_loop_lookup (ms : list string) df df' :
  cummax_loop df ms = Ok df' ->
  index_len df' = index_len df /\
  forall c label col, columns df !! c = Some (label, col) ->
    exists col', columns df' !! c = Some (label, col') /\
                 (label ∉ cummax_name <$> ms -> col' = col).
Proof.
  revert df. induction ms as [|metric rest IH]; intros df Hl.
  - inversion Hl; subst. split; [reflexivity|]. eauto.
  - apply cummax_loop_cons in Hl as (col0 & r & df1 & Hg & Ha & Hs & Hl).
    destruct (IH _ Hl) as [Hidx Hpos]. split.
    + rewrite Hidx. now destruct (setitem_Ok _ _ _ _ Hs) as (? & _ & -> & _).
    + intros c label col Hc.
      destruct (setitem_lookup _ _ _ _ _ _ _ Hs Hc) as (col1 & Hc1 & Hsame1).
      destruct (Hpos _ _ _ Hc1) as (col' & Hc' & Hsame').
      exists col'. split; [assumption|].
      rewrite fmap_cons, not_elem_of_cons. intros [Hne Hnin].
      rewrite (Hsame' Hnin). now apply Hsame1.
Qed.

Lemma cummax_loop_NoDup (ms : list string) df df' :
  cummax_loop df ms = Ok df' -> NoDup (labels df) -> NoDup (labels df').
Proof.
  revert df. induction ms as [|metric rest IH]; intros df Hl Hnd.
  - now inversion Hl; subst.
  - apply cummax_loop_cons in Hl as (col0 & r & df1 & Hg & Ha & Hs & Hl).
    eapply IH; [eassumption|]. eapply setitem_NoDup; eassumption.
Qed.

(** With distinct labels and distinct metrics, the column derived for
    a metric is the running maximum of the column the metric has when
    the loop starts. *)
Lemma cummax_loop_derived (ms : list string) df df' :
  NoDup (labels df) -> NoDup ms -> cummax_free ms ->
  cummax_loop df ms = Ok df' ->
  forall j m, ms !! j = Some m ->
    exists col r,
      getitem df m = Ok (Series col) /\
      accumulate None col = Ok r /\
      getitem df' (cummax_name m) = Ok (Series r).
Proof.
  revert df. induction ms as [|metric rest IH]; intros df Hnd Hms Hfree Hl j m Hj;
    [discriminate|].
  destruct Hfree as [Hnin Hfree]. apply NoDup_cons in Hms as [Hfresh Hms].
  pose proof (cummax_loop_NoDup _ _ _ Hl Hnd) as Hnd'.
  apply cummax_loop_cons in Hl as (col & r & df1 & Hg & Ha & Hs & Hl).
  pose proof (setitem_NoDup _ _ _ _ Hs Hnd) as Hnd1.
  destruct j as [|j]; simpl in Hj.
  - inversion Hj; subst m; clear Hj. exists col, r. repeat split; try assumption.
    pose proof (setitem_elem_key _ _ _ _ Hs) as Hin.
    apply list_elem_of_lookup in Hin as [c Hc].
    destruct (cummax_loop_lookup _ _ _ Hl) as [_ Hpos].
    destruct (Hpos _ _ _ Hc) as (col' & Hc' & Hsame).
    rewrite Hsame in Hc'.
    + apply getitem_unique; [exact Hnd'|]. eapply list_elem_of_lookup_2. eassumption.
    + intros (m' & Heq & Hin')%list_elem_of_fmap.
      apply Hfresh. apply cummax_name_inj in Heq. now subst.
  - destruct (IH _ Hnd1 Hms Hfree Hl j m Hj) as (col' & r' & Hg' & Ha' & Hd').
    exists col', r'. repeat split; try assumption.
    rewrite <- Hg'. symmetry. eapply setitem_getitem_ne; [eassumption|].
    intros ->. apply Hnin. eapply list_elem_of_lookup_2. eassumption.
Qed.

End CummaxLoop.

(** ** The rows of the table *)

Section Rows.
Context {FL : PyFloat}.

Lemma unpack7_Ok {A} (l : list A) (a b c d e f g : A) :
  Py.unpack7 l = Ok (a, b, c, d, e, f, g) -> l = [a; b; c; d; e; f; g].
Proof.
  destruct l as [|x1 [|x2 [|x3 [|x4 [|x5 [|x6 [|x7 [|x8 l]]]]]]]]; simpl;
    try discriminate.
  now inversion 1.
Qed.

Lemma evaluation_row_Ok (i : nat) (line : list string) (row : list cell)
    (vs : list pyfloat) :
  evaluation_row i line = Ok (row, vs) ->
  exists time duration process_duration fitness id_ pipeline_str log_time,
    line = [time; duration; process_duration; fitness; id_; pipeline_str; log_time] /\
    metrics_values_of fitness = Ok vs /\
    row = ([CInt i; CStr time; CStr duration] ++ (CFloat <$> vs)
             ++ [CStr pipeline_str; CStr id_])%list.
Proof.
  unfold evaluation_row. intros Hr. inv_bind Hr.
  destruct a as [[[[[[time duration] pd] fitness] id_] pipeline_str] log_time].
  apply unpack7_Ok in E. inv_bind Hr. inversion Hr; subst; clear Hr.
  eauto 12.
Qed.

Lemma metrics_values_of_length (fitness : string) (vs : list pyfloat) :
  metrics_values_of fitness = Ok vs ->
  length vs = length (Py.split_char (Py.str_slice_1_m1 fitness) ",") /\ 0 < length vs.
Proof.
  unfold metrics_values_of. intros Hm. apply mapM_Ok_length in Hm.
  split; [assumption|]. rewrite Hm.
  pose proof (split_char_nonempty (Py.str_slice_1_m1 fitness) ",") as Hne.
  destruct (Py.split_char (Py.str_slice_1_m1 fitness) ","); [congruence | simpl; lia].
Qed.

(** The first loop builds one row for every evaluation event, in the
    order of the events, and leaves in [metrics_values] the values of
    the last event. *)
Lemma evaluation_loop_Ok (lines : list (list string)) (i : nat)
    (acc : list (list cell)) (mv0 : option (list pyfloat))
    (rows : list (list cell)) (mv : option (list pyfloat)) :
  evaluation_loop i lines acc mv0 = Ok (rows, mv) ->
  exists rs : list (list cell * list pyfloat),
    rows = (acc ++ rs.*1)%list /\
    length rs = length lines /\
    (forall r line, lines !! r = Some line ->
       exists p, rs !! r = Some p /\ evaluation_row (i + r) line = Ok p) /\
    mv = match last rs with Some p => Some p.2 | None => mv0 end.
Proof.
  revert i acc mv0 rows mv.
  induction lines as [|line rest IH]; intros i acc mv0 rows mv Hl.
  - inversion Hl; subst. exists []. rewrite app_nil_r.
    repeat split. intros r line Hr. discriminate.
  - simpl in Hl. inv_bind Hl. destruct a as [row v].
    destruct (IH _ _ _ _ _ Hl) as (rs & -> & Hlen & Hrows & ->).
    exists ((row, v) :: rs). rewrite fmap_cons. simpl.
    rewrite <- app_assoc. simpl. repeat split.
    + now rewrite Hlen.
    + intros r line' Hr. destruct r as [|r]; simpl in Hr.
      * inversion Hr; subst. exists (row, v). rewrite Nat.add_0_r. auto.
      * destruct (Hrows _ _ Hr) as (p & Hp & Hrow). exists p.
        rewrite Nat.add_succ_r. auto.
    + rewrite last_cons. destruct (last rs); reflexivity.
Qed.

Lemma DataFrame_new_Ok (rows : list (list cell)) (names : list string)
    (df : DataFrame) :
  DataFrame_new rows names = Ok df ->
  index_len df = length rows /\
  labels df = names /\
  (rows <> [] -> max_list (length <$> rows) = length names) /\
  (forall c label, names !! c = Some label ->
     columns df !! c
     = Some (label, (fun row => default CNone (row !! c)) <$> rows)).
Proof.
  unfold DataFrame_new, labels. destruct rows as [|row rows].
  - intros Hd. inversion Hd; subst; clear Hd. simpl. repeat split.
    + rewrite <- list_fmap_compose. apply list_fmap_id.
    + congruence.
    + intros c label Hc. now rewrite list_lookup_fmap, Hc.
  - destruct (max_list (length <$> row :: rows) =? length names) eqn:Hw;
      [|discriminate].
    apply Nat.eqb_eq in Hw.
    intros Hd. inversion Hd; subst; clear Hd. simpl. repeat split.
    + apply list_eq. intros c.
      rewrite list_lookup_fmap, list_lookup_imap. now destruct (names !! c).
    + intros _. exact Hw.
    + intros c label Hc. now rewrite list_lookup_imap, Hc.
Qed.

End Rows.

(** ** The table *)

Lemma filter_eq_app (x : string) (l1 l2 : list string) :
  length (filter (fun y => y = x) (l1 ++ l2)%list)
  = length (filter (fun y => y = x) l1) + length (filter (fun y => y = x) l2).
Proof. now rewrite filter_app, length_app. Qed.

Lemma filter_eq_elem (x : string) (l : list string) :
  x ∈ l -> 0 < length (filter (fun y => y = x) l).
Proof.
  intros Hin. assert (Hf : x ∈ filter (fun y => y = x) l).
  { apply list_elem_of_filter. auto. }
  destruct (filter (fun y => y = x) l); [inversion Hf | simpl; lia].
Qed.

Lemma filter_eq_absent (x : string) (l : list string) :
  length (filter (fun y => y = x) l) = 0 -> x ∉ l.
Proof. intros H0 Hin. apply filter_eq_elem in Hin. lia. Qed.

Lemma NoDup_of_counts (l : list string) :
  (forall x, x ∈ l -> length (filter (fun y => y = x) l) <= 1) -> NoDup l.
Proof.
  induction l as [|a l IH]; intros Hc; [constructor|].
  constructor.
  - intros Hin. specialize (Hc a (list_elem_of_here _ _)).
    rewrite filter_cons, decide_True in Hc by reflexivity. simpl in Hc.
    apply filter_eq_elem in Hin. lia.
  - apply IH. intros x Hx. specialize (Hc x (list_elem_of_further _ _ _ Hx)).
    rewrite filter_cons in Hc. destruct (decide (a = x)); simpl in Hc; lia.
Qed.

Lemma max_list_attained (ns : list nat) : ns <> [] -> max_list ns ∈ ns.
Proof.
  induction ns as [|n ns IH]; [congruence|]. intros _. simpl.
  destruct ns as [|n' ns].
  - simpl. rewrite Nat.max_0_r. left.
  - destruct (Nat.max_spec n (max_list (n' :: ns))) as [[_ ->] | [_ ->]].
    + right. now apply IH.
    + left.
Qed.

Section Table.
Context {FL : PyFloat}.

Lemma evaluation_row_built (i : nat) (line : list string)
    (p : list cell * list pyfloat) :
  evaluation_row i line = Ok p -> built p.
Proof.
  destruct p as [row vs]. intros Hr.
  apply evaluation_row_Ok in Hr as (t & d & pd & f & id_ & ps & lt & _ & Hm & ->).
  apply metrics_values_of_length in Hm as [_ Hpos].
  exists i, t, d, ps, id_. auto.
Qed.

Lemma built_length (p : list cell * list pyfloat) :
  built p -> length p.1 = 5 + length p.2.
Proof.
  intros (i & t & d & ps & id_ & -> & _).
  rewrite !length_app, length_fmap. simpl. lia.
Qed.

Lemma built_lookup_value (p : list cell * list pyfloat) (j : nat) :
  built p -> j < length p.2 -> p.1 !! (3 + j) = CFloat <$> p.2 !! j.
Proof.
  intros (i & t & d & ps & id_ & -> & _) Hj. simpl.
  rewrite lookup_app_l by (now rewrite length_fmap).
  now rewrite list_lookup_fmap.
Qed.

Lemma built_lookup_pipeline (p : list cell * list pyfloat) :
  built p -> exists s, p.1 !! (3 + length p.2) = Some (CStr s).
Proof.
  intros (i & t & d & ps & id_ & -> & _). exists ps. simpl.
  rewrite lookup_app_r by (now rewrite length_fmap).
  rewrite length_fmap, Nat.sub_diag. reflexivity.
Qed.

Lemma column_names_lookup (ms : list string) (j : nat) :
  column_names_of ms !! (3 + j) = (ms ++ ["pipeline"; "id"])%list !! j.
Proof. reflexivity. Qed.

Lemma column_names_length (ms : list string) :
  length (column_names_of ms) = 5 + length ms.
Proof. unfold column_names_of. rewrite !length_app. simpl. lia. Qed.

Lemma getitem_Series_at (df : DataFrame) (key : string) (values : list cell)
    (c : nat) (col : list cell) :
  getitem df key = Ok (Series values) -> columns df !! c = Some (key, col) ->
  col = values.
Proof.
  unfold getitem. intros Hg Hc.
  destruct (filter (fun c => c.1 = key) (columns df)) as [|x [|y rest]] eqn:Hf;
    try discriminate.
  inversion Hg; subst; clear Hg.
  assert (Hin : (key, col) ∈ filter (fun c => c.1 = key) (columns df)).
  { apply list_elem_of_filter. split; [reflexivity|].
    eapply list_elem_of_lookup_2. eassumption. }
  rewrite Hf in Hin. apply list_elem_of_singleton in Hin. now subst x.
Qed.

Lemma column_names_NoDup (ms : list string) :
  (forall m, m ∈ ms ->
     length (filter (fun label => label = m) (column_names_of ms)) = 1) ->
  NoDup (column_names_of ms).
Proof.
  intros Hone. apply NoDup_of_counts. intros x Hx.
  destruct (decide (x ∈ ms)) as [Hin|Hnin]; [now rewrite Hone|].
  unfold column_names_of. rewrite !filter_eq_app.
  assert (length (filter (fun y => y = x) ms) = 0) as ->.
  { destruct (filter (fun y => y = x) ms) as [|z l] eqn:Hf; [reflexivity|].
    exfalso. apply Hnin.
    assert (Hz : z ∈ filter (fun y => y = x) ms) by (rewrite Hf; left).
    apply list_elem_of_filter in Hz as [-> Hz]. exact Hz. }
  rewrite !filter_cons, filter_nil.
  repeat (case_decide; simpl); subst; try discriminate; lia.
Qed.

End Table.

Section TableCore.
Context {FL : PyFloat}.

Lemma table_rows (lines : list (list string)) (rows : list (list cell))
    (mv : option (list pyfloat)) :
  evaluation_loop 0 lines [] None = Ok (rows, mv) ->
  exists rs : list (list cell * list pyfloat),
    rows = rs.*1 /\
    length rs = length lines /\
    (forall r line, lines !! r = Some line ->
       exists p, rs !! r = Some p /\ evaluation_row r line = Ok p) /\
    Forall built rs /\
    mv = (fun p => p.2) <$> last rs.
Proof.
  intros Hl. apply evaluation_loop_Ok in Hl as (rs & -> & Hlen & Hrows & ->).
  exists rs. repeat split; try assumption.
  apply Forall_lookup. intros r p Hp.
  destruct (lookup_lt_is_Some_2 lines r) as [line Hline].
  { rewrite <- Hlen. eapply lookup_lt_Some. eassumption. }
  destruct (Hrows _ _ Hline) as (p' & Hp' & Hrow). simpl in Hrow.
  rewrite Hp in Hp'. inversion Hp'; subst p'.
  eapply evaluation_row_built. eassumption.
Qed.

(** When the table is built, the labels of the constructed frame are
    distinct and every row has as many fitness values as there are
    metrics: in the column just after the values of a shorter row
    stands the pipeline, a string, which has no maximum with the
    floats of the longest rows. *)
Lemma equal_arity (ms : list string) (rs : list (list cell * list pyfloat))
    (df0 df : DataFrame) :
  cummax_free ms -> Forall built rs ->
  DataFrame_new rs.*1 (column_names_of ms) = Ok df0 ->
  cummax_loop df0 ms = Ok df ->
  NoDup (column_names_of ms) /\ Forall (fun p => length p.2 = length ms) rs.
Proof.
  intros Hfree Hbuilt Hnew Hloop.
  destruct (DataFrame_new_Ok _ _ _ Hnew) as (_ & Hlab & Hmax & Hcol).
  pose proof (cummax_loop_getitem _ _ _ Hfree Hloop) as Hget.
  split.
  - apply column_names_NoDup. intros m [j Hj]%list_elem_of_lookup.
    destruct (Hget j m Hj) as (col & r & Hg & _).
    apply getitem_Series_elem in Hg as [_ Hc].
    unfold labels in Hlab. now rewrite Hlab in Hc.
  - apply Forall_forall. intros p Hp.
    assert (Hne : rs.*1 <> []) by (destruct rs; [inversion Hp | discriminate]).
    specialize (Hmax Hne). rewrite column_names_length in Hmax.
    assert (Hbp : built p) by (rewrite Forall_forall in Hbuilt; auto).
    assert (Hle : length p.2 <= length ms).
    { assert (length p.1 <= max_list (length <$> rs.*1)).
      { apply max_list_elem_of_le. apply list_elem_of_fmap. exists p.1.
        split; [reflexivity|]. apply list_elem_of_fmap. eauto. }
      rewrite (built_length _ Hbp) in *. lia. }
    destruct (decide (length p.2 = length ms)) as [|Hlt]; [assumption|]. exfalso.
    assert (HR : exists R, R ∈ rs /\ length R.2 = length ms).
    { assert (Hfm : length <$> rs.*1 <> [])
        by (destruct (rs.*1); [congruence | discriminate]).
      apply max_list_attained in Hfm.
      apply list_elem_of_fmap in Hfm as (row & Hrow & Hin).
      apply list_elem_of_fmap in Hin as (R & -> & HR).
      exists R. split; [assumption|].
      assert (HbR : built R) by (rewrite Forall_forall in Hbuilt; auto).
      rewrite (built_length _ HbR) in Hrow. lia. }
    destruct HR as (R & HRin & HRlen).
    assert (HbR : built R) by (rewrite Forall_forall in Hbuilt; auto).
    destruct (lookup_lt_is_Some_2 ms (length p.2)) as [m Hm]; [lia|].
    destruct (Hget _ _ Hm) as (col & r & Hg & Hacc).
    assert (Hname : column_names_of ms !! (3 + length p.2) = Some m).
    { rewrite column_names_lookup. rewrite lookup_app_l by lia. exact Hm. }
    pose proof (getitem_Series_at _ _ _ _ _ Hg (Hcol _ _ Hname)) as Heq.
    subst col.
    destruct (built_lookup_pipeline _ Hbp) as [s Hs].
    assert (Hx : exists x, R.1 !! (3 + length p.2) = Some (CFloat x)).
    { rewrite (built_lookup_value _ _ HbR) by lia.
      destruct (lookup_lt_is_Some_2 R.2 (length p.2)) as [x Hx]; [lia|].
      exists x. now rewrite Hx. }
    destruct Hx as [x Hx].
    eapply (accumulate_no_mix _ _ s x Hacc).
    + apply list_elem_of_fmap. exists p.1. rewrite Hs. split; [reflexivity|].
      apply list_elem_of_fmap. eauto.
    + apply list_elem_of_fmap. exists R.1. rewrite Hx. split; [reflexivity|].
      apply list_elem_of_fmap. eauto.
Qed.

(** With rows of equal arity, the column of the [j]-th metric holds
    the [j]-th fitness value of every row. *)
Lemma metric_column (rs : list (list cell * list pyfloat)) (L j : nat) :
  Forall built rs -> Forall (fun p => length p.2 = L) rs -> j < L ->
  exists values,
    Forall2 (fun p v => p.2 !! j = Some v) rs values /\
    (fun row => default CNone (row !! (3 + j))) <$> rs.*1 = CFloat <$> values.
Proof.
  intros Hb Hlen Hj. induction rs as [|p rs IH].
  - exists []. split; [constructor | reflexivity].
  - apply Forall_cons in Hb as [Hbp Hb]. apply Forall_cons in Hlen as [Hp Hlen].
    destruct (IH Hb Hlen) as (values & HF & Hcol).
    destruct (lookup_lt_is_Some_2 p.2 j) as [v Hv]; [lia|].
    exists (v :: values). split; [now constructor|].
    rewrite !fmap_cons, Hcol. f_equal.
    rewrite (built_lookup_value _ _ Hbp) by lia. now rewrite Hv.
Qed.

Lemma evaluations_to_dataframe_Ok (lines : list (list string))
    (metric_names : option (list string)) (df : DataFrame) :
  _evaluations_to_dataframe lines metric_names = Ok df ->
  exists rs ms df0,
    length rs = length lines /\
    (forall r line, lines !! r = Some line ->
       exists p, rs !! r = Some p /\ evaluation_row r line = Ok p) /\
    Forall built rs /\
    match metric_names with
    | Some names => ms = names
    | None => exists p, last rs = Some p /\ ms = synthesized_names (length p.2)
    end /\
    DataFrame_new rs.*1 (column_names_of ms) = Ok df0 /\
    cummax_loop df0 ms = Ok df.
Proof.
  unfold _evaluations_to_dataframe. intros Hd.
  inv_bind Hd. destruct a as [rows mv]. inv_bind Hd. inv_bind Hd.
  apply table_rows in E as (rs & -> & Hlen & Hrows & Hbuilt & ->).
  exists rs, a, a0. repeat split; try assumption.
  destruct metric_names as [names|].
  - now inversion E0.
  - inv_bind E0. inversion E0; subst; clear E0.
    destruct (last rs) as [p|]; [|discriminate].
    simpl in E. inversion E; subst. eauto.
Qed.

End TableCore.

(** ** Names of metrics and of derived columns *)

Lemma last_char_app (a b : string) : b <> "" -> last_char (a +:+ b) = last_char b.
Proof.
  intros Hb. induction a as [|x a IH]; [reflexivity|].
  rewrite append_cons. simpl. rewrite IH.
  destruct b as [|y b]; [congruence|]. simpl. now destruct (last_char b).
Qed.

Lemma last_char_cummax_name (m : string) : last_char (cummax_name m) = Some "x"%char.
Proof. unfold cummax_name. now rewrite last_char_app. Qed.

Lemma last_char_digits (u : Decimal.uint) :
  last_char (NilEmpty.string_of_uint u) <> Some "x"%char.
Proof.
  induction u; simpl; try discriminate;
    destruct (last_char (NilEmpty.string_of_uint u)); congruence.
Qed.

Lemma last_char_string_of_nat (n : nat) :
  string_of_nat n <> "" /\ last_char (string_of_nat n) <> Some "x"%char.
Proof.
  unfold string_of_nat, NilZero.string_of_uint.
  destruct (Nat.to_uint n) eqn:Hu; try (split; [discriminate | apply last_char_digits]).
  split; discriminate.
Qed.

Lemma last_char_synthesized (k : nat) :
  Forall (fun m => last_char m <> Some "x"%char) (synthesized_names k).
Proof.
  unfold synthesized_names. apply Forall_fmap, Forall_forall. intros n _.
  destruct (last_char_string_of_nat n) as [Hne Hlast]. unfold compose.
  rewrite last_char_app by assumption. exact Hlast.
Qed.

Lemma last_char_column_names (ms : list string) :
  Forall (fun m => last_char m <> Some "x"%char) ms ->
  Forall (fun m => last_char m <> Some "x"%char) (column_names_of ms).
Proof.
  intros Hms. unfold column_names_of. rewrite !Forall_app. repeat split.
  - repeat constructor; discriminate.
  - assumption.
  - repeat constructor; discriminate.
Qed.

Section Names.
Context {FL : PyFloat}.

Lemma cummax_name_not_last (m : string) (l : list string) :
  Forall (fun m => last_char m <> Some "x"%char) l -> cummax_name m ∉ l.
Proof.
  intros Hl Hin. rewrite Forall_forall in Hl. apply (Hl _ Hin).
  apply last_char_cummax_name.
Qed.

Lemma cummax_free_cons (m : string) (rest : list string) :
  Forall (fun m => last_char m <> Some "x"%char) rest -> cummax_free (m :: rest).
Proof.
  revert m. induction rest as [|m' rest IH]; intros m Hl.
  - split; [apply not_elem_of_nil | exact I].
  - split; [now apply cummax_name_not_last|].
    apply IH. now apply Forall_cons in Hl as [_ Hl].
Qed.

Lemma cummax_free_last (ms : list string) :
  Forall (fun m => last_char m <> Some "x"%char) ms -> cummax_free ms.
Proof.
  destruct ms as [|m rest]; [intros _; exact I|].
  intros [_ Hl]%Forall_cons. now apply cummax_free_cons.
Qed.

Lemma metric_configuration_shape (lines ms : list string) :
  _find_metric_configuration lines = Ok ms ->
  exists metric, ms = [metric] \/ ms = [metric; "length"].
Proof.
  unfold _find_metric_configuration. intros Hm.
  inv_bind Hm. inv_bind Hm. destruct a0 as [ctor arguments].
  inv_bind Hm. destruct a0 as [[scoring regularize_length] more].
  inv_bind Hm. destruct a0 as [k1 metric].
  inv_bind Hm. destruct a0 as [k2 regularize].
  exists metric. destruct (Py.bool_of_str regularize); inversion Hm; auto.
Qed.

Lemma metric_configuration_cummax_free (lines ms : list string) :
  _find_metric_configuration lines = Ok ms -> cummax_free ms.
Proof.
  intros [metric [-> | ->]]%metric_configuration_shape.
  - apply cummax_free_cons. constructor.
  - apply cummax_free_cons. repeat constructor. discriminate.
Qed.

(** Derived columns with new, distinct names are appended in the order
    of the metrics. *)
Lemma cummax_loop_labels_fresh (ms : list string) (df df' : DataFrame) :
  NoDup (labels df ++ (cummax_name <$> ms))%list ->
  cummax_loop df ms = Ok df' ->
  labels df' = (labels df ++ (cummax_name <$> ms))%list.
Proof.
  revert df. induction ms as [|metric rest IH]; intros df Hnd Hl.
  - inversion Hl; subst. now rewrite app_nil_r.
  - apply cummax_loop_cons in Hl as (col & r & df1 & _ & _ & Hs & Hl).
    rewrite fmap_cons in Hnd |- *.
    assert (Hlab1 : labels df1 = (labels df ++ [cummax_name metric])%list).
    { unfold labels. rewrite (setitem_labels _ _ _ _ Hs).
      rewrite bool_decide_false; [reflexivity|].
      apply NoDup_app in Hnd as (_ & Hdisj & _). intros Hin.
      apply (Hdisj _ Hin). left. }
    rewrite (IH df1 ltac:(rewrite Hlab1, <- app_assoc; exact Hnd) Hl).
    now rewrite Hlab1, <- app_assoc.
Qed.

End Names.

Section TableOfMetrics.
Context {FL : PyFloat}.

Lemma evaluation_row_arity (r : nat) (line : list string)
    (p : list cell * list pyfloat) :
  evaluation_row r line = Ok p -> fitness_arity line = Some (length p.2).
Proof.
  destruct p as [row vs]. intros Hr.
  apply evaluation_row_Ok in Hr as (t & d & pd & f & id_ & ps & lt & -> & Hm & _).
  apply metrics_values_of_length in Hm as [Hlen _].
  unfold fitness_arity, fitness_fields. simpl. now rewrite Hlen.
Qed.

Lemma evaluation_row_value (r : nat) (line : list string)
    (p : list cell * list pyfloat) (j : nat) (v : pyfloat) :
  evaluation_row r line = Ok p -> p.2 !! j = Some v -> metric_value j line v.
Proof.
  destruct p as [row vs]. intros Hr Hv.
  apply evaluation_row_Ok in Hr as (t & d & pd & f & id_ & ps & lt & -> & Hm & _).
  exists f, vs. auto.
Qed.


(** The table built for metric names none of which is the name of the
    derived column of an earlier one. *)
Lemma table_of_metrics (lines : list (list string)) (ms : list string)
    (df : DataFrame) :
  cummax_free ms ->
  _evaluations_to_dataframe lines (Some ms) = Ok df ->
  exists rs : list (list cell * list pyfloat),
    length rs = length lines /\
    (forall r line, lines !! r = Some line ->
       exists p, rs !! r = Some p /\ evaluation_row r line = Ok p) /\
    Forall (fun p => length p.2 = length ms) rs /\
    index_len df = length lines /\
    (forall c label, column_names_of ms !! c = Some label ->
       exists col, columns df !! c = Some (label, col) /\
         (label ∉ cummax_name <$> ms ->
          col = (fun row => default CNone (row !! c)) <$> rs.*1)) /\
    (forall j m, ms !! j = Some m ->
       exists values,
         Forall2 (fun p v => p.2 !! j = Some v) rs values /\
         getitem df (cummax_name m)
         = Ok (Series (CFloat <$> running_max None values))).
Proof.
  intros Hfree Hd.
  apply evaluations_to_dataframe_Ok in Hd
    as (rs & ms' & df0 & Hlen & Hrows & Hbuilt & -> & Hnew & Hloop).
  destruct (equal_arity _ _ _ _ Hfree Hbuilt Hnew Hloop) as [Hnd Harity].
  destruct (DataFrame_new_Ok _ _ _ Hnew) as (Hidx & Hlab & _ & Hcol).
  destruct (cummax_loop_lookup _ _ _ Hloop) as [Hidx' Hpos].
  exists rs. repeat split; try assumption.
  - now rewrite Hidx', Hidx, length_fmap.
  - intros c label Hc. apply (Hpos _ _ _ (Hcol _ _ Hc)).
  - intros j m Hj.
    assert (Hms : NoDup ms).
    { unfold column_names_of in Hnd.
      apply NoDup_app in Hnd as (_ & _ & Hnd). now apply NoDup_app in Hnd as (Hnd & _). }
    assert (Hnd0 : NoDup (labels df0)) by now rewrite Hlab.
    destruct (cummax_loop_derived _ _ _ Hnd0 Hms Hfree Hloop j m Hj)
      as (col & r & Hg & Hacc & Hderived).
    destruct (metric_column rs (length ms) j Hbuilt Harity) as (values & HF & Hvalues).
    { eapply lookup_lt_Some. eassumption. }
    exists values. split; [assumption|].
    assert (Hname : column_names_of ms !! (3 + j) = Some m).
    { rewrite column_names_lookup, lookup_app_l; [assumption|].
      eapply lookup_lt_Some. eassumption. }
    pose proof (getitem_Series_at _ _ _ _ _ Hg (Hcol _ _ Hname)) as Heq.
    rewrite Hvalues in Heq. subst col.
    pose proof (accumulate_floats values) as Hrun.
    rewrite Hrun in Hacc. inversion Hacc; subst r. exact Hderived.
Qed.

(** The table built without metric names. *)
Lemma table_inferred (lines : list (list string)) (df : DataFrame) :
  _evaluations_to_dataframe lines None = Ok df ->
  exists k,
    lines <> [] /\
    (forall r line, lines !! r = Some line -> fitness_arity line = Some k) /\
    labels df = (column_names_of (synthesized_names k)
                   ++ (cummax_name <$> synthesized_names k))%list.
Proof.
  intros Hd.
  apply evaluations_to_dataframe_Ok in Hd
    as (rs & ms & df0 & Hlen & Hrows & Hbuilt & (q & Hq & ->) & Hnew & Hloop).
  set (k := length q.2) in *.
  pose proof (last_char_synthesized k) as Hlast.
  pose proof (cummax_free_last _ Hlast) as Hfree.
  destruct (equal_arity _ _ _ _ Hfree Hbuilt Hnew Hloop) as [Hnd Harity].
  destruct (DataFrame_new_Ok _ _ _ Hnew) as (_ & Hlab & _ & _).
  assert (Hk : length (synthesized_names k) = k).
  { unfold synthesized_names. now rewrite length_fmap, length_seq. }
  exists k. repeat split.
  - intros ->. destruct rs; [discriminate Hq | discriminate Hlen].
  - intros r line Hline. destruct (Hrows _ _ Hline) as (p & Hp & Hrow).
    rewrite (evaluation_row_arity _ _ _ Hrow). f_equal.
    rewrite Forall_forall in Harity. rewrite <- Hk. apply Harity.
    eapply list_elem_of_lookup_2. eassumption.
  - rewrite <- Hlab. apply cummax_loop_labels_fresh; [|assumption].
    rewrite Hlab. apply NoDup_app. split; [assumption|]. split.
    + intros x Hx (m & -> & _)%list_elem_of_fmap.
      revert Hx. apply cummax_name_not_last. now apply last_char_column_names.
    + apply NoDup_fmap; [intros a b; apply cummax_name_inj|].
      unfold column_names_of in Hnd.
      apply NoDup_app in Hnd as (_ & _ & Hnd). now apply NoDup_app in Hnd as (Hnd & _).
Qed.

(** *** When the table is built *)











End TableOfMetrics.

(** ** The table of a report *)

Section ReportTable.
Context {FL : PyFloat} {TM : PyTime} {ML : MachineLogging} {FS : FileSystem}.

Lemma report_table (logfile : option string) (log_lines : option (list string))
    (nm : option string) (r : GamaReport) :
  GamaReport__init__ logfile log_lines nm = Ok r ->
  exists lines ple_lines d,
    load_log_lines logfile log_lines = Ok lines /\
    ple_lines_of lines = Ok ple_lines /\
    group_events lines = Ok d /\
    d !! TOKENS_EVALUATION_RESULT
    = Some (events_with TOKENS_EVALUATION_RESULT ple_lines) /\
    cummax_free (metrics r) /\
    _evaluations_to_dataframe (events_with TOKENS_EVALUATION_RESULT ple_lines)
                              (Some (metrics r)) = Ok (evaluations r).
Proof.
  intros Hr.
  apply init_Ok in Hr as (lines & d & events & Hl & Hm & Hg & He & Hd & _).
  destruct (group_events_Ok _ _ Hg) as (ple_lines & Hple & Hby).
  pose proof (events_by_type_of_lookup _ _ _ _ Hby TOKENS_EVALUATION_RESULT) as Hlook.
  rewrite He in Hlook.
  destruct (decide (TOKENS_EVALUATION_RESULT ∈ TOKENS_values));
    [|now rewrite lookup_empty in Hlook].
  inversion Hlook; subst events.
  exists lines, ple_lines, d. repeat split; try assumption.
  eapply metric_configuration_cummax_free. eassumption.
Qed.


Hypothesis float_le_total :
  forall x y, isnan x = false -> isnan y = false ->
              float_le x y = true \/ float_le y x = true.
Hypothesis float_le_trans :
  forall x y z, float_le x y = true -> float_le y z = true -> float_le x z = true.

(** C1.  For every metric of a report, the table has the derived column
    [<metric>_cummax], a column of floats with one value for every
    evaluation event.  In a row whose value of the metric is a NaN it
    holds this NaN.  In every other row [i] it holds a maximum of those
    values of the metric in the rows [0 .. i] that are numbers; and from
    a row to a later row the numbers of the column never decrease.  Of
    the order [<=] of the floats the proof uses that it is transitive,
    and total on the values that are not NaN. *)
Theorem cummax_columns (logfile : option string)
    (log_lines : option (list string)) (nm : option string) (r : GamaReport) :
  GamaReport__init__ logfile log_lines nm = Ok r ->
  exists lines ple_lines,
    load_log_lines logfile log_lines = Ok lines /\
    ple_lines_of lines = Ok ple_lines /\
    forall j metric, metrics r !! j = Some metric ->
      exists values cummax_values,
        Forall2 (metric_value j)
                (events_with TOKENS_EVALUATION_RESULT ple_lines) values /\
        getitem (evaluations r) (cummax_name metric)
        = Ok (Series (CFloat <$> cummax_values)) /\
        length cummax_values = length values /\
        (forall i v, values !! i = Some v -> isnan v = true ->
                     cummax_values !! i = Some v) /\
        (forall i v c, values !! i = Some v -> isnan v = false ->
                       cummax_values !! i = Some c ->
                       is_maximum c (numbers (take (S i) values))) /\
        (forall i i' a b, i <= i' ->
                          cummax_values !! i = Some a ->
                          cummax_values !! i' = Some b ->
                          isnan a = false -> isnan b = false ->
                          float_le a b = true).
Proof.
  intros Hr.
  apply report_table in Hr as (lines & ple & d & Hl & Hple & _ & _ & Hfree & Hd).
  apply (table_of_metrics _ _ _ Hfree) in Hd
    as (rs & Hlen & Hrows & _ & _ & _ & Hderived).
  exists lines, ple. repeat split; try assumption.
  intros j metric Hj. destruct (Hderived _ _ Hj) as (values & HF & Hg).
  exists values, (running_max None values).
  split; [|split; [exact Hg|]].
  - apply Forall2_same_length_lookup_2.
    + rewrite <- Hlen. eapply Forall2_length. eassumption.
    + intros i event v Hi Hv. destruct (Hrows _ _ Hi) as (p & Hp & Hrow).
      destruct (Forall2_lookup_l _ _ _ _ _ HF Hp) as (v' & Hv' & Hpv).
      rewrite Hv in Hv'. inversion Hv'; subst v'.
      eapply evaluation_row_value; eassumption.
  - apply (running_max_properties float_le_total float_le_trans).
Qed.

End ReportTable.

(** ** Splitting and joining *)

Lemma split_char_cons (a : ascii) (s : string) (c : ascii) :
  Py.split_char (String a s) c
  = if Ascii.eqb a c then "" :: Py.split_char s c
    else match Py.split_char s c with
         | p :: ps => String a p :: ps
         | [] => [String a ""]
         end.
Proof. unfold Py.split_char. simpl. now destruct (Ascii.eqb a c). Qed.

(** No part of [s.split(c)] contains the separator. *)
Lemma split_char_parts_clean (s : string) (c : ascii) :
  Forall (fun p => has_char p c = false) (Py.split_char s c).
Proof.
  induction s as [|a s IH]; [repeat constructor|].
  rewrite split_char_cons. destruct (Ascii.eqb a c) eqn:Ha.
  - constructor; [reflexivity | exact IH].
  - destruct (Py.split_char s c) as [|p ps].
    + repeat constructor. simpl. now rewrite Ha.
    + apply Forall_cons in IH as [Hp Hps]. constructor; [|exact Hps].
      simpl. now rewrite Ha, Hp.
Qed.

(** [c.join(s.split(c)) == s] *)
Lemma join_split_char (s : string) (c : ascii) :
  join (String c "") (Py.split_char s c) = s.
Proof.
  induction s as [|a s IH]; [reflexivity|].
  rewrite split_char_cons. destruct (Ascii.eqb a c) eqn:Ha.
  - apply Ascii.eqb_eq in Ha. subst a.
    pose proof (split_char_nonempty s c) as Hne.
    destruct (Py.split_char s c) as [|p ps]; [congruence|].
    change (join (String c "") ("" :: p :: ps))
      with (String c (join (String c "") (p :: ps))).
    now rewrite IH.
  - pose proof (split_char_nonempty s c) as Hne.
    destruct (Py.split_char s c) as [|p ps]; [congruence|].
    destruct ps as [|q ps].
    + simpl in IH |- *. now rewrite IH.
    + change (join (String c "") (String a p :: q :: ps))
        with (String a (join (String c "") (p :: q :: ps))).
      now rewrite IH.
Qed.

(** [c.join(parts).split(c) == parts] for parts without the separator. *)
Lemma split_char_join (parts : list string) (c : ascii) :
  parts <> [] -> Forall (fun p => has_char p c = false) parts ->
  Py.split_char (join (String c "") parts) c = parts.
Proof.
  induction parts as [|p parts IH]; [congruence|]. intros _ Hclean.
  apply Forall_cons in Hclean as [Hp Hclean].
  destruct parts as [|q parts].
  - simpl. now apply split_char_absent.
  - change (join (String c "") (p :: q :: parts))
      with (p +:+ String c (join (String c "") (q :: parts))).
    rewrite split_char_first by assumption. f_equal. now apply IH.
Qed.

Lemma split_char_two (s a b : string) (c : ascii) :
  Py.split_char s c = [a; b] ->
  s = a +:+ String c b /\ has_char a c = false /\ has_char b c = false.
Proof.
  intros Hs. pose proof (join_split_char s c) as Hj.
  pose proof (split_char_parts_clean s c) as Hc. rewrite Hs in Hj, Hc.
  apply Forall_cons in Hc as [Ha Hc]. apply Forall_cons in Hc as [Hb _].
  split; [symmetry; exact Hj | auto].
Qed.

Lemma unpack2_Ok {A} (l : list A) (a b : A) : Py.unpack2 l = Ok (a, b) -> l = [a; b].
Proof.
  destruct l as [|x [|y [|z l]]]; simpl; try discriminate. now inversion 1.
Qed.

Lemma unpack2_star_Ok {A} (l : list A) (a b : A) (rest : list A) :
  Py.unpack2_star l = Ok (a, b, rest) -> l = a :: b :: rest.
Proof.
  destruct l as [|x [|y l]]; simpl; try discriminate. now inversion 1.
Qed.

Lemma startswith_app (p x : string) : Py.startswith (p +:+ x) p = true.
Proof.
  induction p as [|a p IH]; [reflexivity|].
  rewrite append_cons. simpl. now rewrite Ascii.eqb_refl.
Qed.

Lemma rev_app_append (b x : string) : String.rev_app b x = String.rev_app b "" +:+ x.
Proof.
  revert x. induction b as [|a b IH]; intros x; [reflexivity|].
  simpl. rewrite (IH (String a x)), (IH (String a "")).
  now rewrite append_assoc_str.
Qed.

Lemma rev_app_app (a b acc : string) :
  String.rev_app (a +:+ b) acc = String.rev_app b (String.rev_app a acc).
Proof.
  revert acc. induction a as [|x a IH]; intros acc; [reflexivity|].
  rewrite append_cons. simpl. apply IH.
Qed.

Lemma endswith_app (x p : string) : Py.endswith (x +:+ p) p = true.
Proof.
  unfold Py.endswith, String.rev. rewrite rev_app_app, rev_app_append.
  apply startswith_app.
Qed.

Lemma join_last (sep : string) (parts : list string) (p : string) :
  parts <> [] -> join sep (parts ++ [p])%list = join sep parts +:+ sep +:+ p.
Proof.
  induction parts as [|q parts IH]; [congruence|]. intros _.
  destruct parts as [|q' parts].
  - reflexivity.
  - change (join sep ((q :: q' :: parts) ++ [p])%list)
      with (q +:+ sep +:+ join sep ((q' :: parts) ++ [p])%list).
    rewrite IH by discriminate.
    change (join sep (q :: q' :: parts)) with (q +:+ sep +:+ join sep (q' :: parts)).
    now rewrite !append_assoc_str.
Qed.

Lemma slice_1_m1_framed {A} (first last : A) (middle : list A) :
  Py.slice_1_m1 ([first] ++ middle ++ [last])%list = middle.
Proof. unfold Py.slice_1_m1. simpl. apply removelast_last. Qed.

(** ** Framed lines *)

Section FramedLines.
Context {ML : MachineLogging}.

Lemma format_event_framed (token : string) (fields : list string) :
  is_framed (format_event token fields) = true.
Proof.
  unfold is_framed, format_event. apply andb_true_intro. split.
  - change (join PLE_DELIM ([PLE_START; token] ++ fields ++ [PLE_END])%list)
      with (PLE_START +:+ PLE_DELIM
              +:+ join PLE_DELIM (token :: fields ++ [PLE_END])%list).
    apply startswith_app.
  - change ([PLE_START; token] ++ fields ++ [PLE_END])%list
      with ((PLE_START :: token :: fields) ++ [PLE_END])%list.
    rewrite join_last by discriminate.
    rewrite <- append_assoc_str. apply endswith_app.
Qed.

Lemma ple_lines_of_cons (line : string) (rest : list string) :
  ple_lines_of (line :: rest)
  = if is_framed line
    then let* parts := Py.split line PLE_DELIM in
         let* ple_lines := ple_lines_of rest in
         Ok (Py.slice_1_m1 parts :: ple_lines)
    else ple_lines_of rest.
Proof.
  unfold ple_lines_of, is_framed. rewrite filter_cons.
  destruct (Py.startswith line PLE_START && Py.endswith line PLE_END) eqn:Hf.
  - rewrite decide_True by exact I. simpl.
    destruct (Py.split line PLE_DELIM); reflexivity.
  - rewrite decide_False by (intros []). reflexivity.
Qed.

(** X1.  Reading is the inverse of writing: with a delimiter of one
    character that occurs neither in the markers nor in the tokens and
    fields, the lines written for a list of events are read back as
    these events, token first. *)
Theorem ple_lines_of_format (c : ascii) (events : list (string * list string)) :
  PLE_DELIM = String c "" ->
  has_char PLE_START c = false ->
  has_char PLE_END c = false ->
  Forall (fun e => has_char e.1 c = false /\
                   Forall (fun f => has_char f c = false) e.2) events ->
  ple_lines_of ((fun e => format_event e.1 e.2) <$> events)
  = Ok ((fun e => e.1 :: e.2) <$> events).
Proof.
  intros Hdelim Hstart Hend Hclean.
  induction events as [|[token fields] events IH]; [reflexivity|].
  apply Forall_cons in Hclean as [[Htoken Hfields] Hclean].
  rewrite !fmap_cons, ple_lines_of_cons, format_event_framed. simpl.
  rewrite (IH Hclean). unfold format_event. rewrite Hdelim. unfold Py.split.
  fold (Py.split_char (join (String c "") ([PLE_START; token] ++ fields ++ [PLE_END])%list) c).
  rewrite split_char_join.
  - simpl. f_equal. f_equal.
    apply (slice_1_m1_framed PLE_START PLE_END (token :: fields)).
  - discriminate.
  - repeat (apply Forall_cons; split; [assumption|]).
    apply Forall_app. split; [assumption|]. repeat constructor. assumption.
Qed.

(** A line that is not framed by the markers does not count. *)
Lemma ple_lines_of_unframed (before after : list string) (line : string) :
  is_framed line = false ->
  ple_lines_of (before ++ line :: after)%list = ple_lines_of (before ++ after)%list.
Proof.
  intros Hf. induction before as [|l before IH].
  - simpl. now rewrite ple_lines_of_cons, Hf.
  - rewrite <- !app_comm_cons, !ple_lines_of_cons, IH. reflexivity.
Qed.

Lemma unpack_empty_event (ple_lines : list (list string)) :
  [] ∈ ple_lines ->
  mapM Py.unpack1_star ple_lines = Raise (ValueError (NotEnoughValues 1 0)).
Proof.
  induction ple_lines as [|line rest IH]; intros Hin; [inversion Hin|].
  apply elem_of_cons in Hin as [<-|Hin]; [reflexivity|].
  simpl. destruct line as [|t event]; [reflexivity|]. simpl.
  now rewrite (IH Hin).
Qed.

End FramedLines.

(** ** The metric configuration, exactly *)

Lemma metric_configuration_of_line (first ctor k1 metric k2 value tail : string)
    (rest : list string) :
  well_formed_line ctor k1 metric k2 value tail ->
  _find_metric_configuration (first :: call_line ctor k1 metric k2 value tail :: rest)
  = Ok (if Py.bool_of_str value then [metric; "length"] else [metric]).
Proof.
  intros (Hc & Hargs & Ht & Htail).
  apply Forall_cons in Hargs as [(Hk1a & Hk1b & Hk1c) Hargs].
  apply Forall_cons in Hargs as [(Hm1 & Hm2 & Hm3) Hargs].
  apply Forall_cons in Hargs as [(Hk2a & Hk2b & Hk2c) Hargs].
  apply Forall_cons in Hargs as [(Hv1 & Hv2 & Hv3) _].
  unfold _find_metric_configuration, call_line. cbn [Py.index lookup list_lookup bind].
  change (ctor +:+ "(" +:+ ?x) with (ctor +:+ String "(" x).
  rewrite (split_char_first _ _ _ Hc).
  rewrite split_char_absent.
  2:{ change (k1 +:+ "=" +:+ ?x) with (k1 +:+ String "=" x).
      change (metric +:+ "," +:+ ?x) with (metric +:+ String "," x).
      change (k2 +:+ "=" +:+ ?x) with (k2 +:+ String "=" x).
      rewrite !has_char_app. simpl. rewrite !has_char_app. simpl.
      rewrite !has_char_app. simpl. rewrite !has_char_app.
      now rewrite Hk1a, Hm1, Hk2a, Hv1, Ht. }
  cbn [Py.unpack2 bind].
  replace (k1 +:+ "=" +:+ metric +:+ "," +:+ k2 +:+ "=" +:+ value +:+ tail)
    with ((k1 +:+ String "=" metric) +:+ String "," ((k2 +:+ String "=" value) +:+ tail)).
  2:{ rewrite !append_assoc_str. reflexivity. }
  rewrite split_char_first.
  2:{ rewrite has_char_app. simpl. now rewrite Hk1b, Hm2. }
  assert (exists more,
    Py.split_char ((k2 +:+ String "=" value) +:+ tail) "," =
    (k2 +:+ String "=" value) :: more) as [more ->].
  { assert (Hclean : has_char (k2 +:+ String "=" value) "," = false).
    { rewrite has_char_app. simpl. now rewrite Hk2b, Hv2. }
    destruct Htail as [-> | [rest' ->]].
    - exists []. rewrite append_nil_r. now apply split_char_absent.
    - eexists. now apply split_char_first. }
  cbn [Py.unpack2_star bind].
  rewrite split_char_first by assumption.
  rewrite (split_char_absent metric) by assumption.
  cbn [Py.unpack2 bind].
  rewrite split_char_first by assumption.
  rewrite (split_char_absent value) by assumption.
  cbn [Py.unpack2 bind].
  destruct value; reflexivity.
Qed.

Lemma join_tail (c : ascii) (p : string) (more : list string) :
  exists tail,
    join (String c "") (p :: more) = p +:+ tail /\
    (tail = "" \/ exists rest, tail = String c rest).
Proof.
  destruct more as [|q more].
  - exists "". simpl. rewrite append_nil_r. auto.
  - exists (String c (join (String c "") (q :: more))). split; [reflexivity|]. eauto.
Qed.

(** X5.  The metric configuration is found exactly for the logs whose
    second line is a well formed constructor call; the names of the two
    arguments are not looked at, and the result is [[metric]] for an
    empty second value and [[metric; "length"]] otherwise. *)
Theorem metric_configuration_exactly (lines ms : list string) :
  _find_metric_configuration lines = Ok ms <->
  exists first rest ctor k1 metric k2 value tail,
    lines = first :: call_line ctor k1 metric k2 value tail :: rest /\
    well_formed_line ctor k1 metric k2 value tail /\
    ms = if Py.bool_of_str value then [metric; "length"] else [metric].
Proof.
  split.
  - unfold _find_metric_configuration. intros Hm.
    inv_bind Hm. rename a into init_line.
    inv_bind Hm. destruct a as [ctor arguments]. apply unpack2_Ok in E0.
    inv_bind Hm. destruct a as [[scoring regularize_length] more].
    apply unpack2_star_Ok in E1.
    inv_bind Hm. destruct a as [k1 metric]. apply unpack2_Ok in E2.
    inv_bind Hm. destruct a as [k2 value]. apply unpack2_Ok in E3.
    destruct lines as [|first [|line rest]]; try discriminate E.
    simpl in E. inversion E; subst line; clear E.
    apply split_char_two in E0 as (Hline & Hctor & Hargs).
    pose proof (join_split_char arguments ",") as Hjoin.
    pose proof (split_char_parts_clean arguments ",") as Hclean.
    rewrite E1 in Hjoin, Hclean.
    apply Forall_cons in Hclean as [Hs Hclean].
    apply Forall_cons in Hclean as [Hr _].
    apply split_char_two in E2 as (-> & Hk1 & Hmetric).
    apply split_char_two in E3 as (-> & Hk2 & Hvalue).
    destruct (join_tail "," (k2 +:+ String "=" value) more) as (tail & Htl & Htail).
    change (join "," ((k1 +:+ String "=" metric) :: (k2 +:+ String "=" value) :: more))
      with ((k1 +:+ String "=" metric) +:+ String ","
              (join "," ((k2 +:+ String "=" value) :: more))) in Hjoin.
    rewrite Htl in Hjoin.
    rewrite has_char_app in Hs, Hr. simpl in Hs, Hr.
    apply orb_false_elim in Hs as [Hs1 Hs2]. apply orb_false_elim in Hr as [Hr1 Hr2].
    assert (Hopen : has_char k1 "(" = false /\ has_char metric "(" = false /\
                    has_char k2 "(" = false /\ has_char value "(" = false /\
                    has_char tail "(" = false).
    { rewrite <- Hjoin in Hargs. rewrite !has_char_app in Hargs. simpl in Hargs.
      rewrite !has_char_app in Hargs. simpl in Hargs.
      repeat (apply orb_false_elim in Hargs as [? Hargs]
              || match goal with H : _ || _ = false |- _ =>
                   apply orb_false_elim in H as [? ?] end).
      repeat split; assumption. }
    destruct Hopen as (Ho1 & Ho2 & Ho3 & Ho4 & Ho5).
    exists first, rest, ctor, k1, metric, k2, value, tail. split; [|split].
    + f_equal. f_equal. rewrite Hline, <- Hjoin. unfold call_line.
      rewrite !append_assoc_str. reflexivity.
    + split; [assumption|]. split; [|split; assumption].
      repeat constructor; assumption.
    + destruct (Py.bool_of_str value); now inversion Hm.
  - intros (first & rest & ctor & k1 & metric & k2 & value & tail & -> & Hwf & ->).
    now apply metric_configuration_of_line.
Qed.

(** ** The phases, exactly *)

Section PhasesExactly.
Context {TM : PyTime} {ML : MachineLogging}.

Lemma phase_information_of_record (d : gmap string (list (list string)))
    (phase : string) (record : string * string * Q) :
  phase_record_of d phase record -> phase_information d phase = Ok record.
Proof.
  intros (starts & ends & f1 & f2 & start_time & g1 & algorithm & end_time & ts & te
          & Hs & He & Hss & Hse & _ & _ & Hts & Hte & ->).
  unfold phase_information, dict_getitem, parse_time, selected_event in *.
  rewrite Hs, He. simpl.
  destruct (filter (fun event => phase ∈ event) starts) as [|s ?]; [discriminate|].
  destruct (filter (fun event => phase ∈ event) ends) as [|e ?]; [discriminate|].
  simpl in Hss, Hse. inversion Hss; subst s. inversion Hse; subst e. simpl.
  now rewrite Hte, Hts.
Qed.

Lemma mapM_of_Forall2 {A B} (f : A -> result B) (xs : list A) (ys : list B) :
  Forall2 (fun x y => f x = Ok y) xs ys -> mapM f xs = Ok ys.
Proof.
  induction 1 as [|x y xs ys Hxy _ IH]; [reflexivity|].
  simpl. now rewrite Hxy, IH.
Qed.

(** X7.  The phases are extracted exactly when, for each of the three
    phases, the first start event and the first end event that name it
    have three fields with readable time stamps; the result is then the
    list of their records. *)
Theorem find_phase_information_exactly (d : gmap string (list (list string)))
    (info : list (string * string * Q)) :
  _find_phase_information d = Ok info <->
  Forall2 (phase_record_of d) phases_order info.
Proof.
  split; [apply find_phase_information_records|].
  intros HF. apply mapM_of_Forall2.
  eapply Forall2_impl; [exact HF|]. intros phase record.
  apply phase_information_of_record.
Qed.

End PhasesExactly.

(** ** The constructor and its input *)

Section ConstructorInput.
Context {FL : PyFloat} {TM : PyTime} {ML : MachineLogging} {FS : FileSystem}.

(** What [__init__] does with the lines once they are loaded. *)
Lemma init_of_lines (logfile : option string) (log_lines : option (list string))
    (nm : option string) (lines : list string) :
  load_log_lines logfile log_lines = Ok lines ->
  GamaReport__init__ logfile log_lines nm
  = let* metrics := _find_metric_configuration lines in
    let* events_by_type := group_events lines in
    let* evaluation_lines := dict_getitem events_by_type TOKENS_EVALUATION_RESULT in
    let* evaluations := _evaluations_to_dataframe evaluation_lines (Some metrics) in
    let* phases := _find_phase_information events_by_type in
    Ok {| name := match nm with
                  | Some n => n
                  | None => match logfile with Some path => path | None => "nameless" end
                  end;
          metrics := metrics; evaluations := evaluations; phases := phases |}.
Proof. intros Hl. unfold GamaReport__init__. now rewrite Hl. Qed.

(** X2.  Lines that are not framed by the markers do not matter after
    the second line: adding one anywhere behind the first two lines
    leaves the result of the constructor as it is. *)
Theorem init_ignores_unframed_lines (first second line : string)
    (before after : list string) (nm : option string) :
  is_framed line = false ->
  GamaReport__init__ None (Some (first :: second :: before ++ line :: after)%list) nm
  = GamaReport__init__ None (Some (first :: second :: before ++ after)%list) nm.
Proof.
  intros Hf.
  rewrite (init_of_lines None (Some (first :: second :: before ++ line :: after)%list) nm
             (first :: second :: before ++ line :: after)%list eq_refl).
  rewrite (init_of_lines None (Some (first :: second :: before ++ after)%list) nm
             (first :: second :: before ++ after)%list eq_refl).
  assert (Hg : group_events (first :: second :: before ++ line :: after)%list
               = group_events (first :: second :: before ++ after)%list).
  { unfold group_events.
    pose proof (ple_lines_of_unframed (first :: second :: before) after line Hf) as Hp.
    rewrite <- !app_comm_cons in Hp. now rewrite Hp. }
  rewrite Hg. reflexivity.
Qed.

(** X6.  A framed line with nothing between its markers stops the
    construction: when the metrics are found and a framed line leaves
    no field after its first and last parts are dropped, the grouping
    fails to unpack the token and the constructor raises [ValueError]. *)
Theorem init_empty_event (logfile : option string) (log_lines : option (list string))
    (nm : option string) (lines ms : list string) (ple_lines : list (list string)) :
  load_log_lines logfile log_lines = Ok lines ->
  _find_metric_configuration lines = Ok ms ->
  ple_lines_of lines = Ok ple_lines ->
  [] ∈ ple_lines ->
  TOKENS_values <> [] ->
  group_events lines = Raise (ValueError (NotEnoughValues 1 0)) /\
  GamaReport__init__ logfile log_lines nm = Raise (ValueError (NotEnoughValues 1 0)).
Proof.
  intros Hl Hm Hple Hin Htok.
  assert (Hg : group_events lines = Raise (ValueError (NotEnoughValues 1 0))).
  { unfold group_events. rewrite Hple. simpl.
    destruct TOKENS_values as [|token tokens]; [congruence|].
    simpl. unfold events_of. now rewrite (unpack_empty_event _ Hin). }
  split; [exact Hg|].
  rewrite (init_of_lines _ _ _ _ Hl), Hm. simpl. now rewrite Hg.
Qed.

End ConstructorInput.

(** ** Invariants of the table *)

Section TableInvariants.
Context {FL : PyFloat}.

Lemma setitem_rectangular (df df' : DataFrame) (key : string) (values : list cell) :
  rectangular df -> length values = index_len df ->
  setitem df key (Series values) = Ok df' -> rectangular df'.
Proof.
  unfold rectangular. intros Hrect Hlen Hs.
  apply setitem_Ok in Hs as (v & Hv & Hidx & Hcols). inversion Hv; subst v.
  rewrite Hidx, Hcols. case_bool_decide.
  - apply Forall_fmap. eapply Forall_impl; [exact Hrect|].
    intros c Hc. simpl. now case_bool_decide.
  - apply Forall_app. split; [assumption|]. now repeat constructor.
Qed.

Lemma cummax_loop_rectangular (ms : list string) (df df' : DataFrame) :
  rectangular df -> cummax_loop df ms = Ok df' -> rectangular df'.
Proof.
  revert df. induction ms as [|metric rest IH]; intros df Hrect Hl.
  - now inversion Hl; subst.
  - apply cummax_loop_cons in Hl as (col & r & df1 & Hg & Ha & Hs & Hl).
    apply (IH df1); [|assumption].
    eapply setitem_rectangular; [eassumption | | eassumption].
    rewrite (accumulate_length _ _ _ Ha).
    apply getitem_Series_elem in Hg as [Hin _].
    unfold rectangular in Hrect. rewrite Forall_forall in Hrect.
    apply (Hrect _ Hin).
Qed.

Lemma DataFrame_new_rectangular (rows : list (list cell)) (names : list string)
    (df : DataFrame) :
  DataFrame_new rows names = Ok df -> rectangular df.
Proof.
  unfold DataFrame_new, rectangular. destruct rows as [|row rows].
  - intros Hd. inversion Hd; subst; clear Hd. simpl.
    apply Forall_fmap, Forall_forall. reflexivity.
  - destruct (max_list (length <$> row :: rows) =? length names); [|discriminate].
    intros Hd. inversion Hd; subst; clear Hd. simpl.
    apply Forall_lookup. intros c col Hc. rewrite list_lookup_imap in Hc.
    destruct (names !! c); [|discriminate]. simpl in Hc. inversion Hc; subst col.
    simpl. now rewrite length_fmap.
Qed.

(** X8.  Whatever the metric names, a table that is built has one row
    for every evaluation event, and each of its columns, the derived
    ones included, has one value for every row. *)
Theorem table_is_rectangular (lines : list (list string))
    (metric_names : option (list string)) (df : DataFrame) :
  _evaluations_to_dataframe lines metric_names = Ok df ->
  index_len df = length lines /\ rectangular df.
Proof.
  intros Hd.
  apply evaluations_to_dataframe_Ok in Hd
    as (rs & ms & df0 & Hlen & _ & _ & _ & Hnew & Hloop).
  split.
  - destruct (cummax_loop_lookup _ _ _ Hloop) as [-> _].
    destruct (DataFrame_new_Ok _ _ _ Hnew) as (-> & _).
    now rewrite length_fmap.
  - eapply cummax_loop_rectangular; [|eassumption].
    eapply DataFrame_new_rectangular. eassumption.
Qed.

(** X9.  The builder raises when an evaluation event has not exactly
    seven fields, and when a text between the commas of its fitness is
    not a float. *)
Theorem table_malformed_event (lines : list (list string))
    (metric_names : option (list string)) (i : nat) (line : list string) :
  lines !! i = Some line ->
  length line <> 7 \/
  (exists fitness s,
     line !! 3 = Some fitness /\
     s ∈ Py.split_char (Py.str_slice_1_m1 fitness) "," /\
     float s = None) ->
  raises (_evaluations_to_dataframe lines metric_names).
Proof.
  intros Hi Hbad. apply not_Ok_raises. intros df Hd.
  apply evaluations_to_dataframe_Ok in Hd as (rs & ms & df0 & _ & Hrows & _).
  destruct (Hrows _ _ Hi) as ([row vs] & _ & Hrow).
  apply evaluation_row_Ok in Hrow as (t & d & pd & f & id_ & ps & lt & -> & Hm & _).
  destruct Hbad as [Hlen | (fitness & s & Hf & Hs & Hnone)].
  - apply Hlen. reflexivity.
  - simpl in Hf. inversion Hf; subst fitness.
    apply list_elem_of_lookup in Hs as [j Hj].
    destruct (mapM_Ok_lookup _ _ _ Hm _ _ Hj) as (v & _ & Hv).
    unfold parse_float in Hv. rewrite Hnone in Hv. discriminate.
Qed.

Lemma list_ascii_of_string_app (s t : string) :
  list_ascii_of_string (s +:+ t)
  = (list_ascii_of_string s ++ list_ascii_of_string t)%list.
Proof.
  induction s as [|a s IH]; [reflexivity|].
  rewrite append_cons. simpl. now rewrite IH.
Qed.

Lemma str_slice_1_m1_between (a b : ascii) (s : string) :
  Py.str_slice_1_m1 (String a (s +:+ String b "")) = s.
Proof.
  unfold Py.str_slice_1_m1, Py.slice_1_m1. simpl.
  rewrite list_ascii_of_string_app. simpl. rewrite removelast_last.
  apply string_of_list_ascii_of_string.
Qed.

(** X10.  The fitness field is read back from its written form: for
    texts without commas, joined by commas between one character in
    front and one behind, the values are the floats of the texts.  The
    two characters are dropped unseen; they need not be parentheses. *)
Theorem metrics_values_of_joined (a b : ascii) (texts : list string) :
  texts <> [] ->
  Forall (fun s => has_char s "," = false) texts ->
  metrics_values_of (String a (join "," texts +:+ String b ""))
  = mapM parse_float texts.
Proof.
  intros Hne Hclean. unfold metrics_values_of.
  rewrite str_slice_1_m1_between. now rewrite split_char_join.
Qed.

Lemma cummax_loop_empty (ms column_labels : list string) :
  (forall m, m ∈ ms -> m ∈ column_labels) ->
  NoDup (column_labels ++ (cummax_name <$> ms))%list ->
  cummax_loop (empty_frame column_labels) ms
  = Ok (empty_frame (column_labels ++ (cummax_name <$> ms))%list).
Proof.
  revert column_labels. induction ms as [|metric rest IH]; intros column_labels Hin Hnd.
  - simpl. now rewrite app_nil_r.
  - assert (Hlab : (columns (empty_frame column_labels)).*1 = column_labels).
    { simpl. rewrite <- list_fmap_compose. apply list_fmap_id. }
    assert (Hg : getitem (empty_frame column_labels) metric = Ok (Series [])).
    { apply getitem_unique.
      - rewrite Hlab. now apply NoDup_app in Hnd as (Hnd & _).
      - simpl. apply list_elem_of_fmap. exists metric. split; [reflexivity|].
        apply Hin. left. }
    simpl cummax_loop. rewrite Hg. simpl.
    assert (Hfresh : cummax_name metric ∉ column_labels).
    { apply NoDup_app in Hnd as (_ & Hdisj & _). intros Hk.
      apply (Hdisj _ Hk). rewrite fmap_cons. left. }
    replace {| index_len := 0;
               columns := if bool_decide (cummax_name metric ∈
                                            ((fun c => (c, [])) <$> column_labels).*1)
                          then _ else _ |}
      with (empty_frame (column_labels ++ [cummax_name metric])%list).
    + rewrite (IH (column_labels ++ [cummax_name metric])%list).
      * now rewrite <- app_assoc.
      * intros m Hm. apply elem_of_app. left. apply Hin. now right.
      * rewrite fmap_cons in Hnd. now rewrite <- app_assoc.
    + unfold empty_frame. f_equal. simpl in Hlab. rewrite Hlab.
      rewrite bool_decide_false by assumption. now rewrite fmap_app.
Qed.

(** X11.  Without evaluation events, the builder returns the table
    without rows that has the columns [n, start, duration], the metrics,
    [pipeline, id] and the derived columns, when these labels are
    distinct; without metric names it raises instead, because
    [metrics_values] was never assigned, and a table built without
    names has at least one row. *)
Theorem table_without_events (ms : list string) :
  (NoDup (column_names_of ms ++ (cummax_name <$> ms))%list ->
   _evaluations_to_dataframe [] (Some ms)
   = Ok (empty_frame (column_names_of ms ++ (cummax_name <$> ms))%list)) /\
  _evaluations_to_dataframe [] None = Raise (UnboundLocalError "metrics_values") /\
  (forall lines df, _evaluations_to_dataframe lines None = Ok df -> 0 < index_len df).
Proof.
  split; [|split].
  - intros Hnd. unfold _evaluations_to_dataframe. simpl.
    apply (cummax_loop_empty ms (column_names_of ms)); [|assumption].
    intros m Hm. unfold column_names_of. apply elem_of_app. right.
    apply elem_of_app. now left.
  - reflexivity.
  - intros lines df Hd.
    pose proof (table_inferred _ _ Hd) as (k & Hne & _).
    apply evaluations_to_dataframe_Ok in Hd
      as (rs & ms' & df0 & Hlen & _ & _ & _ & Hnew & Hloop).
    destruct (cummax_loop_lookup _ _ _ Hloop) as [-> _].
    destruct (DataFrame_new_Ok _ _ _ Hnew) as (-> & _).
    rewrite length_fmap, Hlen. destruct lines; [congruence | simpl; lia].
Qed.

End TableInvariants.

(** ** Invariants of the table of a report *)

Section ReportInvariants.
Context {FL : PyFloat} {TM : PyTime} {ML : MachineLogging} {FS : FileSystem}.

(** X12.  In a constructed report every evaluation event has seven
    fields, and its fitness has exactly as many values as the report has
    metrics, all of them floats. *)
Theorem report_events_well_formed (logfile : option string)
    (log_lines : option (list string)) (nm : option string) (r : GamaReport) :
  GamaReport__init__ logfile log_lines nm = Ok r ->
  exists lines ple_lines,
    load_log_lines logfile log_lines = Ok lines /\
    ple_lines_of lines = Ok ple_lines /\
    forall event, event ∈ events_with TOKENS_EVALUATION_RESULT ple_lines ->
      exists time duration process_duration fitness id_ pipeline_str log_time vs,
        event = [time; duration; process_duration; fitness; id_; pipeline_str; log_time] /\
        metrics_values_of fitness = Ok vs /\
        length vs = length (metrics r).
Proof.
  intros Hr.
  apply report_table in Hr as (lines & ple & d & Hl & Hple & _ & _ & Hfree & Hd).
  apply (table_of_metrics _ _ _ Hfree) in Hd as (rs & _ & Hrows & Harity & _).
  exists lines, ple. repeat split; try assumption.
  intros event [i Hi]%list_elem_of_lookup.
  destruct (Hrows _ _ Hi) as ([row vs] & Hp & Hrow).
  apply evaluation_row_Ok in Hrow as (t & d' & pd & f & id_ & ps & lt & -> & Hm & _).
  exists t, d', pd, f, id_, ps, lt, vs. repeat split; try assumption.
  rewrite Forall_forall in Harity.
  apply (Harity (row, vs)). eapply list_elem_of_lookup_2. eassumption.
Qed.

Lemma report_labels_NoDup (logfile : option string)
    (log_lines : option (list string)) (nm : option string) (r : GamaReport) :
  GamaReport__init__ logfile log_lines nm = Ok r ->
  NoDup (labels (evaluations r)) /\ NoDup (column_names_of (metrics r)).
Proof.
  intros Hr.
  apply report_table in Hr as (lines & ple & d & _ & _ & _ & _ & Hfree & Hd).
  apply evaluations_to_dataframe_Ok in Hd
    as (rs & ms & df0 & _ & _ & Hbuilt & -> & Hnew & Hloop).
  destruct (equal_arity _ _ _ _ Hfree Hbuilt Hnew Hloop) as [Hnd _].
  destruct (DataFrame_new_Ok _ _ _ Hnew) as (_ & Hlab & _).
  split; [|assumption].
  eapply cummax_loop_NoDup; [eassumption|]. now rewrite Hlab.
Qed.

(** X13.  The columns of the table of a report have distinct labels.
    Hence no report is constructed when the scoring metric is called
    [n], [start], [duration], [pipeline] or [id], or is called [length]
    while the length is a metric as well. *)
Theorem report_labels_distinct (logfile : option string)
    (log_lines : option (list string)) (nm : option string) (r : GamaReport) :
  GamaReport__init__ logfile log_lines nm = Ok r ->
  NoDup (labels (evaluations r)) /\
  NoDup (metrics r) /\
  forall m, m ∈ metrics r -> m ∉ ["n"; "start"; "duration"; "pipeline"; "id"].
Proof.
  intros Hr. destruct (report_labels_NoDup _ _ _ _ Hr) as [Hlabels Hnd].
  split; [|split].
  - exact Hlabels.
  - unfold column_names_of in Hnd.
    apply NoDup_app in Hnd as (_ & _ & Hnd). now apply NoDup_app in Hnd as (Hnd & _).
  - intros m Hm Hbase. unfold column_names_of in Hnd.
    apply NoDup_app in Hnd as (_ & Hdisj & Hnd).
    apply NoDup_app in Hnd as (_ & Hdisj' & _).
    rewrite !elem_of_cons, elem_of_nil in Hbase.
    destruct Hbase as [->|[->|[->|[->|[->|[]]]]]].
    + apply (Hdisj "n"); [left | apply elem_of_app; now left].
    + apply (Hdisj "start"); [right; left | apply elem_of_app; now left].
    + apply (Hdisj "duration"); [right; right; left | apply elem_of_app; now left].
    + apply (Hdisj' "pipeline" Hm). left.
    + apply (Hdisj' "id" Hm). right. left.
Qed.

End ReportInvariants.

(** ** The columns of a report by their labels *)

Section ReportColumns.
Context {FL : PyFloat} {TM : PyTime} {ML : MachineLogging} {FS : FileSystem}.

Lemma column_by_rows (events : list (list string))
    (rs : list (list cell * list pyfloat)) (c : nat)
    (g : nat -> list string -> cell) (target : list cell) :
  length rs = length events ->
  length target = length events ->
  (forall i event, events !! i = Some event ->
     target !! i = Some (g i event) /\
     exists p, rs !! i = Some p /\ p.1 !! c = Some (g i event)) ->
  (fun row => default CNone (row !! c)) <$> rs.*1 = target.
Proof.
  intros Hlen Htarget Hrows. apply list_eq. intros i.
  rewrite !list_lookup_fmap.
  destruct (events !! i) as [event|] eqn:Hi.
  - destruct (Hrows _ _ Hi) as (Ht & p & Hp & Hc). rewrite Hp, Ht. simpl.
    now rewrite Hc.
  - apply lookup_ge_None in Hi.
    rewrite (proj2 (lookup_ge_None rs i)) by lia.
    rewrite (proj2 (lookup_ge_None target i)) by lia. reflexivity.
Qed.

Lemma base_label_not_derived (label : string) (ms : list string) :
  last_char label <> Some "x"%char -> label ∉ cummax_name <$> ms.
Proof.
  intros Hlast (m & -> & _)%list_elem_of_fmap. apply Hlast.
  apply last_char_cummax_name.
Qed.

Lemma report_base_columns (lines : list string) (ple_lines : list (list string))
    (logfile : option string) (log_lines : option (list string))
    (nm : option string) (r : GamaReport) :
  GamaReport__init__ logfile log_lines nm = Ok r ->
  load_log_lines logfile log_lines = Ok lines ->
  ple_lines_of lines = Ok ple_lines ->
  let events := events_with TOKENS_EVALUATION_RESULT ple_lines in
    getitem (evaluations r) "n" = Ok (Series (CInt <$> seq 0 (length events))) /\
    getitem (evaluations r) "start"
    = Ok (Series ((fun e => CStr (event_field 0 e)) <$> events)) /\
    getitem (evaluations r) "duration"
    = Ok (Series ((fun e => CStr (event_field 1 e)) <$> events)) /\
    getitem (evaluations r) "pipeline"
    = Ok (Series ((fun e => CStr (event_field 5 e)) <$> events)) /\
    getitem (evaluations r) "id"
    = Ok (Series ((fun e => CStr (event_field 4 e)) <$> events)).
Proof.
  intros Hr Hl0 Hple0.
  pose proof (report_labels_NoDup _ _ _ _ Hr) as (Hnd & _).
  apply report_table in Hr as (lines' & ple & d & Hl & Hple & _ & _ & Hfree & Hd).
  rewrite Hl0 in Hl. inversion Hl; subst lines'.
  rewrite Hple0 in Hple. inversion Hple; subst ple.
  apply (table_of_metrics _ _ _ Hfree) in Hd
    as (rs & Hlen & Hrows & Harity & _ & Hcols & _).
  set (events := events_with TOKENS_EVALUATION_RESULT ple_lines) in *.
  set (L := length (metrics r)) in *.
  assert (Hrow : forall i event, events !! i = Some event ->
            exists t d' pd f id_ ps lt vs,
              event = [t; d'; pd; f; id_; ps; lt] /\ length vs = L /\
              rs !! i = Some (([CInt i; CStr t; CStr d'] ++ (CFloat <$> vs)
                                 ++ [CStr ps; CStr id_])%list, vs)).
  { intros i event Hi. destruct (Hrows _ _ Hi) as ([row vs] & Hp & Hrow).
    apply evaluation_row_Ok in Hrow as (t & d' & pd & f & id_ & ps & lt & -> & _ & ->).
    exists t, d', pd, f, id_, ps, lt, vs. repeat split; try assumption.
    rewrite Forall_forall in Harity.
    pose proof (list_elem_of_lookup_2 _ _ _ Hp) as Hin.
    apply Harity in Hin. exact Hin. }
  assert (Hcol : forall c label (g : nat -> list string -> cell) target,
            column_names_of (metrics r) !! c = Some label ->
            last_char label <> Some "x"%char ->
            length target = length events ->
            (forall i event, events !! i = Some event ->
               target !! i = Some (g i event) /\
               exists p, rs !! i = Some p /\ p.1 !! c = Some (g i event)) ->
            getitem (evaluations r) label = Ok (Series target)).
  { intros c label g target Hc Hlast Htarget Hg.
    destruct (Hcols _ _ Hc) as (col & Hlook & Hsame).
    rewrite (Hsame (base_label_not_derived _ _ Hlast)) in Hlook.
    rewrite (column_by_rows events rs c g target Hlen Htarget Hg) in Hlook.
    apply getitem_unique; [exact Hnd|]. eapply list_elem_of_lookup_2. eassumption. }
  assert (Hpipeline : column_names_of (metrics r) !! (3 + L) = Some "pipeline").
  { rewrite column_names_lookup, lookup_app_r by (unfold L; lia).
    now rewrite Nat.sub_diag. }
  assert (Hid : column_names_of (metrics r) !! (3 + (L + 1)) = Some "id").
  { rewrite column_names_lookup, lookup_app_r by (unfold L; lia).
    now replace (L + 1 - length (metrics r)) with 1 by (unfold L; lia). }
  cbv zeta. repeat split.
  - apply (Hcol 0 "n" (fun i _ => CInt i)); [reflexivity | discriminate | |].
    + now rewrite length_fmap, length_seq.
    + intros i event Hi. split.
      * rewrite list_lookup_fmap, lookup_seq_lt; [reflexivity|].
        eapply lookup_lt_Some. eassumption.
      * destruct (Hrow _ _ Hi) as (t & d' & pd & f & id_ & ps & lt & vs & -> & _ & Hp).
        eexists. split; [exact Hp | reflexivity].
  - apply (Hcol 1 "start" (fun _ e => CStr (event_field 0 e)));
      [reflexivity | discriminate | now rewrite length_fmap |].
    intros i event Hi. split; [now rewrite list_lookup_fmap, Hi|].
    destruct (Hrow _ _ Hi) as (t & d' & pd & f & id_ & ps & lt & vs & -> & _ & Hp).
    eexists. split; [exact Hp | reflexivity].
  - apply (Hcol 2 "duration" (fun _ e => CStr (event_field 1 e)));
      [reflexivity | discriminate | now rewrite length_fmap |].
    intros i event Hi. split; [now rewrite list_lookup_fmap, Hi|].
    destruct (Hrow _ _ Hi) as (t & d' & pd & f & id_ & ps & lt & vs & -> & _ & Hp).
    eexists. split; [exact Hp | reflexivity].
  - apply (Hcol (3 + L) "pipeline" (fun _ e => CStr (event_field 5 e)));
      [exact Hpipeline | discriminate | now rewrite length_fmap |].
    intros i event Hi. split; [now rewrite list_lookup_fmap, Hi|].
    destruct (Hrow _ _ Hi) as (t & d' & pd & f & id_ & ps & lt & vs & -> & Hvs & Hp).
    eexists. split; [exact Hp|]. simpl.
    rewrite lookup_app_r by (rewrite length_fmap; lia).
    rewrite length_fmap, Hvs, Nat.sub_diag. reflexivity.
  - apply (Hcol (3 + (L + 1)) "id" (fun _ e => CStr (event_field 4 e)));
      [exact Hid | discriminate | now rewrite length_fmap |].
    intros i event Hi. split; [now rewrite list_lookup_fmap, Hi|].
    destruct (Hrow _ _ Hi) as (t & d' & pd & f & id_ & ps & lt & vs & -> & Hvs & Hp).
    eexists. split; [exact Hp|]. simpl.
    rewrite lookup_app_r by (rewrite length_fmap; lia).
    rewrite length_fmap, Hvs. now replace (L + 1 - L) with 1 by lia.
Qed.

(** X14.  In the table of a report, the columns [n], [start],
    [duration], [pipeline] and [id] are found under their labels and hold,
    row by row, the position of the evaluation event and its first,
    second, sixth and fifth field. *)
Theorem report_columns_by_label (logfile : option string)
    (log_lines : option (list string)) (nm : option string) (r : GamaReport) :
  GamaReport__init__ logfile log_lines nm = Ok r ->
  exists lines ple_lines,
    load_log_lines logfile log_lines = Ok lines /\
    ple_lines_of lines = Ok ple_lines /\
    let events := events_with TOKENS_EVALUATION_RESULT ple_lines in
    getitem (evaluations r) "n" = Ok (Series (CInt <$> seq 0 (length events))) /\
    getitem (evaluations r) "start"
    = Ok (Series ((fun e => CStr (event_field 0 e)) <$> events)) /\
    getitem (evaluations r) "duration"
    = Ok (Series ((fun e => CStr (event_field 1 e)) <$> events)) /\
    getitem (evaluations r) "pipeline"
    = Ok (Series ((fun e => CStr (event_field 5 e)) <$> events)) /\
    getitem (evaluations r) "id"
    = Ok (Series ((fun e => CStr (event_field 4 e)) <$> events)).
Proof.
  intros Hr.
  destruct (report_table _ _ _ _ Hr) as (lines & ple & d & Hl & Hple & _).
  exists lines, ple. split; [assumption|]. split; [assumption|].
  apply (report_base_columns lines ple _ _ _ _ Hr Hl Hple).
Qed.

Section IndividualsOfReport.
Variable Individual : Type.
Variable from_string : cell -> result Individual.

Lemma individuals_of_zip (events : list (list string)) :
  individuals_of Individual from_string
    (zip ((fun e => CStr (event_field 4 e)) <$> events)
         ((fun e => CStr (event_field 5 e)) <$> events))
  = let* decoded := mapM (fun e => from_string (CStr (event_field 5 e))) events in
    Ok (zip ((fun e => CStr (event_field 4 e)) <$> events) decoded).
Proof.
  induction events as [|event events IH]; [reflexivity|].
  rewrite !fmap_cons. simpl. rewrite IH.
  destruct (from_string (CStr (event_field 5 event))); [|reflexivity]. simpl.
  now destruct (mapM _ events).
Qed.

(** X15.  The individuals of a constructed report.  The first reading
    of the property decodes the pipeline (sixth field) of every
    evaluation event, in the order of the log, and stores it under the
    id (fifth field) of the event; it raises the exception of the first
    pipeline that cannot be decoded, and then stores nothing.  Once the
    individuals are stored, reading the property returns them as they
    are, whatever the decoder. *)
Theorem individuals_of_report (logfile : option string)
    (log_lines : option (list string)) (nm : option string) (r : GamaReport) :
  GamaReport__init__ logfile log_lines nm = Ok r ->
  exists lines ple_lines,
    load_log_lines logfile log_lines = Ok lines /\
    ple_lines_of lines = Ok ple_lines /\
    let events := events_with TOKENS_EVALUATION_RESULT ple_lines in
    individuals Individual from_string r None
    = match mapM (fun e => from_string (CStr (event_field 5 e))) events with
      | Ok decoded =>
          let stored := zip ((fun e => CStr (event_field 4 e)) <$> events) decoded in
          Returns (stored, Some stored)
      | Raise e => Raises e
      end /\
    forall stored cache (decoder : cell -> result Individual),
      individuals Individual from_string r None = Returns (stored, cache) ->
      individuals Individual decoder r cache = Returns (stored, cache).
Proof.
  intros Hr.
  destruct (report_table _ _ _ _ Hr) as (lines & ple & d & Hl & Hple & _).
  destruct (report_base_columns lines ple _ _ _ _ Hr Hl Hple)
    as (_ & _ & _ & Hpipeline & Hid).
  exists lines, ple. split; [assumption|]. split; [assumption|]. cbv zeta.
  assert (Hfirst : individuals Individual from_string r None
    = match mapM (fun e => from_string (CStr (event_field 5 e)))
                 (events_with TOKENS_EVALUATION_RESULT ple) with
      | Ok decoded =>
          Returns (zip ((fun e => CStr (event_field 4 e))
                          <$> events_with TOKENS_EVALUATION_RESULT ple) decoded,
                   Some (zip ((fun e => CStr (event_field 4 e))
                                <$> events_with TOKENS_EVALUATION_RESULT ple) decoded))
      | Raise e => Raises e
      end).
  { unfold individuals, getattr. rewrite Hid, Hpipeline. simpl iter.
    rewrite individuals_of_zip.
    now destruct (mapM _ (events_with TOKENS_EVALUATION_RESULT ple)). }
  split; [exact Hfirst|].
  intros stored cache decoder Hret. rewrite Hfirst in Hret.
  destruct (mapM _ (events_with TOKENS_EVALUATION_RESULT ple)); [|discriminate].
  inversion Hret; subst. reflexivity.
Qed.

End IndividualsOfReport.

End ReportColumns.

(** ** Lines that are not stripped *)

Lemma last_char_split (p : string) (a : ascii) :
  last_char p = Some a -> exists q, p = q +:+ String a "".
Proof.
  induction p as [|x p IH]; [discriminate|]. simpl.
  destruct (last_char p) as [b|] eqn:Hl.
  - intros Hb. inversion Hb; subst b. destruct (IH eq_refl) as [q ->].
    exists (String x q). reflexivity.
  - intros Hx. inversion Hx; subst x. destruct p; [|simpl in Hl].
    + exists "". reflexivity.
    + destruct (last_char p); discriminate.
Qed.

Lemma rev_last (q : string) (a : ascii) :
  String.rev (q +:+ String a "") = String a (String.rev q).
Proof. unfold String.rev. now rewrite rev_app_app. Qed.

Lemma endswith_other_last (line p : string) (a : ascii) :
  last_char p = Some a -> last_char line <> Some a -> Py.endswith line p = false.
Proof.
  intros [q ->]%last_char_split Hline. unfold Py.endswith. rewrite rev_last.
  destruct (last_char line) as [c|] eqn:Hc.
  - apply last_char_split in Hc as [l ->]. rewrite rev_last. simpl.
    destruct (Ascii.eqb a c) eqn:Hac; [|reflexivity].
    apply Ascii.eqb_eq in Hac. congruence.
  - destruct line as [|x line]; [reflexivity|]. simpl in Hc.
    destruct (last_char line); discriminate.
Qed.

Section UnstrippedLines.
Context {FL : PyFloat} {TM : PyTime} {ML : MachineLogging} {FS : FileSystem}.

Lemma ple_lines_of_other_last (lines : list string) (a : ascii) :
  last_char PLE_END = Some a ->
  Forall (fun line => last_char line <> Some a) lines ->
  ple_lines_of lines = Ok [].
Proof.
  intros Hend Hlines. induction lines as [|line lines IH]; [reflexivity|].
  apply Forall_cons in Hlines as [Hline Hlines].
  rewrite ple_lines_of_cons. unfold is_framed.
  rewrite (endswith_other_last _ _ _ Hend Hline), andb_false_r. now apply IH.
Qed.

(** X16.  Lines given in memory are taken as they are: when none of
    them ends with the last character of the end marker, as the lines
    that [readlines] returns with their newlines, no line counts as an
    event, and the constructor raises instead of returning a report
    without events. *)
Theorem init_unstripped_lines (lines : list string) (nm : option string) (a : ascii) :
  last_char PLE_END = Some a ->
  Forall (fun line => last_char line <> Some a) lines ->
  ple_lines_of lines = Ok [] /\
  raises (GamaReport__init__ None (Some lines) nm).
Proof.
  intros Hend Hlines.
  pose proof (ple_lines_of_other_last _ _ Hend Hlines) as Hple.
  split; [exact Hple|].
  apply not_Ok_raises. intros r Hr.
  apply init_Ok in Hr as (lines' & d & evs & Hl & _ & Hg & _ & _ & Hp).
  inversion Hl; subst lines'.
  destruct (group_events_Ok _ _ Hg) as (ple & Hple' & Hby).
  rewrite Hple in Hple'. inversion Hple'; subst ple.
  apply find_phase_information_records in Hp.
  apply Forall2_cons_inv_l in Hp as (record & info & Hrec & _ & _).
  destruct Hrec as (starts & ends & f1 & f2 & st & g1 & alg & et & ts & te
                    & Hs & _ & Hsel & _).
  rewrite (events_by_type_of_lookup _ _ _ _ Hby TOKENS_PHASE_START) in Hs.
  destruct (decide (TOKENS_PHASE_START ∈ TOKENS_values)).
  - inversion Hs; subst starts. discriminate Hsel.
  - rewrite lookup_empty in Hs. discriminate.
Qed.

End UnstrippedLines.

(** ** Lines read from a file *)

Lemma lstrip_chars_blank (w l : list ascii) :
  forallb Py.isspace w = true -> Py.lstrip_chars (w ++ l) = Py.lstrip_chars l.
Proof.
  induction w as [|a w IH]; [reflexivity|]. simpl.
  intros [Ha Hw]%andb_prop. rewrite Ha. now apply IH.
Qed.

Lemma last_char_rev (t : string) : head (rev (list_ascii_of_string t)) = last_char t.
Proof.
  induction t as [|a t IH]; [reflexivity|]. simpl. rewrite <- IH.
  now destruct (rev (list_ascii_of_string t)).
Qed.

Lemma lstrip_chars_stripped (t : string) :
  stripped t = true ->
  Py.lstrip_chars (rev (list_ascii_of_string t)) = rev (list_ascii_of_string t).
Proof.
  unfold stripped. rewrite <- last_char_rev.
  destruct (rev (list_ascii_of_string t)) as [|a l]; [reflexivity|]. simpl.
  now intros ->%negb_true_iff.
Qed.

(** [rstrip] takes away the white space a line ends in, and no more. *)
Lemma rstrip_app (t w : string) :
  stripped t = true -> blank w = true -> Py.rstrip (t +:+ w) = t.
Proof.
  intros Ht Hw. unfold Py.rstrip.
  rewrite list_ascii_of_string_app, rev_app_distr, lstrip_chars_blank.
  - rewrite (lstrip_chars_stripped _ Ht), rev_involutive.
    apply string_of_list_ascii_of_string.
  - unfold blank in Hw. rewrite forallb_forall in Hw |- *.
    intros a Ha. apply Hw. now apply in_rev.
Qed.

Section FileLines.
Context {FL : PyFloat} {TM : PyTime} {ML : MachineLogging} {FS : FileSystem}.

(** X3.  Reading a log from a file undoes the line ends: when every
    line of the file is a text that does not end in white space,
    followed by white space only (its newline), the constructor gives
    for the file what it gives for these texts as lines in memory, with
    the path of the file as the name unless a name is given.  When the
    file cannot be opened, the constructor raises. *)
Theorem init_from_file (path : string) (nm : option string) :
  (readlines path = None ->
   GamaReport__init__ (Some path) None nm = Raise (FileNotFoundError path)) /\
  (forall written : list (string * string),
     readlines path = Some ((fun p => p.1 +:+ p.2) <$> written) ->
     Forall (fun p => stripped p.1 = true /\ blank p.2 = true) written ->
     GamaReport__init__ (Some path) None nm
     = GamaReport__init__ None (Some written.*1) (Some (default path nm))).
Proof.
  split.
  - intros Hr. unfold GamaReport__init__. simpl. now rewrite Hr.
  - intros written Hr Hw.
    assert (Hl : load_log_lines (Some path) None = Ok written.*1).
    { simpl. rewrite Hr. simpl. f_equal.
      rewrite <- list_fmap_compose. apply Forall_fmap_ext_1.
      eapply Forall_impl; [exact Hw|]. intros [t w] [Ht Hb]. simpl in *.
      now apply rstrip_app. }
    rewrite (init_of_lines (Some path) None nm _ Hl).
    rewrite (init_of_lines None (Some written.*1) _ _ eq_refl).
    now destruct nm.
Qed.

End FileLines.

(** ** The derived columns of a table without metric names *)

Section InferredColumns.
Context {FL : PyFloat}.

Lemma inferred_as_named (lines : list (list string)) (df : DataFrame) :
  _evaluations_to_dataframe lines None = Ok df ->
  exists k, _evaluations_to_dataframe lines (Some (synthesized_names k)) = Ok df.
Proof.
  unfold _evaluations_to_dataframe. intros Hd.
  inv_bind Hd. destruct a as [rows mv]. inv_bind Hd. inv_bind E0.
  inversion E0; subst a; clear E0.
  exists (length a0). rewrite E. simpl. exact Hd.
Qed.

Lemma synthesized_names_lookup (k j : nat) :
  j < k -> synthesized_names k !! j = Some ("metric_" +:+ string_of_nat j).
Proof.
  intros Hj. unfold synthesized_names.
  now rewrite list_lookup_fmap, lookup_seq_lt.
Qed.

Hypothesis float_le_total :
  forall x y, isnan x = false -> isnan y = false ->
              float_le x y = true \/ float_le y x = true.
Hypothesis float_le_trans :
  forall x y z, float_le x y = true -> float_le y z = true -> float_le x z = true.

(** X17.  A table built without metric names has, for every position
    [j] of the fitness tuples, the derived column [metric_<j>_cummax].
    In a row whose [j]-th fitness value is a NaN it holds this NaN; in
    every other row [i] it holds a maximum of those [j]-th fitness
    values of the rows [0 .. i] that are numbers, and from a row to a
    later row the numbers of the column never decrease.  Of the order
    [<=] of the floats the proof uses that it is transitive, and total
    on the values that are not NaN. *)
Theorem inferred_cummax_columns (lines : list (list string)) (df : DataFrame) :
  _evaluations_to_dataframe lines None = Ok df ->
  exists k,
    (forall line, line ∈ lines -> fitness_arity line = Some k) /\
    forall j, j < k ->
      exists values cummax_values,
        Forall2 (metric_value j) lines values /\
        getitem df (cummax_name ("metric_" +:+ string_of_nat j))
        = Ok (Series (CFloat <$> cummax_values)) /\
        length cummax_values = length values /\
        (forall i v, values !! i = Some v -> isnan v = true ->
                     cummax_values !! i = Some v) /\
        (forall i v c, values !! i = Some v -> isnan v = false ->
                       cummax_values !! i = Some c ->
                       is_maximum c (numbers (take (S i) values))) /\
        (forall i i' a b, i <= i' ->
                          cummax_values !! i = Some a ->
                          cummax_values !! i' = Some b ->
                          isnan a = false -> isnan b = false ->
                          float_le a b = true).
Proof.
  intros Hd. destruct (inferred_as_named _ _ Hd) as [k Hnamed].
  pose proof (cummax_free_last _ (last_char_synthesized k)) as Hfree.
  apply (table_of_metrics _ _ _ Hfree) in Hnamed
    as (rs & Hlen & Hrows & Harity & _ & _ & Hderived).
  assert (Hk : length (synthesized_names k) = k).
  { unfold synthesized_names. now rewrite length_fmap, length_seq. }
  rewrite Hk in Harity. exists k. split.
  - intros line [i Hi]%list_elem_of_lookup.
    destruct (Hrows _ _ Hi) as (p & Hp & Hrow).
    rewrite (evaluation_row_arity _ _ _ Hrow). f_equal.
    rewrite Forall_forall in Harity. apply Harity.
    eapply list_elem_of_lookup_2. eassumption.
  - intros j Hj.
    destruct (Hderived _ _ (synthesized_names_lookup k j Hj)) as (values & HF & Hg).
    exists values, (running_max None values). split; [|split; [exact Hg|]].
    + apply Forall2_same_length_lookup_2.
      * rewrite <- Hlen. eapply Forall2_length. eassumption.
      * intros i event v Hi Hv. destruct (Hrows _ _ Hi) as (p & Hp & Hrow).
        destruct (Forall2_lookup_l _ _ _ _ _ HF Hp) as (v' & Hv' & Hpv).
        rewrite Hv in Hv'. inversion Hv'; subst v'.
        eapply evaluation_row_value; eassumption.
    + apply (running_max_properties float_le_total float_le_trans).
Qed.

End InferredColumns.

(** * The properties on the sample log *)

Import Sample.

(** The order of the sample floats is total on the numbers, and
    transitive. *)
Lemma le_float_total (x y : number_or_nan) :
  isnan x = false -> isnan y = false -> le_float x y = true \/ le_float y x = true.
Proof.
  destruct x as [a|], y as [b|]; simpl; try discriminate. intros _ _.
  rewrite !Qle_bool_iff. destruct (Qlt_le_dec a b) as [Hlt|Hle]; [left|right].
  - now apply Qlt_le_weak.
  - assumption.
Qed.

Lemma le_float_trans (x y z : number_or_nan) :
  le_float x y = true -> le_float y z = true -> le_float x z = true.
Proof.
  destruct x as [a|], y as [b|], z as [c|]; simpl; try discriminate.
  rewrite !Qle_bool_iff. apply Qle_trans.
Qed.

Example split_delimiter : Py.split "PLE;EVAL;a;END!" ";" = Ok ["PLE"; "EVAL"; "a"; "END!"].
Proof. reflexivity. Qed.

Example split_trailing : Py.split "a;b;" ";" = Ok ["a"; "b"; ""].
Proof. reflexivity. Qed.

Example split_long_separator : Py.split "a<>b<><>c<" "<>" = Ok ["a"; "b"; ""; "c<"].
Proof. reflexivity. Qed.

Example slice_fitness : Py.str_slice_1_m1 "(0.9,-5)" = "0.9,-5".
Proof. reflexivity. Qed.

Example sample_metrics : _find_metric_configuration log = Ok ["accuracy"; "length"].
Proof. reflexivity. Qed.

Example sample_from_file :
  GamaReport__init__ (Some "gama.log") None None
  = let* r := GamaReport__init__ None (Some log) None in
    Ok {| name := "gama.log"; metrics := metrics r; evaluations := evaluations r;
          phases := phases r |}.
Proof. by_evaluation. Qed.

(** The derived columns of the report of a log with a NaN. *)
Lemma cummax_columns_witness :
  exists r,
    GamaReport__init__ None (Some log_with_nan) None = Ok r /\
    exists lines ple_lines,
      load_log_lines None (Some log_with_nan) = Ok lines /\
      ple_lines_of lines = Ok ple_lines /\
      forall j metric, metrics r !! j = Some metric ->
        exists values cummax_values,
          Forall2 (metric_value j) (events_with TOKENS_EVALUATION_RESULT ple_lines) values /\
          getitem (evaluations r) (cummax_name metric)
          = Ok (Series (CFloat <$> cummax_values)) /\
          length cummax_values = length values /\
          (forall i v, values !! i = Some v -> isnan v = true ->
                       cummax_values !! i = Some v) /\
          (forall i v c, values !! i = Some v -> isnan v = false ->
                         cummax_values !! i = Some c ->
                         is_maximum c (numbers (take (S i) values))) /\
          (forall i i' a b, i <= i' ->
                            cummax_values !! i = Some a ->
                            cummax_values !! i' = Some b ->
                            isnan a = false -> isnan b = false ->
                            float_le a b = true).
Proof.
  destruct (is_Ok_true (GamaReport__init__ None (Some log_with_nan) None)) as [r Hr];
    [by_evaluation|].
  exists r. split; [exact Hr|].
  apply (cummax_columns (FL := decimal_float) le_float_total le_float_trans
           None (Some log_with_nan) None r Hr).
Defined.

(** C1, counterexample.  [float] reads [nan], and a report is
    constructed from a log whose second accuracy is [nan].  Its column
    [accuracy_cummax] is [0.9, nan, 0.9]: the value in row 1 is not a
    maximum of the accuracies [0.9, nan] of the rows 0 and 1, which have
    no maximum, and from row 0 to row 1 the column does not go up or
    stay, since [0.9 <= nan] is false. *)
Lemma nan_in_cummax_column :
  (let* r := GamaReport__init__ None (Some log_with_nan) None in
   let* accuracy := getitem (evaluations r) "accuracy" in
   let* accuracy_cummax := getitem (evaluations r) "accuracy_cummax" in
   Ok (accuracy, accuracy_cummax))
  = Ok (Series [CFloat (Finite (9 # 10)); CFloat NaN; CFloat (Finite (8 # 10))],
        Series [CFloat (Finite (9 # 10)); CFloat NaN; CFloat (Finite (9 # 10))]) /\
  (forall m, ~ is_maximum m [Finite (9 # 10); NaN]) /\
  float_le (Finite (9 # 10)) NaN = false.
Proof.
  split; [by_evaluation|]. split; [|reflexivity].
  intros m [Hin Hmax].
  pose proof (Hmax (Finite (9 # 10)) ltac:(left)) as H1.
  pose proof (Hmax NaN ltac:(right; left)) as H2.
  destruct m; simpl in *; discriminate.
Qed.






(** The grouping of a log with an event of the unknown token [CUSTOM]. *)
Lemma events_by_type_expected_tokens_only_witness :
  exists ple_lines d,
    ple_lines_of log_with_custom_event = Ok ple_lines /\
    group_events log_with_custom_event = Ok d /\
    ("EVAL_ERR" ∈ TOKENS_values -> d !! "EVAL_ERR" = Some (events_with "EVAL_ERR" ple_lines)) /\
    ("EVAL_ERR" ∈ TOKENS_values -> (forall event, "EVAL_ERR" :: event ∉ ple_lines) ->
     d !! "EVAL_ERR" = Some []) /\
    ("EVAL_ERR" ∉ TOKENS_values -> d !! "EVAL_ERR" = None).
Proof.
  destruct (is_Ok_true (ple_lines_of log_with_custom_event)) as [ple_lines Hple];
    [by_evaluation|].
  destruct (is_Ok_true (group_events log_with_custom_event)) as [d Hd];
    [by_evaluation|].
  exists ple_lines, d. split; [exact Hple|]. split; [exact Hd|].
  apply (events_by_type_expected_tokens_only log_with_custom_event _ _ Hple Hd).
Defined.

(** C5, counterexample.  The framed event [PLE;CUSTOM;payload;END!] has a
    token that is not expected; the grouping has no key [CUSTOM]. *)
Lemma unknown_token_is_dropped :
  (let* ple_lines := ple_lines_of log_with_custom_event in
   let* d := group_events log_with_custom_event in
   Ok (bool_decide (["CUSTOM"; "payload"] ∈ ple_lines),
       bool_decide ("CUSTOM" ∈ TOKENS_values),
       d !! "CUSTOM"))
  = Ok (true, false, None).
Proof. by_evaluation. Qed.

(** The phases of the sample log. *)
Lemma phase_events_have_three_fields_witness :
  exists d info,
    group_events log = Ok d /\
    _find_phase_information d = Ok info /\
    Forall2 (phase_record_of d) phases_order info.
Proof.
  destruct (is_Ok_true (let* d := group_events log in
                         let* info := _find_phase_information d in Ok (d, info)))
    as [[d info] Hboth]; [by_evaluation|].
  apply bind_Ok in Hboth as (d' & Hd & Hboth).
  apply bind_Ok in Hboth as (info' & Hinfo & Hboth).
  inversion Hboth; subst d' info'.
  exists d, info. split; [exact Hd|]. split; [exact Hinfo|].
  apply (phase_events_have_three_fields d info Hinfo).
Defined.

(** C6, counterexample.  In the sample log the events selected for the
    search have three fields, and the algorithm [AsyncEA] of the record
    is the second field of the end event, not the first; with start
    events [(phase, time)] and end events [(algorithm, time)] of two
    fields no report is constructed. *)
Lemma phase_events_not_two_fields :
  (let* d := group_events log in
   let* starts := dict_getitem d TOKENS_PHASE_START in
   let* ends := dict_getitem d TOKENS_PHASE_END in
   let* info := _find_phase_information d in
   Ok (selected_event "search" starts, selected_event "search" ends, info !! 1))
  = Ok (Some ["search"; "AsyncEA"; "2020-01-01 10:00:06,000000"],
        Some ["search"; "AsyncEA"; "2020-01-01 10:10:06,000000"],
        Some ("search", "AsyncEA", total_seconds 600000000)) /\
  GamaReport__init__ None (Some two_field_log) None = Raise IndexError.
Proof. split; by_evaluation. Qed.

(** The phases of the sample report. *)
Lemma phases_fixed_order_witness :
  exists r,
    GamaReport__init__ None (Some log) None = Ok r /\
    (exists a1 d1 a2 d2 a3 d3,
       phases r = [("preprocessing", a1, d1); ("search", a2, d2); ("postprocess", a3, d3)]) /\
    (exists lines d,
       load_log_lines None (Some log) = Ok lines /\ group_events lines = Ok d /\
       Forall2 (phase_record_of d) phases_order (phases r)) /\
    (forall phase algorithm duration,
       (phase, algorithm, duration) ∈ phases r ->
       exists ts te, duration = total_seconds (te - ts) /\
                     ((0 <= duration)%Q <-> (ts <= te)%Z)).
Proof.
  destruct (is_Ok_true (GamaReport__init__ None (Some log) None)) as [r Hr];
    [by_evaluation|].
  exists r. split; [exact Hr|].
  apply (phases_fixed_order None (Some log) None r Hr).
Defined.

(** C7, counterexample.  A report is constructed from the log whose
    search ends before it starts; the duration of its search is
    negative, -600 seconds. *)
Lemma negative_phase_duration :
  (let* r := GamaReport__init__ None (Some backwards_log) None in Ok (phases r))
  = Ok [("preprocessing", "default", total_seconds 5500000);
        ("search", "AsyncEA", total_seconds (-600000000));
        ("postprocess", "BestFit", total_seconds 2250000)] /\
  ~ (0 <= total_seconds (-600000000))%Q.
Proof.
  split; [by_evaluation|].
  unfold total_seconds, Qle. simpl. lia.
Qed.

Lemma search_end_is_missing (lines : list string)
    (d : gmap string (list (list string))) :
  d !! "END" = Some [["preprocessing"; "default"; "2020-01-01 10:00:05,500000"];
                     ["postprocess"; "BestFit"; "2020-01-01 10:10:09,250000"]] ->
  phase_missing d "search".
Proof.
  intros Hd. right. intros ends Hends.
  change TOKENS_PHASE_END with "END" in Hends. rewrite Hd in Hends.
  inversion Hends; subst ends. reflexivity.
Qed.

(** The sample log without the end of the search. *)
Lemma init_missing_phase_witness :
  exists d,
    group_events log_without_search_end = Ok d /\
    phase_missing d "search" /\
    raises (GamaReport__init__ None (Some log_without_search_end) None) /\
    (forall ms evaluation_lines df,
       _find_metric_configuration log_without_search_end = Ok ms ->
       d !! TOKENS_EVALUATION_RESULT = Some evaluation_lines ->
       _evaluations_to_dataframe evaluation_lines (Some ms) = Ok df ->
       TOKENS_PHASE_START ∈ TOKENS_values ->
       TOKENS_PHASE_END ∈ TOKENS_values ->
       (forall p, phase_before p "search" ->
                  exists record, phase_information d p = Ok record) ->
       GamaReport__init__ None (Some log_without_search_end) None = Raise IndexError).
Proof.
  destruct (is_Ok_true (group_events log_without_search_end)) as [d Hd];
    [by_evaluation|].
  assert (Hmiss : phase_missing d "search").
  { apply (search_end_is_missing log_without_search_end).
    assert (Hend : (let* d := group_events log_without_search_end in Ok (d !! "END"))
                   = Ok (Some [["preprocessing"; "default"; "2020-01-01 10:00:05,500000"];
                               ["postprocess"; "BestFit"; "2020-01-01 10:10:09,250000"]]))
      by by_evaluation.
    rewrite Hd in Hend. now inversion Hend. }
  exists d. split; [exact Hd|]. split; [exact Hmiss|].
  apply (init_missing_phase None (Some log_without_search_end) None
                            log_without_search_end d "search").
  - reflexivity.
  - exact Hd.
  - right. left.
  - exact Hmiss.
Defined.

(** C8, counterexample.  The log has no event that ends the search, and
    the fitness of its evaluation event is not a number: the constructor
    raises the [ValueError] of [float], not the [IndexError] of the
    missing phase. *)
Lemma missing_phase_other_error :
  exists d,
    group_events log_without_search_end_bad_fitness = Ok d /\
    phase_missing d "search" /\
    GamaReport__init__ None (Some log_without_search_end_bad_fitness) None
    = Raise (ValueError (CouldNotConvertToFloat "abc")) /\
    GamaReport__init__ None (Some log_without_search_end_bad_fitness) None
    <> Raise IndexError.
Proof.
  destruct (is_Ok_true (group_events log_without_search_end_bad_fitness)) as [d Hd];
    [by_evaluation|].
  assert (Hraise : GamaReport__init__ None (Some log_without_search_end_bad_fitness) None
                   = Raise (ValueError (CouldNotConvertToFloat "abc")))
    by by_evaluation.
  exists d. split; [exact Hd|]. split.
  - apply (search_end_is_missing log_without_search_end_bad_fitness).
    assert (Hend : (let* d := group_events log_without_search_end_bad_fitness in
                    Ok (d !! "END"))
                   = Ok (Some [["preprocessing"; "default"; "2020-01-01 10:00:05,500000"];
                               ["postprocess"; "BestFit"; "2020-01-01 10:10:09,250000"]]))
      by by_evaluation.
    rewrite Hd in Hend. now inversion Hend.
  - split; [exact Hraise|]. rewrite Hraise. discriminate.
Qed.

(** The three ways of calling the constructor. *)
Lemma init_exactly_one_source_witness :
  GamaReport__init__ (Some "gama.log") (Some log) None
  = Raise (ValueError (Msg "Exactly one of 'logfile' and 'loglines' may be provided at once.")) /\
  GamaReport__init__ None None None
  = Raise (ValueError (Msg "Either 'logfile' or 'loglines' must be provided. Both are None.")) /\
  exists r,
    GamaReport__init__ None (Some log) None = Ok r /\
    ((is_Some (@None string) /\ Some log = None) \/ (@None string = None /\ is_Some (Some log))).
Proof.
  split; [apply (proj1 (init_exactly_one_source None))|].
  split; [apply (proj1 (proj2 (init_exactly_one_source None)))|].
  destruct (is_Ok_true (GamaReport__init__ None (Some log) None)) as [r Hr];
    [by_evaluation|].
  exists r. split; [exact Hr|].
  apply (proj2 (proj2 (init_exactly_one_source None)) None (Some log) r Hr).
Defined.

(** A log of one line. *)
Lemma init_short_log_witness :
  length ["Using GAMA version 0.1.0."] < 2 /\
  _find_metric_configuration ["Using GAMA version 0.1.0."] = Raise IndexError /\
  GamaReport__init__ None (Some ["Using GAMA version 0.1.0."]) None = Raise IndexError /\
  forall r, GamaReport__init__ None (Some ["Using GAMA version 0.1.0."]) None <> Ok r.
Proof.
  assert (Hlen : length ["Using GAMA version 0.1.0."] < 2) by (simpl; lia).
  split; [exact Hlen|].
  apply (init_short_log ["Using GAMA version 0.1.0."] None Hlen).
Defined.

(** ** Further properties on the sample log *)

(** Three events written and read back. *)
Lemma ple_lines_of_format_witness :
  PLE_DELIM = String ";" "" /\
  ple_lines_of ((fun e => format_event e.1 e.2) <$> events_to_write)
  = Ok ((fun e => e.1 :: e.2) <$> events_to_write).
Proof.
  split; [reflexivity|].
  apply (ple_lines_of_format ";" events_to_write); try reflexivity.
  repeat constructor.
Defined.

(** A note among the events of the sample log. *)
Lemma init_ignores_unframed_lines_witness :
  is_framed "INFO search started" = false /\
  GamaReport__init__ None (Some log_with_note) None
  = GamaReport__init__ None (Some log) None.
Proof.
  split; [reflexivity|].
  apply (init_ignores_unframed_lines "Using GAMA version 0.1.0." config_line
           "INFO search started" phase_lines eval_lines None).
  reflexivity.
Defined.

(** The file [gama.log] holds the lines of the sample log, each with a
    newline. *)
Lemma init_from_file_witness :
  readlines "gama.log"
  = Some ((fun p => p.1 +:+ p.2) <$> ((fun line => (line, String "010" "")) <$> log)) /\
  GamaReport__init__ (Some "gama.log") None None
  = GamaReport__init__ None (Some log) (Some "gama.log").
Proof.
  split; [reflexivity|].
  assert (Hw : Forall (fun p => stripped p.1 = true /\ blank p.2 = true)
                      ((fun line => (line, String "010" "")) <$> log))
    by repeat constructor.
  exact (proj2 (init_from_file "gama.log" None)
           ((fun line => (line, String "010" "")) <$> log) eq_refl Hw).
Defined.

(** The sample log followed by the line [PLEEND!]. *)
Lemma init_empty_event_witness :
  exists ple_lines,
    ple_lines_of log_with_empty_event = Ok ple_lines /\
    [] ∈ ple_lines /\
    group_events log_with_empty_event = Raise (ValueError (NotEnoughValues 1 0)) /\
    GamaReport__init__ None (Some log_with_empty_event) None
    = Raise (ValueError (NotEnoughValues 1 0)).
Proof.
  destruct (is_Ok_true (ple_lines_of log_with_empty_event)) as [ple Hple];
    [by_evaluation|].
  assert (Hin : [] ∈ ple).
  { assert (Hb : (let* ple := ple_lines_of log_with_empty_event in
                  Ok (bool_decide ([] ∈ ple))) = Ok true) by by_evaluation.
    rewrite Hple in Hb. simpl in Hb. inversion Hb as [Hb'].
    apply (bool_decide_unpack _). now rewrite Hb'. }
  exists ple. split; [exact Hple|]. split; [exact Hin|].
  apply (init_empty_event None (Some log_with_empty_event) None
           log_with_empty_event ["accuracy"; "length"] ple).
  - reflexivity.
  - reflexivity.
  - exact Hple.
  - exact Hin.
  - discriminate.
Defined.

(** The table of two evaluation events. *)
Lemma table_is_rectangular_witness :
  exists df,
    _evaluations_to_dataframe two_evaluations (Some ["accuracy"; "length"]) = Ok df /\
    index_len df = length two_evaluations /\ rectangular df.
Proof.
  destruct (is_Ok_true
              (_evaluations_to_dataframe two_evaluations (Some ["accuracy"; "length"])))
    as [df Hdf]; [by_evaluation|].
  exists df. split; [exact Hdf|].
  apply (table_is_rectangular two_evaluations (Some ["accuracy"; "length"]) df Hdf).
Defined.

(** An event of three fields. *)
Lemma table_malformed_event_witness :
  raises (_evaluations_to_dataframe [["2020-01-01 10:00:07,000000"; "1.5"; "(0.9)"]]
                                    (Some ["accuracy"])).
Proof.
  apply (table_malformed_event [["2020-01-01 10:00:07,000000"; "1.5"; "(0.9)"]]
           (Some ["accuracy"]) 0 ["2020-01-01 10:00:07,000000"; "1.5"; "(0.9)"]).
  - reflexivity.
  - left. simpl. lia.
Defined.

(** The fitness [(0.9,-5)]. *)
Lemma metrics_values_of_joined_witness :
  metrics_values_of "(0.9,-5)" = mapM parse_float ["0.9"; "-5"].
Proof.
  apply (metrics_values_of_joined "(" ")" ["0.9"; "-5"]).
  - discriminate.
  - repeat constructor.
Defined.

(** The table without rows of the metric [accuracy]. *)
Lemma table_without_events_witness :
  _evaluations_to_dataframe [] (Some ["accuracy"])
  = Ok (empty_frame ["n"; "start"; "duration"; "accuracy"; "pipeline"; "id";
                     "accuracy_cummax"]).
Proof.
  apply (proj1 (table_without_events ["accuracy"])).
  apply (bool_decide_eq_true_1 _). by_evaluation.
Defined.

(** The evaluation events of the sample report. *)
Lemma report_events_well_formed_witness :
  exists r,
    GamaReport__init__ None (Some log) None = Ok r /\
    exists lines ple_lines,
      load_log_lines None (Some log) = Ok lines /\
      ple_lines_of lines = Ok ple_lines /\
      forall event, event ∈ events_with TOKENS_EVALUATION_RESULT ple_lines ->
        exists time duration process_duration fitness id_ pipeline_str log_time vs,
          event = [time; duration; process_duration; fitness; id_; pipeline_str; log_time] /\
          metrics_values_of fitness = Ok vs /\
          length vs = length (metrics r).
Proof.
  destruct (is_Ok_true (GamaReport__init__ None (Some log) None)) as [r Hr];
    [by_evaluation|].
  exists r. split; [exact Hr|].
  apply (report_events_well_formed None (Some log) None r Hr).
Defined.

(** The labels of the sample report. *)
Lemma report_labels_distinct_witness :
  exists r,
    GamaReport__init__ None (Some log) None = Ok r /\
    NoDup (labels (evaluations r)) /\
    NoDup (metrics r) /\
    forall m, m ∈ metrics r -> m ∉ ["n"; "start"; "duration"; "pipeline"; "id"].
Proof.
  destruct (is_Ok_true (GamaReport__init__ None (Some log) None)) as [r Hr];
    [by_evaluation|].
  exists r. split; [exact Hr|].
  apply (report_labels_distinct None (Some log) None r Hr).
Defined.

(** The columns of the sample report. *)
Lemma report_columns_by_label_witness :
  exists r,
    GamaReport__init__ None (Some log) None = Ok r /\
    exists lines ple_lines,
      load_log_lines None (Some log) = Ok lines /\
      ple_lines_of lines = Ok ple_lines /\
      let events := events_with TOKENS_EVALUATION_RESULT ple_lines in
      getitem (evaluations r) "n" = Ok (Series (CInt <$> seq 0 (length events))) /\
      getitem (evaluations r) "start"
      = Ok (Series ((fun e => CStr (event_field 0 e)) <$> events)) /\
      getitem (evaluations r) "duration"
      = Ok (Series ((fun e => CStr (event_field 1 e)) <$> events)) /\
      getitem (evaluations r) "pipeline"
      = Ok (Series ((fun e => CStr (event_field 5 e)) <$> events)) /\
      getitem (evaluations r) "id"
      = Ok (Series ((fun e => CStr (event_field 4 e)) <$> events)).
Proof.
  destruct (is_Ok_true (GamaReport__init__ None (Some log) None)) as [r Hr];
    [by_evaluation|].
  exists r. split; [exact Hr|].
  apply (report_columns_by_label None (Some log) None r Hr).
Defined.

(** The individuals of the sample report, decoded as lists of
    primitives. *)
Lemma individuals_of_report_witness :
  exists r,
    GamaReport__init__ None (Some log) None = Ok r /\
    exists lines ple_lines,
      load_log_lines None (Some log) = Ok lines /\
      ple_lines_of lines = Ok ple_lines /\
      let events := events_with TOKENS_EVALUATION_RESULT ple_lines in
      individuals (list string) primitives r None
      = match mapM (fun e => primitives (CStr (event_field 5 e))) events with
        | Ok decoded =>
            let stored := zip ((fun e => CStr (event_field 4 e)) <$> events) decoded in
            Returns (stored, Some stored)
        | Raise e => Raises e
        end /\
      forall stored cache (decoder : cell -> result (list string)),
        individuals (list string) primitives r None = Returns (stored, cache) ->
        individuals (list string) decoder r cache = Returns (stored, cache).
Proof.
  destruct (is_Ok_true (GamaReport__init__ None (Some log) None)) as [r Hr];
    [by_evaluation|].
  exists r. split; [exact Hr|].
  apply (individuals_of_report (list string) primitives None (Some log) None r Hr).
Defined.

(** The sample log with a newline at the end of every line. *)
Lemma init_unstripped_lines_witness :
  last_char PLE_END = Some "!"%char /\
  ple_lines_of unstripped_log = Ok [] /\
  raises (GamaReport__init__ None (Some unstripped_log) None).
Proof.
  split; [reflexivity|].
  apply (init_unstripped_lines unstripped_log None "!"%char).
  - reflexivity.
  - apply (bool_decide_eq_true_1 _). by_evaluation.
Defined.

(** The derived columns of the table of three evaluation events, one
    of them with a NaN, built without metric names. *)
Lemma inferred_cummax_columns_witness :
  exists df,
    _evaluations_to_dataframe evaluations_with_nan None = Ok df /\
    exists k,
      (forall line, line ∈ evaluations_with_nan -> fitness_arity line = Some k) /\
      forall j, j < k ->
        exists values cummax_values,
          Forall2 (metric_value j) evaluations_with_nan values /\
          getitem df (cummax_name ("metric_" +:+ string_of_nat j))
          = Ok (Series (CFloat <$> cummax_values)) /\
          length cummax_values = length values /\
          (forall i v, values !! i = Some v -> isnan v = true ->
                       cummax_values !! i = Some v) /\
          (forall i v c, values !! i = Some v -> isnan v = false ->
                         cummax_values !! i = Some c ->
                         is_maximum c (numbers (take (S i) values))) /\
          (forall i i' a b, i <= i' ->
                            cummax_values !! i = Some a ->
                            cummax_values !! i' = Some b ->
                            isnan a = false -> isnan b = false ->
                            float_le a b = true).
Proof.
  destruct (is_Ok_true (_evaluations_to_dataframe evaluations_with_nan None)) as [df Hdf];
    [by_evaluation|].
  exists df. split; [exact Hdf|].
  apply (inferred_cummax_columns (FL := decimal_float) le_float_total le_float_trans
           evaluations_with_nan df Hdf).
Defined.
